(** * Adaptive conversation intelligence engine

  A shallow embedding of the interview engine: the stage state machine
  (discovery_engine.py), the insight and theme tracker
  (context_manager.py), the pattern and question engine
  (dynamic_questioning.py), the style classifier
  (personality_profiler.py) and the alignment scoring
  (analysis_engine.py, scoring_system.py).

  Conventions of the embedding:
  - Python [int] is [Z]; Python [float] is the primitive binary64 type
    [float], so sums such as [0.2 + 0.2 + 0.2] round as they do in
    CPython;
  - Python [str] is [string]; every library keyword is ASCII, and
    [str.lower] is modelled on the letters A..Z (no other character of
    the 8-bit range lower-cases to an ASCII letter);
  - a Python [dict] is an insertion-ordered association list,
    because the code iterates over [values()] and [items()];
  - an exception is a [Raise] result; the clock ([datetime.now()]) is an
    explicit argument of the operations that read it. *)

From Stdlib Require Import ZArith List String Ascii Bool Lia Floats Uint63
  DecimalString.
Set Warnings "-inexact-float,-register-all".
Import ListNotations.
Local Open Scope string_scope.
Local Open Scope list_scope.
Local Open Scope Z_scope.

(* ================================================================== *)
(** * Part I: the program *)
(* ================================================================== *)

(** ** Python values used by every module *)

Module Py.

Inductive exn : Type :=
| KeyError (k : string)
| IndexError
| ZeroDivisionError
| RecursionError.

Inductive result (A : Type) : Type :=
| Ok (a : A)
| Raise (e : exn).
Arguments Ok {A} a.
Arguments Raise {A} e.

Definition bind {A B : Type} (c : result A) (k : A -> result B) : result B :=
  match c with
  | Ok a => k a
  | Raise e => Raise e
  end.

(** [l[i]], with Python's negative indices. *)
Definition index {A : Type} (l : list A) (i : Z) : result A :=
  let n := Z.of_nat (List.length l) in
  let j := if i <? 0 then i + n else i in
  if (0 <=? j) && (j <? n)
  then match nth_error l (Z.to_nat j) with
       | Some x => Ok x
       | None => Raise IndexError
       end
  else Raise IndexError.

(** *** Insertion-ordered dictionaries with string keys *)

Definition dict (V : Type) : Type := list (string * V).

Fixpoint get {V : Type} (d : dict V) (k : string) : option V :=
  match d with
  | [] => None
  | (k', v) :: d' => if String.eqb k' k then Some v else get d' k
  end.

(** [d[k]] *)
Definition getitem {V : Type} (d : dict V) (k : string) : result V :=
  match get d k with
  | Some v => Ok v
  | None => Raise (KeyError k)
  end.

(** [d.get(k, default)] *)
Definition get_default {V : Type} (d : dict V) (k : string) (default : V) : V :=
  match get d k with
  | Some v => v
  | None => default
  end.

(** [d[k] = v]: an existing key keeps its position, a new one goes last. *)
Fixpoint setitem {V : Type} (d : dict V) (k : string) (v : V) : dict V :=
  match d with
  | [] => [(k, v)]
  | (k', v') :: d' =>
      if String.eqb k' k then (k, v) :: d' else (k', v') :: setitem d' k v
  end.

Definition contains_key {V : Type} (d : dict V) (k : string) : bool :=
  match get d k with
  | Some _ => true
  | None => false
  end.

Definition keys {V : Type} (d : dict V) : list string := map fst d.
Definition values {V : Type} (d : dict V) : list V := map snd d.

(** *** Strings *)

Definition lower_char (c : ascii) : ascii :=
  let n := nat_of_ascii c in
  if (Nat.leb 65 n && Nat.leb n 90)%bool then ascii_of_nat (n + 32) else c.

(** [s.lower()] *)
Fixpoint lower (s : string) : string :=
  match s with
  | EmptyString => EmptyString
  | String c s' => String (lower_char c) (lower s')
  end.

(** [sub in s] *)
Fixpoint str_in (sub s : string) : bool :=
  if String.prefix sub s then true
  else match s with
       | EmptyString => false
       | String _ s' => str_in sub s'
       end.

(** [sep.join(l)] *)
Definition join (sep : string) (l : list string) : string :=
  String.concat sep l.

(** [s.startswith(prefix)] *)
Definition startswith (s prefix : string) : bool := String.prefix prefix s.

(** [s.replace(old, new)]: every occurrence, left to right, without
    overlap; [fuel] bounds the number of steps. *)
Fixpoint replace_from (fuel : nat) (old new s : string) : string :=
match fuel with
| O => s
| S fuel' =>
    if String.prefix old s
    then (new ++ replace_from fuel' old new
                   (String.substring (String.length old)
                                     (String.length s - String.length old) s))%string
    else match s with
         | EmptyString => EmptyString
         | String c s' => String c (replace_from fuel' old new s')
         end
end.

Fixpoint interleave (new s : string) : string :=
match s with
| EmptyString => new
| String c s' => (new ++ String c (interleave new s'))%string
end.

Definition replace (s old new : string) : string :=
match old with
| EmptyString => interleave new s
| String _ _ => replace_from (S (String.length s)) old new s
end.

(** [c.isspace()] for the characters of the 8-bit range. *)
Definition is_space (c : ascii) : bool :=
let n := nat_of_ascii c in
(Nat.leb 9 n && Nat.leb n 13) || (Nat.leb 28 n && Nat.leb n 32)
|| Nat.eqb n 133 || Nat.eqb n 160.

(** [s.split()]: the maximal runs of characters that are not spaces;
    [word] is the run being read. *)
Fixpoint split_from (s word : string) : list string :=
match s with
| EmptyString =>
    match word with
    | EmptyString => []
    | String _ _ => [word]
    end
| String c s' =>
    if is_space c
    then match word with
         | EmptyString => split_from s' EmptyString
         | String _ _ => word :: split_from s' EmptyString
         end
    else split_from s' (word ++ String c EmptyString)%string
end.

Definition split (s : string) : list string := split_from s EmptyString.

(** [set(l)], its members in order of first occurrence. *)
Definition set_of (l : list string) : list string := nodup string_dec l.

(** [x in l] *)
Definition mem (x : string) (l : list string) : bool :=
existsb (String.eqb x) l.

(** [len(a & b)] on two sets. *)
Definition inter_len (a b : list string) : Z :=
Z.of_nat (List.length (filter (fun x => mem x a) b)).

(** [any(kw in text for kw in kws)] *)
Definition any_in (kws : list string) (text : string) : bool :=
  existsb (fun kw => str_in kw text) kws.

(** [sum(1 for kw in kws if kw in text)] *)
Definition count_in (kws : list string) (text : string) : Z :=
  Z.of_nat (List.length (filter (fun kw => str_in kw text) kws)).

(** *** Numbers *)

(** [float(n)] for an [int]; exact below 2^53 in absolute value, which
    covers every caller (stage indices and list lengths). *)
Definition int_to_float (n : Z) : float :=
  if n <? 0
  then PrimFloat.opp (PrimFloat.of_uint63 (Uint63.of_Z (- n)))
  else PrimFloat.of_uint63 (Uint63.of_Z n).

(** [a / b] on two [int]s. *)
Definition truediv (a b : Z) : result float :=
  if b =? 0 then Raise ZeroDivisionError
  else Ok (PrimFloat.div (int_to_float a) (int_to_float b)).

(** [min(a, b)] on floats: the first argument unless the second is
    smaller. *)
Definition fmin (a b : float) : float :=
if (b <? a)%float then b else a.

(** The integer nearest to [|x| * 10^digits], ties to even, computed on
    the exact binary value of a finite non-zero [x], with the sign of [x]:
    the decimal rounding behind [round(x, n)] and the ['.nf'] format. *)
Definition scaled_nearest (x : float) (digits : nat) : option (bool * Z) :=
match Prim2SF x with
| S754_finite s m e =>
    let num := Zpos m * 10 ^ Z.of_nat digits in
    if 0 <=? e then Some (s, num * 2 ^ e)
    else
      let den := 2 ^ (- e) in
      let q := num / den in
      let r := num mod den in
      Some (s, match Z.compare (2 * r) den with
               | Lt => q
               | Gt => q + 1
               | Eq => if Z.even q then q else q + 1
               end)
| _ => None
end.

(** A weight or threshold in tenths: 0.6 is 6 and 0.7 is 7. *)
Definition tenths (x : float) : Z :=
  match scaled_nearest x 1 with
  | Some (_, n) => n
  | None => 0
  end.

(** [round(x, 1)]: the float nearest to the one-decimal rounding of [x];
    zeros, infinities and NaN are returned as they are. *)
Definition round1 (x : float) : float :=
match scaled_nearest x 1 with
| Some (s, n) =>
    match n with
    | Zpos p =>
        SF2Prim (SFdiv prec emax (S754_finite s p 0) (S754_finite false 10 0))
    | _ => if s then neg_zero else zero
    end
| None => x
end.

Definition decimal (n : Z) : string :=
DecimalString.NilZero.string_of_uint (N.to_uint (Z.to_N n)).

(** [f"{x:.2f}"] *)
Definition format_2f (x : float) : string :=
match Prim2SF x with
| S754_nan => "nan"
| S754_infinity s => if s then "-inf" else "inf"
| S754_zero s => if s then "-0.00" else "0.00"
| S754_finite _ _ _ =>
    match scaled_nearest x 2 with
    | Some (s, n) =>
        ((if s then "-" else "") ++ decimal (n / 100) ++ "."
         ++ decimal (n mod 100 / 10) ++ decimal (n mod 10))%string
    | None => ""
    end
end.

End Py.

Notation "x <- c ;; k" := (Py.bind c (fun x => k))
(at level 61, c at next level, right associativity).

(** ** discovery_engine.py: the stage state machine *)

Module DiscoverySession.
Import Py.

Record StageProgress : Type := {
  completed : bool;
  question_count : Z
}.

(** One entry of [user_responses[stage]]. *)
Record Answer : Type := {
  response : string;
  timestamp : string;
  question_number : Z
}.

Record t : Type := {
  current_stage : Z;
  stage_progress : dict StageProgress;
  user_responses : dict (list Answer);
  session_id : string
}.

(** [self.stages]: set by the constructor and never assigned again. *)
Definition stages : list string :=
  ["introduction"; "skills_assessment"; "passion_exploration";
   "values_clarification"; "synthesis"; "recommendations"].

Definition len_stages : Z := Z.of_nat (List.length stages).

(** The constructor; [now_id] is the formatted clock reading. *)
Definition __init__ (now_id : string) : t :=
  let init :=
    fold_left
      (fun acc stage =>
         (setitem (fst acc) stage [],
          setitem (snd acc) stage {| completed := false; question_count := 0 |}))
      stages ([], []) in
  {| current_stage := 0;
     stage_progress := snd init;
     user_responses := fst init;
     session_id := now_id |}.

Definition get_current_stage (s : t) : result string :=
  if current_stage s <? len_stages
  then index stages (current_stage s)
  else Ok "completed".

Definition question_templates : dict (list string) :=
  [("introduction",
    ["Hello! I'm excited to guide you on this journey of self-discovery. What's your name, and what drew you to explore your spiritual gifts and passions today?";
     "Tell me a bit about yourself - what brings you joy in your daily life?";
     "Have you ever taken any personality or spiritual gifts assessments before? What did you learn?"]);
   ("skills_assessment",
    ["Let's explore your natural talents. What activities do you find yourself excelling at with minimal effort?";
     "Think about compliments you often receive from others. What strengths do people frequently notice in you?";
     "What skills have you developed over the years that others come to you for help with?";
     "In what areas do you feel confident teaching or mentoring others?"]);
   ("passion_exploration",
    ["What activities make you lose track of time because you're so engaged?";
     "When you daydream about your ideal life, what are you doing?";
     "What causes or issues in the world stir something deep within you?";
     "Think of a time when you felt most alive and energized. What were you doing?"]);
   ("values_clarification",
    ["What principles or values guide your most important decisions?";
     "What would you want to be remembered for at the end of your life?";
     "What injustices or problems in the world motivate you to take action?";
     "What does 'making a difference' mean to you personally?"]);
   ("synthesis",
    ["Looking at what we've discussed about your skills and passions, where do you see the strongest overlap?";
     "What patterns do you notice emerging from our conversation?";
     "If you could design a role that combines your best skills with your deepest passions, what would it look like?"]);
   ("recommendations",
    ["Based on our journey together, I'd like to offer some insights about your spiritual gifts. Are you ready to explore these discoveries?";
     "What resonates most strongly with you from what we've uncovered?";
     "How might you begin to explore or develop these gifts further?"])].

Definition get_stage_questions (stage : string) : list string :=
  get_default question_templates stage [].

(** [self.stage_progress[name]["completed"] = True; self.current_stage += 1]
    when the index is below the number of stages, nothing otherwise. *)
Definition _advance_to_next_stage (s : t) : result t :=
  if current_stage s <? len_stages then
    current_stage_name <- index stages (current_stage s) ;;
    progress <- getitem (stage_progress s) current_stage_name ;;
    Ok {| current_stage := current_stage s + 1;
          stage_progress :=
            setitem (stage_progress s) current_stage_name
              {| completed := true; question_count := question_count progress |};
          user_responses := user_responses s;
          session_id := session_id s |}
  else Ok s.

(** The recursion of [get_next_question], with the call depth as fuel. *)
Fixpoint get_next_question_depth (depth : nat) (s : t)
  : result (option string * t) :=
  match depth with
  | O => Raise RecursionError
  | S depth' =>
      current_stage_name <- get_current_stage s ;;
      if String.eqb current_stage_name "completed" then Ok (None, s)
      else
        let questions := get_stage_questions current_stage_name in
        current_progress <- getitem (stage_progress s) current_stage_name ;;
        let question_index := question_count current_progress in
        if Z.of_nat (List.length questions) <=? question_index then
          s' <- _advance_to_next_stage s ;;
          get_next_question_depth depth' s'
        else
          q <- index questions question_index ;;
          Ok (Some q, s)
  end.

(** CPython's default recursion limit. *)
Definition recursion_limit : nat := 1000.

Definition get_next_question (s : t) : result (option string * t) :=
  get_next_question_depth recursion_limit s.

(** [now] is [datetime.now().isoformat()]. The argument of [append] is
    evaluated, with both subscripts, before the list is changed. *)
Definition process_response (s : t) (user_response now : string)
  : result (t * bool) :=
  current_stage_name <- get_current_stage s ;;
  if String.eqb current_stage_name "completed" then Ok (s, false)
  else
    answers <- getitem (user_responses s) current_stage_name ;;
    progress <- getitem (stage_progress s) current_stage_name ;;
    let entry := {| response := user_response;
                    timestamp := now;
                    question_number := question_count progress |} in
    let user_responses' :=
      setitem (user_responses s) current_stage_name (answers ++ [entry]) in
    Ok ({| current_stage := current_stage s;
           stage_progress :=
             setitem (stage_progress s) current_stage_name
               {| completed := completed progress;
                  question_count := question_count progress + 1 |};
           user_responses := user_responses';
           session_id := session_id s |}, true).

(** A sequence of [n] calls of [_advance_to_next_stage]. *)
Fixpoint advance_calls (n : nat) (s : t) : result t :=
  match n with
  | O => Ok s
  | S n' => s' <- _advance_to_next_stage s ;; advance_calls n' s'
  end.

(** The sessions the constructor and the operations produce: the index
    is within [0, len(stages)] and every stage has both of its entries. *)
Definition wf (s : t) : bool :=
  (0 <=? current_stage s) && (current_stage s <=? len_stages)
  && forallb (fun stage => contains_key (stage_progress s) stage
                           && contains_key (user_responses s) stage) stages.

Definition terminal (s : t) : Prop := len_stages <= current_stage s.

Definition answers_of (s : t) (stage : string) : option (list Answer) :=
  get (user_responses s) stage.

Definition progress_of (s : t) (stage : string) : option StageProgress :=
  get (stage_progress s) stage.

(** The sessions a conversation reaches: a new session, then any of the
    three operations of the state machine that returned. *)
Inductive reachable : t -> Prop :=
| reachable_init (now_id : string) :
    reachable (__init__ now_id)
| reachable_advance (s s' : t) :
    reachable s -> _advance_to_next_stage s = Ok s' -> reachable s'
| reachable_response (s s' : t) (text now : string) (accepted : bool) :
    reachable s -> process_response s text now = Ok (s', accepted) ->
    reachable s'
| reachable_question (s s' : t) (q : option string) :
    reachable s -> get_next_question s = Ok (q, s') -> reachable s'.

End DiscoverySession.

(** ** JSON records, as [json.dump] writes and [json.load] reads them

  A saved file is modelled by the JSON value it holds: the text layer
  of the [json] library is taken to reproduce that value. *)

Module Json.

Inductive t : Type :=
| JNull
| JBool (b : bool)
| JInt (n : Z)
| JFloat (x : float)
| JStr (s : string)
| JList (l : list t)
| JDict (d : list (string * t)).


End Json.

Module DiscoverySessionStore.
Import Py Json DiscoverySession.

Definition progress_to_json (p : StageProgress) : Json.t :=
  JDict [("completed", JBool (completed p));
         ("question_count", JInt (question_count p))].

Definition answer_to_json (a : Answer) : Json.t :=
  JDict [("response", JStr (response a));
         ("timestamp", JStr (timestamp a));
         ("question_number", JInt (question_number a))].

Definition stage_progress_to_json (d : dict StageProgress) : Json.t :=
  JDict (map (fun kv => (fst kv, progress_to_json (snd kv))) d).

Definition user_responses_to_json (d : dict (list Answer)) : Json.t :=
  JDict (map (fun kv => (fst kv, JList (map answer_to_json (snd kv)))) d).

(** [sum(len(responses) for responses in self.user_responses.values())] *)
Definition total_responses (s : DiscoverySession.t) : Z :=
  fold_left Z.add
    (map (fun responses => Z.of_nat (List.length responses))
         (values (user_responses s))) 0.

(** [(self.current_stage / len(self.stages)) * 100] *)
Definition completion_percentage (s : DiscoverySession.t) : float :=
  (int_to_float (current_stage s) / int_to_float len_stages * 100)%float.

Definition get_session_summary (s : DiscoverySession.t) : result Json.t :=
  current_stage_name <- get_current_stage s ;;
  Ok (JDict [("session_id", JStr (session_id s));
             ("current_stage", JStr current_stage_name);
             ("progress", stage_progress_to_json (stage_progress s));
             ("total_responses", JInt (total_responses s));
             ("completion_percentage", JFloat (completion_percentage s))]).

(** The record [save_session] dumps; [created] is the clock reading. *)
Definition save_session (s : DiscoverySession.t) (created : string)
  : result Json.t :=
  summary <- get_session_summary s ;;
  Ok (JDict [("session_id", JStr (session_id s));
             ("created", JStr created);
             ("current_stage", JInt (current_stage s));
             ("stage_progress", stage_progress_to_json (stage_progress s));
             ("user_responses", user_responses_to_json (user_responses s));
             ("summary", summary)]).



(** Reading a JSON value at the type the session gives a field; [None]
    for a value of another shape. *)











    (** raised by the first subscript and not caught by the [except]
        clause; no assignment has run *)


End DiscoverySessionStore.

(** ** context_manager.py: insights, themes and the exchange log *)

Module EnhancedContextManager.
Import Py.

Record ContextInsight : Type := {
  content : string;
  stage : string;
  confidence : float;
  timestamp : string;
  insight_type : string
}.

Record ConversationTheme : Type := {
  theme_name : string;
  evidence : list string;
  strength : float;
  first_mentioned : string
}.

(** One entry of [conversation_timeline]. *)
Record Exchange : Type := {
  exchange_timestamp : string;
  exchange_stage : string;
  user_input : string;
  bot_response : string;
  exchange_id : Z
}.

Record t : Type := {
  insights : list ContextInsight;
  themes : dict ConversationTheme;
  conversation_timeline : list Exchange;
  current_stage : string;
  max_context_window : Z;
  insight_threshold : float
}.

Definition __init__ : t :=
  {| insights := [];
     themes := [];
     conversation_timeline := [];
     current_stage := "introduction";
     max_context_window := 8;
     insight_threshold := 0.6 |}.

Definition insight_patterns : dict (list (string * float)) :=
  [("strong_skill_indicator",
    [("people often come to me", 0.8%float);
     ("i excel at", 0.8%float);
     ("i'm naturally good at", 0.9%float);
     ("others seek me out", 0.8%float);
     ("i find it easy to", 0.7%float)]);
   ("passion_indicator",
    [("i love", 0.8%float);
     ("makes me feel alive", 0.9%float);
     ("lose track of time", 0.9%float);
     ("deeply passionate about", 0.9%float);
     ("stirs my heart", 0.8%float)]);
   ("value_indicator",
    [("important to me", 0.7%float);
     ("i believe in", 0.7%float);
     ("guides my decisions", 0.8%float);
     ("core value", 0.9%float)]);
   ("gift_indicator",
    [("calling", 0.8%float);
     ("ministry", 0.8%float);
     ("gifted in", 0.9%float);
     ("spiritual gift", 0.9%float)])].

(** The inner loop of [_extract_insights_from_exchange] over the
    patterns of one insight type. [clock k] is the k-th reading of
    [datetime.now().isoformat()] made so far in the enclosing
    [add_exchange]; the loop returns the number of readings with the
    log. There is no [break]: every pattern of the list is tried. *)
Fixpoint extract_patterns (threshold : float) (user_input user_lower stage : string)
         (the_type : string) (patterns : list (string * float))
         (clock : nat -> string) (reads : nat) (log : list ContextInsight)
  : nat * list ContextInsight :=
  match patterns with
  | [] => (reads, log)
  | (pattern, conf) :: patterns' =>
      if str_in pattern user_lower then
        let insight := {| content := user_input;
                          stage := stage;
                          confidence := conf;
                          timestamp := clock reads;
                          insight_type := the_type |} in
        let log' := if (threshold <=? conf)%float then log ++ [insight] else log in
        extract_patterns threshold user_input user_lower stage the_type
                         patterns' clock (S reads) log'
      else
        extract_patterns threshold user_input user_lower stage the_type
                         patterns' clock reads log
  end.

(** The outer loop, over the insight types of a pattern library. *)
Fixpoint extract_types (threshold : float) (user_input user_lower stage : string)
         (library : dict (list (string * float)))
         (clock : nat -> string) (reads : nat) (log : list ContextInsight)
  : nat * list ContextInsight :=
  match library with
  | [] => (reads, log)
  | (the_type, patterns) :: library' =>
      let r := extract_patterns threshold user_input user_lower stage
                                the_type patterns clock reads log in
      extract_types threshold user_input user_lower stage library'
                    clock (fst r) (snd r)
  end.

Definition _extract_insights_from_exchange (self : t) (user_input stage : string)
           (clock : nat -> string) (reads : nat) : nat * t :=
  let user_lower := lower user_input in
  let r := extract_types (insight_threshold self) user_input user_lower stage
                         insight_patterns clock reads (insights self) in
  (fst r,
   {| insights := snd r;
      themes := themes self;
      conversation_timeline := conversation_timeline self;
      current_stage := current_stage self;
      max_context_window := max_context_window self;
      insight_threshold := insight_threshold self |}).

Definition theme_keywords : dict (list string) :=
  [("teaching", ["teach"; "explain"; "mentor"; "guide"; "instruct"; "help others learn"]);
   ("leadership", ["lead"; "direct"; "manage"; "organize"; "vision"; "inspire others"]);
   ("helping", ["help"; "serve"; "support"; "assist"; "care for"; "come alongside"]);
   ("creativity", ["create"; "design"; "artistic"; "express"; "beauty"; "innovation"]);
   ("justice", ["justice"; "fairness"; "equality"; "advocate"; "stand up for"; "rights"]);
   ("people_focus", ["people"; "relationships"; "community"; "connection"; "social"])].

(** The body of the loop of [_update_themes] for one theme. *)
Definition update_theme (themes : dict ConversationTheme)
           (user_input user_lower stage : string)
           (name : string) (keywords : list string) : dict ConversationTheme :=
  let matches := filter (fun kw => str_in kw user_lower) keywords in
  match matches with
  | [] => themes
  | _ :: _ =>
      match get themes name with
      | None =>
          setitem themes name
            {| theme_name := name;
               evidence := [user_input];
               strength := 1.0;
               first_mentioned := stage |}
      | Some theme =>
          let strength1 := (strength theme + 0.5)%float in
          let strength2 := if (5.0 <? strength1)%float then 5.0%float else strength1 in
          setitem themes name
            {| theme_name := theme_name theme;
               evidence := evidence theme ++ [user_input];
               strength := strength2;
               first_mentioned := first_mentioned theme |}
      end
  end.

Definition update_themes_with (library : dict (list string))
           (themes : dict ConversationTheme) (user_input stage : string)
  : dict ConversationTheme :=
  let user_lower := lower user_input in
  fold_left
    (fun acc entry => update_theme acc user_input user_lower stage
                                   (fst entry) (snd entry))
    library themes.

Definition _update_themes (self : t) (user_input stage : string) : t :=
  {| insights := insights self;
     themes := update_themes_with theme_keywords (themes self) user_input stage;
     conversation_timeline := conversation_timeline self;
     current_stage := current_stage self;
     max_context_window := max_context_window self;
     insight_threshold := insight_threshold self |}.

(** [l[i:]] *)
Definition slice_from {A : Type} (l : list A) (i : Z) : list A :=
  let n := Z.of_nat (List.length l) in
  let start := if i <? 0 then Z.max (n + i) 0 else Z.min i n in
  skipn (Z.to_nat start) l.

Definition _manage_context_window (self : t) : t :=
  if max_context_window self <? Z.of_nat (List.length (conversation_timeline self))
  then {| insights := insights self;
          themes := themes self;
          conversation_timeline :=
            slice_from (conversation_timeline self) (- max_context_window self);
          current_stage := current_stage self;
          max_context_window := max_context_window self;
          insight_threshold := insight_threshold self |}
  else self.

(** [add_exchange]; the first clock reading stamps the exchange. *)
Definition add_exchange (self : t) (user_input bot_response stage : string)
           (clock : nat -> string) : t :=
  let exchange := {| exchange_timestamp := clock O;
                     exchange_stage := stage;
                     user_input := user_input;
                     bot_response := bot_response;
                     exchange_id := Z.of_nat (List.length (conversation_timeline self)) |} in
  let self1 := {| insights := insights self;
                  themes := themes self;
                  conversation_timeline := conversation_timeline self ++ [exchange];
                  current_stage := stage;
                  max_context_window := max_context_window self;
                  insight_threshold := insight_threshold self |} in
  let self2 := snd (_extract_insights_from_exchange self1 user_input stage clock 1%nat) in
  let self3 := _update_themes self2 user_input stage in
  _manage_context_window self3.

(** One call of [add_exchange], as the command surface issues it. *)
Record Call : Type := {
  call_input : string;
  call_response : string;
  call_stage : string;
  call_clock : nat -> string
}.

Definition run (self : t) (calls : list Call) : t :=
  fold_left
    (fun acc c => add_exchange acc (call_input c) (call_response c)
                               (call_stage c) (call_clock c))
    calls self.

(** The (insight type, weight) pairs of the library patterns that occur
    in a lower-cased text and reach a threshold, in library order. *)
Definition selected_patterns (threshold : float) (user_lower : string)
           (library : dict (list (string * float))) : list (string * float) :=
  flat_map
    (fun entry =>
       map (fun pc => (fst entry, snd pc))
           (filter (fun pc => str_in (fst pc) user_lower
                              && (threshold <=? snd pc)%float)
                   (snd entry)))
    library.

(** What an Insight records of the pattern that produced it. *)
Definition kind (i : ContextInsight) : string * float :=
  (insight_type i, confidence i).

(** A subject turn with two skill phrasings, for the examples. *)
Definition two_skill_phrases : string :=
  "People often come to me for advice and I excel at listening".

(** A subject turn that mentions teaching, for the examples. *)
Definition teach_call : Call :=
  {| call_input := "I teach children";
     call_response := "Tell me more.";
     call_stage := "skills_assessment";
     call_clock := fun _ => "2024-01-01T12:00:00" |}.

(** The values a theme strength takes: 1.0, 1.5, ..., 5.0. *)
Definition strength_levels : list float :=
  [1.0; 1.5; 2.0; 2.5; 3.0; 3.5; 4.0; 4.5; 5.0]%float.

(** [theme in self.themes and ... strength >= 2.5 and len(evidence) >= 3] *)
Definition should_suggest_deep_dive (self : t) (theme : string) : bool :=
  match get (themes self) theme with
  | Some theme_obj =>
      (2.5 <=? strength theme_obj)%float
      && (3 <=? Z.of_nat (List.length (evidence theme_obj)))
  | None => false
  end.





(** [get_conversation_summary] *)
Record ThemeSummary : Type := {
  summary_strength : float;
  evidence_count : Z
}.

Record ConversationSummary : Type := {
  total_exchanges : Z;
  summary_current_stage : string;
  insights_count : Z;
  summary_themes : dict ThemeSummary;
  high_confidence_insights : Z
}.

Definition get_conversation_summary (self : t) : ConversationSummary :=
  {| total_exchanges := Z.of_nat (List.length (conversation_timeline self));
     summary_current_stage := current_stage self;
     insights_count := Z.of_nat (List.length (insights self));
     summary_themes :=
       map (fun entry =>
              (fst entry,
               {| summary_strength := strength (snd entry);
                  evidence_count := Z.of_nat (List.length (evidence (snd entry))) |}))
           (themes self);
     high_confidence_insights :=
       Z.of_nat (List.length
                   (filter (fun i => (0.8 <=? confidence i)%float) (insights self))) |}.





End EnhancedContextManager.

(** ** enhanced_discovery_bot.py: saving the two components *)

Module EnhancedSpiritualDiscoveryBot.
Import Py.

(** The two components of the bot that are written to disk. *)
Record t : Type := {
  context_manager : EnhancedContextManager.t;
  discovery_session : DiscoverySession.t
}.




End EnhancedSpiritualDiscoveryBot.

(** ** The answer corpus the analysis functions receive

    [user_responses: Dict[str, List[Dict]]]: response objects grouped by
    stage name. *)

Module Corpus.
Import Py.

(** A response object, read through [.get('response', '')]: the entry
    under that key, when the dictionary has one. *)
Record ResponseObj : Type := {
  response : option string
}.

Definition get_response (r : ResponseObj) : string :=
match response r with
| Some text => text
| None => ""
end.

Definition UserResponses : Type := dict (list ResponseObj).

(** The corpus a session holds, as it is passed to the analysis. *)
Definition of_session (s : DiscoverySession.t) : UserResponses :=
map (fun kv => (fst kv,
                map (fun a => {| response := Some (DiscoverySession.response a) |})
                    (snd kv)))
    (DiscoverySession.user_responses s).

(** Response objects with the given texts. *)
Definition answers (texts : list string) : list ResponseObj :=
map (fun text => {| response := Some text |}) texts.

End Corpus.

(** ** dynamic_questioning.py: patterns, coverage and the next question *)

Module DynamicQuestioningEngine.
Import Py Corpus.

Inductive QuestionType : Type :=
| STANDARD
| FOLLOW_UP
| DEEP_DIVE
| CLARIFICATION
| SYNTHESIS.

Record DynamicQuestion : Type := {
  question_text : string;
  question_type : QuestionType;
  target_theme : string;
  reasoning : string;
  priority : float
}.

Record ResponsePattern : Type := {
  pattern_name : string;
  confidence : float;
  evidence : list string;
  stage_first_seen : string;
  implications : list string
}.

Record t : Type := {
  response_patterns : list ResponsePattern;
  coverage_requirements : dict (list string);
  coverage_status : dict bool;
  dynamic_questions_asked : list DynamicQuestion;
  pattern_threshold : float;
  max_follow_ups : Z;
  deep_dive_threshold : float
}.

Definition _define_coverage_requirements : dict (list string) :=
[("natural_abilities",
  ["What comes easily to you that others find difficult?";
   "What skills do people compliment you on most often?";
   "In what areas do others seek your help or advice?"]);
 ("energy_sources",
  ["What activities energize rather than drain you?";
   "When do you feel most alive and engaged?";
   "What would you do for free because you love it so much?"]);
 ("core_values",
  ["What principles guide your important decisions?";
   "What would you want to be remembered for?";
   "What injustices or problems motivate you to action?"]);
 ("impact_desires",
  ["How do you want to make a difference in the world?";
   "What legacy do you hope to leave?";
   "Who do you most want to help or serve?"])].

Definition __init__ : t :=
{| response_patterns := [];
   coverage_requirements := _define_coverage_requirements;
   coverage_status := map (fun area => (area, false)) (keys _define_coverage_requirements);
   dynamic_questions_asked := [];
   pattern_threshold := 0.7;
   max_follow_ups := 2;
   deep_dive_threshold := 0.8 |}.

(** The engine after some calls: only the pattern history has changed. *)
Definition with_history (history : list ResponsePattern) : t :=
{| response_patterns := history;
   coverage_requirements := coverage_requirements __init__;
   coverage_status := coverage_status __init__;
   dynamic_questions_asked := dynamic_questions_asked __init__;
   pattern_threshold := pattern_threshold __init__;
   max_follow_ups := max_follow_ups __init__;
   deep_dive_threshold := deep_dive_threshold __init__ |}.

Record PatternRule : Type := {
  keywords : list string;
  phrases : list string;
  threshold : float
}.

Definition pattern_rules : dict PatternRule :=
[("strong_teaching_indicators",
  {| keywords := ["teach"; "explain"; "mentor"; "guide"; "help others learn"; "break down"];
     phrases := ["people come to me"; "i love helping others understand"; "explaining"];
     threshold := 0.7 |});
 ("leadership_emergence",
  {| keywords := ["lead"; "organize"; "vision"; "inspire"; "motivate others"; "take charge"];
     phrases := ["others follow"; "i see the big picture"; "rally people"];
     threshold := 0.7 |});
 ("service_orientation",
  {| keywords := ["serve"; "help"; "support"; "care"; "assist"; "come alongside"];
     phrases := ["behind the scenes"; "prefer to support"; "help others succeed"];
     threshold := 0.6 |});
 ("creative_expression",
  {| keywords := ["create"; "design"; "artistic"; "beauty"; "express"; "imagine"];
     phrases := ["creative outlet"; "artistic expression"; "beauty matters"];
     threshold := 0.6 |});
 ("justice_passion",
  {| keywords := ["justice"; "fair"; "equality"; "advocate"; "stand up"; "rights"];
     phrases := ["not fair"; "speak up for"; "injustice bothers me"];
     threshold := 0.7 |})].

Definition implications_map : dict (list string) :=
[("strong_teaching_indicators",
  ["Explore specific teaching experiences";
   "Ask about satisfaction from others learning";
   "Investigate formal vs informal teaching preferences"]);
 ("leadership_emergence",
  ["Explore vision-casting experiences";
   "Ask about team dynamics and motivation";
   "Investigate leadership style preferences"]);
 ("service_orientation",
  ["Explore behind-the-scenes contributions";
   "Ask about satisfaction from supporting others";
   "Investigate preferred ways to help"]);
 ("creative_expression",
  ["Explore artistic outlets and mediums";
   "Ask about role of beauty in life";
   "Investigate creative problem-solving"]);
 ("justice_passion",
  ["Explore specific justice issues that matter";
   "Ask about advocacy experiences";
   "Investigate ways they want to create change"])].

Definition _get_pattern_implications (name : string) : list string :=
get_default implications_map name [].

(** The texts of all responses, stage by stage in dictionary order. *)
Definition all_responses (user_responses : UserResponses) : list string :=
flat_map (fun stage_responses => map get_response stage_responses)
         (values user_responses).

(** One of the two scanning loops of [analyze_response_patterns]: every
    term found in the text adds a line of evidence and [weight] to the
    score. *)
Fixpoint scan (label : string) (weight : float) (terms : list string)
         (response_text : string) (acc : list string * float)
  : list string * float :=
match terms with
| [] => acc
| term :: terms' =>
    if str_in term response_text
    then scan label weight terms' response_text
              (fst acc ++ [(label ++ term)%string], (snd acc + weight)%float)
    else scan label weight terms' response_text acc
end.

(** The body of the loop over the rules: the pattern a rule emits, if
    any. *)
Definition apply_rule (response_text current_stage : string)
           (name : string) (rules : PatternRule) : option ResponsePattern :=
let r1 := scan "Mentioned: " 0.2 (keywords rules) response_text ([], 0%float) in
let r2 := scan "Said: " 0.3 (phrases rules) response_text r1 in
let confidence := fmin (snd r2) 1.0 in
if (threshold rules <=? confidence)%float
   && match fst r2 with [] => false | _ :: _ => true end
then Some {| pattern_name := name;
             confidence := confidence;
             evidence := fst r2;
             stage_first_seen := current_stage;
             implications := _get_pattern_implications name |}
else None.

(** The patterns of one pass, in rule order. *)
Fixpoint detect (rules : dict PatternRule) (response_text current_stage : string)
  : list ResponsePattern :=
match rules with
| [] => []
| (name, rule) :: rules' =>
    match apply_rule response_text current_stage name rule with
    | Some pattern => pattern :: detect rules' response_text current_stage
    | None => detect rules' response_text current_stage
    end
end.

Definition analyze_response_patterns (self : t) (user_responses : UserResponses)
           (current_stage : string) : list ResponsePattern * t :=
let response_text := lower (join " " (all_responses user_responses)) in
let patterns := detect pattern_rules response_text current_stage in
(patterns,
 {| response_patterns := response_patterns self ++ patterns;
    coverage_requirements := coverage_requirements self;
    coverage_status := coverage_status self;
    dynamic_questions_asked := dynamic_questions_asked self;
    pattern_threshold := pattern_threshold self;
    max_follow_ups := max_follow_ups self;
    deep_dive_threshold := deep_dive_threshold self |}).

Definition deep_dive_templates : dict (list string) :=
[("strong_teaching_indicators",
  ["You've mentioned teaching/explaining several times - can you tell me about a specific time when you helped someone understand something complex?";
   "It sounds like you have a natural teaching gift. What do you find most rewarding about helping others learn?";
   "When you're explaining something to someone, what approach do you naturally take?"]);
 ("leadership_emergence",
  ["I notice leadership themes in what you're sharing. Can you describe a time when you naturally took charge of a situation?";
   "What happens when you're in a group and no clear direction exists?";
   "How do you typically motivate or inspire others?"]);
 ("service_orientation",
  ["You seem drawn to supporting and helping others. What's your favorite way to serve?";
   "Tell me about a time when you helped someone succeed - what was that like for you?";
   "Do you prefer to help from behind the scenes or more visibly?"])].

Definition _generate_deep_dive_question (pattern : ResponsePattern)
           (last_response : string) : option DynamicQuestion :=
let templates := get_default deep_dive_templates (pattern_name pattern) [] in
match templates with
| [] => None
| template :: _ =>
    Some {| question_text := template;
            question_type := DEEP_DIVE;
            target_theme := pattern_name pattern;
            reasoning := ("Strong " ++ pattern_name pattern
                          ++ " pattern detected (confidence: "
                          ++ format_2f (confidence pattern) ++ ")")%string;
            priority := 0.9 |}
end.

Record FollowUpRule : Type := {
  triggers : list string;
  question : string;
  rule_reasoning : string
}.

Definition follow_up_rules : list FollowUpRule :=
[{| triggers := ["i love"; "passionate about"; "deeply care"];
    question := "What specifically about that resonates so deeply with you?";
    rule_reasoning := "User expressed strong passion" |};
 {| triggers := ["difficult"; "challenging"; "struggle with"];
    question := "Even though it's challenging, what draws you to persist with it?";
    rule_reasoning := "User mentioned difficulty but continued engagement" |};
 {| triggers := ["people come to me"; "others seek me out"; "friends ask me"];
    question := "What do you think it is about you that makes people naturally turn to you for this?";
    rule_reasoning := "User mentioned others recognizing their ability" |};
 {| triggers := ["started"; "began"; "initiated"];
    question := "What motivated you to take that first step?";
    rule_reasoning := "User mentioned taking initiative" |}].

(** The loop of [_generate_follow_up_question] over a list of rules. *)
Fixpoint follow_up_from (rules : list FollowUpRule) (response_lower stage : string)
  : option DynamicQuestion :=
match rules with
| [] => None
| rule :: rules' =>
    if any_in (triggers rule) response_lower
    then Some {| question_text := question rule;
                 question_type := FOLLOW_UP;
                 target_theme := stage;
                 reasoning := rule_reasoning rule;
                 priority := 0.7 |}
    else follow_up_from rules' response_lower stage
end.

Definition _generate_follow_up_question (last_response stage : string)
  : option DynamicQuestion :=
follow_up_from follow_up_rules (lower last_response) stage.

Definition theme_indicators : dict (list string) :=
[("natural_abilities", ["good at"; "excel"; "talented"; "naturally"; "easily"]);
 ("energy_sources", ["energizes"; "love"; "enjoy"; "alive"; "passionate"]);
 ("core_values", ["value"; "important"; "principle"; "believe"; "matters"]);
 ("impact_desires", ["difference"; "change"; "help"; "impact"; "legacy"])].

(** [area in covered_themes] *)
Definition mem (area : string) (covered_themes : list string) : bool :=
existsb (String.eqb area) covered_themes.

Definition _find_uncovered_area (self : t) (user_responses : UserResponses)
  : option string :=
let all_text := lower (join " " (all_responses user_responses)) in
let covered_themes :=
  map fst (filter (fun entry => any_in (snd entry) all_text) theme_indicators) in
find (fun area => negb (mem area covered_themes))
     (keys (coverage_requirements self)).

Definition _generate_coverage_question (self : t) (uncovered_area : string)
  : result DynamicQuestion :=
questions <- getitem (coverage_requirements self) uncovered_area ;;
first_question <- index questions 0 ;;
Ok {| question_text := first_question;
      question_type := STANDARD;
      target_theme := uncovered_area;
      reasoning := ("Ensuring coverage of " ++ uncovered_area)%string;
      priority := 0.6 |}.

Definition synthesis_questions : list string :=
["Looking at what you've shared about your strengths and passions, where do you see the strongest connections?";
 "What patterns are you noticing about what energizes you and what you're naturally good at?";
 "If you could design a role that perfectly combined your gifts and passions, what would it look like?";
 "How do you think your natural abilities could serve your deepest passions?"].

Definition _generate_synthesis_question : result DynamicQuestion :=
first_question <- index synthesis_questions 0 ;;
Ok {| question_text := first_question;
      question_type := SYNTHESIS;
      target_theme := "pattern_connection";
      reasoning := "Multiple strong patterns identified - time to synthesize";
      priority := 0.8 |}.

Definition standard_questions : dict string :=
[("introduction", "Tell me what brought you here to explore your spiritual gifts today?");
 ("skills_assessment", "What's something you do that others find difficult but comes naturally to you?");
 ("passion_exploration", "What activities or causes make you feel most alive and engaged?");
 ("values_clarification", "What principles or values guide your most important decisions?")].

Definition _generate_standard_question (stage : string) : DynamicQuestion :=
{| question_text := get_default standard_questions stage
                                "Tell me more about your experiences.";
   question_type := STANDARD;
   target_theme := stage;
   reasoning := "Standard stage question";
   priority := 0.5 |}.

(** The first loop of [generate_next_question]: the first new pattern at
    or above the deep-dive threshold for which a question exists. *)
Fixpoint first_deep_dive (deep_dive_threshold : float)
         (new_patterns : list ResponsePattern) (last_response : string)
  : option DynamicQuestion :=
match new_patterns with
| [] => None
| pattern :: rest =>
    if (deep_dive_threshold <=? confidence pattern)%float then
      match _generate_deep_dive_question pattern last_response with
      | Some deep_dive_question => Some deep_dive_question
      | None => first_deep_dive deep_dive_threshold rest last_response
      end
    else first_deep_dive deep_dive_threshold rest last_response
end.

(** [len([p for p in self.response_patterns if p.confidence >= 0.7])] *)
Definition strong_pattern_count (self : t) : Z :=
Z.of_nat (List.length
            (filter (fun p => (0.7 <=? confidence p)%float) (response_patterns self))).

Definition generate_next_question (self : t) (user_responses : UserResponses)
           (current_stage last_response : string) : result DynamicQuestion * t :=
let (new_patterns, self) := analyze_response_patterns self user_responses current_stage in
match first_deep_dive (deep_dive_threshold self) new_patterns last_response with
| Some deep_dive_question => (Ok deep_dive_question, self)
| None =>
    match _generate_follow_up_question last_response current_stage with
    | Some follow_up => (Ok follow_up, self)
    | None =>
        match _find_uncovered_area self user_responses with
        | Some uncovered_area =>
            (* the empty string is the one falsy area name *)
            if String.eqb uncovered_area ""
            then if 2 <=? strong_pattern_count self
                 then (_generate_synthesis_question, self)
                 else (Ok (_generate_standard_question current_stage), self)
            else (_generate_coverage_question self uncovered_area, self)
        | None =>
            if 2 <=? strong_pattern_count self
            then (_generate_synthesis_question, self)
            else (Ok (_generate_standard_question current_stage), self)
        end
    end
end.

(** [should_continue_current_stage] *)
Definition min_responses : dict Z :=
[("introduction", 1); ("skills_assessment", 2);
 ("passion_exploration", 2); ("values_clarification", 1)].

Definition should_continue_current_stage (self : t) (stage : string)
           (response_count : Z) : bool :=
if response_count <? get_default min_responses stage 1 then true
else
  let recent_patterns :=
    filter (fun p => (0.8 <=? confidence p)%float) (response_patterns self) in
  match recent_patterns with
  | _ :: _ => response_count <? 4
  | [] => false
  end.

(** [sorted(patterns, key=lambda x: x.confidence, reverse=True)]: stable,
    so a pattern goes after every pattern whose confidence is at least
    its own. *)
Fixpoint insert_by_confidence (pattern : ResponsePattern)
         (sorted : list ResponsePattern) : list ResponsePattern :=
match sorted with
| [] => [pattern]
| head :: rest =>
    if (confidence head <? confidence pattern)%float
    then pattern :: head :: rest
    else head :: insert_by_confidence pattern rest
end.

Definition sorted_by_confidence (patterns : list ResponsePattern)
  : list ResponsePattern :=
fold_left (fun sorted pattern => insert_by_confidence pattern sorted) patterns [].

(** [get_questioning_summary] *)
Record QuestioningSummary : Type := {
  patterns_identified : Z;
  high_confidence_patterns : Z;
  summary_questions_asked : Z;
  summary_coverage_status : dict bool;
  strongest_patterns : list (string * float)
}.

Definition get_questioning_summary (self : t) : QuestioningSummary :=
{| patterns_identified := Z.of_nat (List.length (response_patterns self));
   high_confidence_patterns :=
     Z.of_nat (List.length
                 (filter (fun p => (0.8 <=? confidence p)%float)
                         (response_patterns self)));
   summary_questions_asked := Z.of_nat (List.length (dynamic_questions_asked self));
   summary_coverage_status := coverage_status self;
   strongest_patterns :=
     map (fun p => (pattern_name p, confidence p))
         (firstn 3 (sorted_by_confidence (response_patterns self))) |}.

End DynamicQuestioningEngine.

(** ** The pattern score as the specification words it

    For the comparison with [DynamicQuestioningEngine.apply_rule]: the
    score is (matched keywords) x 0.2 + (matched phrases) x 0.3, capped at
    1.0; a pattern is emitted iff the score reaches the rule's threshold
    and something matched. *)

Module PatternSpec.
Import Py Corpus DynamicQuestioningEngine.

Definition matched (terms : list string) (text : string) : list string :=
filter (fun term => str_in term text) terms.

Definition spec_score (rule : PatternRule) (text : string) : float :=
fmin (int_to_float (count_in (keywords rule) text) * 0.2
      + int_to_float (count_in (phrases rule) text) * 0.3)%float 1.0.

Definition spec_emitted (rule : PatternRule) (text : string) : bool :=
(threshold rule <=? spec_score rule text)%float
&& (0 <? count_in (keywords rule) text + count_in (phrases rule) text).

Definition spec_pattern (text stage name : string) (rule : PatternRule)
  : option ResponsePattern :=
if spec_emitted rule text
then Some {| pattern_name := name;
             confidence := spec_score rule text;
             evidence :=
               map (String.append "Mentioned: ") (matched (keywords rule) text)
               ++ map (String.append "Said: ") (matched (phrases rule) text);
             stage_first_seen := stage;
             implications := _get_pattern_implications name |}
else None.

Definition spec_detect (text stage : string) : list ResponsePattern :=
flat_map (fun entry =>
            match spec_pattern text stage (fst entry) (snd entry) with
            | Some pattern => [pattern]
            | None => []
            end)
         pattern_rules.

(** The same decision in exact arithmetic, in tenths: the capped score
    [min (2k + 3p) 10] against the threshold. *)
Definition exact_emitted (rule : PatternRule) (text : string) : bool :=
let k := count_in (keywords rule) text in
let p := count_in (phrases rule) text in
(tenths (threshold rule) <=? Z.min (2 * k + 3 * p) 10) && (0 <? k + p).

(** The size of the library's rules: at most six keywords and three
    phrases. *)
Definition small_rule (rule : PatternRule) : Prop :=
(List.length (keywords rule) <= 6)%nat /\ (List.length (phrases rule) <= 3)%nat.

(** [n] additions of [w], as the scanning loop performs them. *)
Fixpoint add_times (n : nat) (w acc : float) : float :=
match n with
| O => acc
| S n' => add_times n' w (acc + w)%float
end.

(** The corpus text of the specification: the texts of all the answers of
    the corpus, stage after stage in the order of the corpus, each in
    lower case, joined by single spaces. An answer without a text counts
    as the empty text. *)
Fixpoint answer_texts (corpus : UserResponses) : list string :=
match corpus with
| [] => []
| (_, stage_answers) :: corpus' =>
    map (fun answer => lower (get_response answer)) stage_answers
    ++ answer_texts corpus'
end.

Definition corpus_text (corpus : UserResponses) : string :=
String.concat " " (answer_texts corpus).

End PatternSpec.

(** ** The order of question selection, as a specification *)

Module QuestionSpec.
Import Py Corpus DynamicQuestioningEngine.

(** A pattern name for which a deep-dive question exists. *)
Definition has_template (name : string) : bool :=
match get deep_dive_templates name with
| Some (_ :: _) => true
| _ => false
end.

(** A pattern that warrants a deep dive: confidence at or above 0.8 and a
    template under its name. *)
Definition deep_dive_candidate (pattern : ResponsePattern) : bool :=
(0.8 <=? confidence pattern)%float && has_template (pattern_name pattern).

(** A follow-up rule one of whose triggers occurs in the text. *)
Definition triggered (response_lower : string) (rule : FollowUpRule) : bool :=
any_in (triggers rule) response_lower.

(** A coverage area none of whose indicators occurs in the text. *)
Definition uncovered (all_text : string) (entry : string * list string) : bool :=
negb (any_in (snd entry) all_text).

(** A corpus that mentions four creative keywords, for the examples. *)
Definition creative_corpus : UserResponses :=
[("passion_exploration",
  [{| response := Some "I create and design artistic things of beauty" |}])].

End QuestionSpec.

(** ** personality_profiler.py: the style classifier *)

Module PersonalityProfiler.
Import Py.

Inductive CommunicationStyle : Type :=
| ANALYTICAL
| EXPRESSIVE
| PRACTICAL
| REFLECTIVE.

Inductive ResponseDepth : Type :=
| BRIEF
| MODERATE
| DETAILED.

Record PersonalityMarkers : Type := {
  word_count_avg : float;
  emotional_language_frequency : float;
  question_asking_frequency : float;
  concrete_vs_abstract_ratio : float;
  uncertainty_indicators : float;
  enthusiasm_markers : float
}.

Definition _default_markers : PersonalityMarkers :=
{| word_count_avg := 20.0;
   emotional_language_frequency := 0.05;
   question_asking_frequency := 0.2;
   concrete_vs_abstract_ratio := 0.5;
   uncertainty_indicators := 0.1;
   enthusiasm_markers := 0.03 |}.

(** [if condition: score += weight] *)
Definition add_if (condition : bool) (weight score : float) : float :=
if condition then (score + weight)%float else score.

Definition analytical_score (markers : PersonalityMarkers) : float :=
let score := 0%float in
let score := add_if (0.6 <? concrete_vs_abstract_ratio markers)%float 0.3 score in
let score := add_if (25 <? word_count_avg markers)%float 0.2 score in
let score := add_if (emotional_language_frequency markers <? 0.03)%float 0.2 score in
let score := add_if (0.3 <? question_asking_frequency markers)%float 0.2 score in
let score := add_if (uncertainty_indicators markers <? 0.1)%float 0.1 score in
score.

Definition expressive_score (markers : PersonalityMarkers) : float :=
let score := 0%float in
let score := add_if (0.01 <? emotional_language_frequency markers)%float 0.3 score in
let score := add_if (0.02 <? enthusiasm_markers markers)%float 0.3 score in
let score := add_if (20 <? word_count_avg markers)%float 0.2 score in
let score := add_if (concrete_vs_abstract_ratio markers <? 0.4)%float 0.2 score in
score.

Definition practical_score (markers : PersonalityMarkers) : float :=
let score := 0%float in
let score := add_if (word_count_avg markers <? 15)%float 0.3 score in
let score := add_if (0.7 <? concrete_vs_abstract_ratio markers)%float 0.3 score in
let score := add_if (emotional_language_frequency markers <? 0.04)%float 0.2 score in
let score := add_if (question_asking_frequency markers <? 0.2)%float 0.2 score in
score.

Definition reflective_score (markers : PersonalityMarkers) : float :=
let score := 0%float in
let score := add_if (0.15 <? uncertainty_indicators markers)%float 0.3 score in
let score := add_if (30 <? word_count_avg markers)%float 0.2 score in
let score := add_if (0.25 <? question_asking_frequency markers)%float 0.2 score in
let score := add_if (concrete_vs_abstract_ratio markers <? 0.5)%float 0.2 score in
let score := add_if ((0.03 <? emotional_language_frequency markers)%float
                     && (emotional_language_frequency markers <? 0.08)%float)
                    0.1 score in
score.

(** [max(items, key=lambda x: x[1])] on a non-empty sequence: a later item
    replaces the best one only when its key is greater. *)
Fixpoint max_by_score {A : Type} (best : A * float) (items : list (A * float))
  : A * float :=
match items with
| [] => best
| item :: items' =>
    if (snd best <? snd item)%float
    then max_by_score item items'
    else max_by_score best items'
end.

(** [style_scores], in the order the keys are inserted. *)
Definition style_scores (markers : PersonalityMarkers)
  : list (CommunicationStyle * float) :=
[(ANALYTICAL, analytical_score markers);
 (EXPRESSIVE, expressive_score markers);
 (PRACTICAL, practical_score markers);
 (REFLECTIVE, reflective_score markers)].

Definition determine_communication_style (markers : PersonalityMarkers)
  : CommunicationStyle * float :=
max_by_score (ANALYTICAL, analytical_score markers)
             [(EXPRESSIVE, expressive_score markers);
              (PRACTICAL, practical_score markers);
              (REFLECTIVE, reflective_score markers)].

Definition determine_response_depth (markers : PersonalityMarkers) : ResponseDepth :=
if (word_count_avg markers <? 12)%float then BRIEF
else if (35 <? word_count_avg markers)%float then DETAILED
else MODERATE.

(** The weights a style's score adds up, in the order of its tests. *)
Definition style_weights (style : CommunicationStyle) : list float :=
match style with
| ANALYTICAL => [0.3; 0.2; 0.2; 0.2; 0.1]%float
| EXPRESSIVE => [0.3; 0.3; 0.2; 0.2]%float
| PRACTICAL => [0.3; 0.3; 0.2; 0.2]%float
| REFLECTIVE => [0.3; 0.2; 0.2; 0.2; 0.1]%float
end.

(** The values a running score can have after each weight of the list
    was either added or left out. *)
Fixpoint partial_sums (weights : list float) (scores : list float) : list float :=
match weights with
| [] => scores
| weight :: weights' =>
    partial_sums weights' (scores ++ map (fun score => (score + weight)%float) scores)
end.

Definition in_unit_interval (x : float) : bool :=
((0 <=? x) && (x <=? 1))%float.

(** The choice among four scores, with what is to hold of it: every
    score within [0, 1], the chosen one the greatest, and strictly greater
    than each score declared before it. *)
Definition first_maximum_check (a e p r : float) : bool :=
in_unit_interval a && in_unit_interval e
&& in_unit_interval p && in_unit_interval r
&& match fst (max_by_score (ANALYTICAL, a)
                           [(EXPRESSIVE, e); (PRACTICAL, p); (REFLECTIVE, r)]) with
   | ANALYTICAL => (e <=? a) && (p <=? a) && (r <=? a)
   | EXPRESSIVE => (a <? e) && (p <=? e) && (r <=? e)
   | PRACTICAL => (a <? p) && (e <? p) && (r <=? p)
   | REFLECTIVE => (a <? r) && (e <? r) && (p <? r)
   end%float.

Record CommunicationProfile : Type := {
  primary_style : CommunicationStyle;
  secondary_style : option CommunicationStyle;
  preferred_depth : ResponseDepth;
  confidence : float;
  markers : PersonalityMarkers;
  adaptations : list string
}.

Record t : Type := {
  communication_samples : list string;
  current_profile : option CommunicationProfile;
  style_history : list CommunicationStyle;
  min_samples_for_profile : Z;
  confidence_threshold : float
}.

Definition __init__ : t :=
{| communication_samples := [];
   current_profile := None;
   style_history := [];
   min_samples_for_profile := 3;
   confidence_threshold := 0.6 |}.

(** [s.count(c)] for a one-character [c]. *)
Fixpoint count_char (c : ascii) (s : string) : Z :=
match s with
| EmptyString => 0
| String c' s' => (if Ascii.eqb c' c then 1 else 0) + count_char c s'
end.

(** [sum(f(response) for response in user_responses)] on integers. *)
Definition sum_over (f : string -> Z) (user_responses : list string) : Z :=
fold_left Z.add (map f user_responses) 0.

Definition emotional_words : list string :=
["love"; "passionate"; "excited"; "energized"; "alive"; "frustrated"; "concerned";
 "worried"; "joyful"; "thrilled"; "overwhelmed"; "blessed"; "grateful"; "moved"].

Definition concrete_words : list string :=
["specific"; "example"; "exactly"; "precisely"; "literally"; "actually";
 "definitely"; "clearly"; "obviously"; "specifically"].

Definition abstract_words : list string :=
["generally"; "usually"; "often"; "sometimes"; "might"; "could";
 "possibly"; "perhaps"; "maybe"; "tend to"; "feel like"].

Definition uncertainty_words : list string :=
["not sure"; "i think"; "maybe"; "perhaps"; "might be"; "could be"; "i guess"].

Definition enthusiasm_words : list string :=
["!"; "really"; "absolutely"; "definitely"; "totally"; "amazing"; "wonderful";
 "incredible"].

Definition total_words (user_responses : list string) : Z :=
sum_over (fun response => Z.of_nat (List.length (split response))) user_responses.

(** [a / b if guard else otherwise]: the division is not evaluated when
    the guard fails. *)
Definition div_if (guard : bool) (a b : Z) (otherwise : float) : result float :=
if guard then truediv a b else Ok otherwise.

(** The integer 0 and 0.5 of the [else] branches are read as floats, which
    is how every later comparison reads them. *)
Definition analyze_communication_patterns (user_responses : list string)
  : result PersonalityMarkers :=
match user_responses with
| [] => Ok _default_markers
| _ :: _ =>
    let len_responses := Z.of_nat (List.length user_responses) in
    let total_words := total_words user_responses in
    avg_word_count <- div_if true total_words len_responses 0 ;;
    let emotional_count :=
      sum_over (fun response => count_in emotional_words (lower response))
               user_responses in
    emotional_frequency <-
      div_if (0 <? total_words) emotional_count total_words 0 ;;
    let question_count := sum_over (count_char "?") user_responses in
    question_frequency <- div_if true question_count len_responses 0 ;;
    let concrete_count :=
      sum_over (fun response => count_in concrete_words (lower response))
               user_responses in
    let abstract_count :=
      sum_over (fun response => count_in abstract_words (lower response))
               user_responses in
    concrete_ratio <-
      div_if (0 <? concrete_count + abstract_count)
             concrete_count (concrete_count + abstract_count) 0.5 ;;
    let uncertainty_count :=
      sum_over (fun response => count_in uncertainty_words (lower response))
               user_responses in
    uncertainty_frequency <- div_if true uncertainty_count len_responses 0 ;;
    let enthusiasm_count :=
      sum_over (fun response =>
                  count_in enthusiasm_words (lower response)
                  + count_char "!" response)
               user_responses in
    enthusiasm_frequency <-
      div_if (0 <? total_words) enthusiasm_count total_words 0 ;;
    Ok {| word_count_avg := avg_word_count;
          emotional_language_frequency := emotional_frequency;
          question_asking_frequency := question_frequency;
          concrete_vs_abstract_ratio := concrete_ratio;
          uncertainty_indicators := uncertainty_frequency;
          enthusiasm_markers := enthusiasm_frequency |}
end.

Definition style_adaptations (style : CommunicationStyle) : list string :=
match style with
| ANALYTICAL =>
    ["Use structured, logical responses";
     "Include specific examples and data points";
     "Avoid overly emotional language";
     "Ask clarifying questions for precision"]
| EXPRESSIVE =>
    ["Use warm, encouraging language";
     "Include emotional validation";
     "Use vivid, descriptive language";
     "Match their enthusiasm level"]
| PRACTICAL =>
    ["Keep responses concise and actionable";
     "Focus on concrete next steps";
     "Avoid excessive elaboration";
     "Be direct and clear"]
| REFLECTIVE =>
    ["Allow processing time between questions";
     "Use thoughtful, introspective language";
     "Validate their careful consideration";
     "Ask open-ended, reflective questions"]
end.

Definition _generate_adaptations (style : CommunicationStyle) (depth : ResponseDepth)
           (markers : PersonalityMarkers) : list string :=
let adaptations := style_adaptations style in
let adaptations :=
  match depth with
  | BRIEF => adaptations ++ ["Keep responses shorter and more focused"]
  | DETAILED => adaptations ++ ["Provide comprehensive, thorough responses"]
  | MODERATE => adaptations
  end in
let adaptations :=
  if (0.2 <? uncertainty_indicators markers)%float
  then adaptations ++ ["Provide reassurance and normalize uncertainty"]
  else adaptations in
let adaptations :=
  if (0.05 <? enthusiasm_markers markers)%float
  then adaptations ++ ["Match and encourage their positive energy"]
  else adaptations in
adaptations.

(** [build_communication_profile]: the profile returned, if any, and the
    profiler after the call. *)
Definition build_communication_profile (self : t) (user_responses : list string)
  : result (option CommunicationProfile * t) :=
if Z.of_nat (List.length user_responses) <? min_samples_for_profile self
then Ok (None, self)
else
  markers <- analyze_communication_patterns user_responses ;;
  let (primary_style, confidence) := determine_communication_style markers in
  let preferred_depth := determine_response_depth markers in
  let adaptations := _generate_adaptations primary_style preferred_depth markers in
  let profile := {| primary_style := primary_style;
                    secondary_style := None;
                    preferred_depth := preferred_depth;
                    confidence := confidence;
                    markers := markers;
                    adaptations := adaptations |} in
  Ok (Some profile,
      {| communication_samples := communication_samples self;
         current_profile := Some profile;
         style_history := style_history self;
         min_samples_for_profile := min_samples_for_profile self;
         confidence_threshold := confidence_threshold self |}).

Definition style_instructions (style : CommunicationStyle) : string :=
match style with
| ANALYTICAL => "Be logical, structured, and precise. Use specific examples. Ask clarifying questions."
| EXPRESSIVE => "Be warm, enthusiastic, and emotionally engaging. Use vivid language that matches their energy."
| PRACTICAL => "Be concise, direct, and action-oriented. Focus on practical insights and next steps."
| REFLECTIVE => "Be thoughtful, patient, and introspective. Allow space for contemplation and deeper reflection."
end.

Definition depth_instructions (depth : ResponseDepth) : string :=
match depth with
| BRIEF => "Keep responses concise (2-3 sentences typically)."
| MODERATE => "Provide balanced detail (1-2 paragraphs typically)."
| DETAILED => "Offer comprehensive responses with thorough explanation."
end.

Definition get_style_guidance_for_llm (self : t) : string :=
match current_profile self with
| None => "Respond naturally with warmth and insight."
| Some profile =>
    let guidance_parts :=
      [("COMMUNICATION STYLE: " ++ style_instructions (primary_style profile))%string] in
    let guidance_parts :=
      guidance_parts
      ++ [("RESPONSE DEPTH: " ++ depth_instructions (preferred_depth profile))%string] in
    let guidance_parts :=
      match adaptations profile with
      | [] => guidance_parts
      | _ :: _ =>
          guidance_parts
          ++ [("SPECIFIC ADAPTATIONS: "
               ++ join " | " (firstn 3 (adaptations profile)))%string]
      end in
    join " " guidance_parts
end.

Definition update_profile (self : t) (new_response : string) : result t :=
let self := {| communication_samples := communication_samples self ++ [new_response];
               current_profile := current_profile self;
               style_history := style_history self;
               min_samples_for_profile := min_samples_for_profile self;
               confidence_threshold := confidence_threshold self |} in
if min_samples_for_profile self <=? Z.of_nat (List.length (communication_samples self))
then built <- build_communication_profile self (communication_samples self) ;;
     Ok (snd built)
else Ok self.

(** A sequence of [update_profile] calls. *)
Fixpoint update_all (self : t) (responses : list string) : result t :=
match responses with
| [] => Ok self
| response :: responses' =>
    self' <- update_profile self response ;; update_all self' responses'
end.

(** [get_profile_summary] *)
Record ProfileMarkers : Type := {
  avg_word_count : float;
  emotional_frequency : float;
  enthusiasm_level : float;
  uncertainty_level : float
}.

Inductive ProfileSummary : Type :=
| InsufficientData (samples_needed : Z)
| Summary (style : CommunicationStyle) (depth : ResponseDepth) (confidence : float)
          (summary_markers : ProfileMarkers) (adaptations_count total_samples : Z).

Definition get_profile_summary (self : t) : ProfileSummary :=
match current_profile self with
| None =>
    InsufficientData
      (min_samples_for_profile self
       - Z.of_nat (List.length (communication_samples self)))
| Some profile =>
    Summary (primary_style profile) (preferred_depth profile) (confidence profile)
            {| avg_word_count := word_count_avg (markers profile);
               emotional_frequency := emotional_language_frequency (markers profile);
               enthusiasm_level := enthusiasm_markers (markers profile);
               uncertainty_level := uncertainty_indicators (markers profile) |}
            (Z.of_nat (List.length (adaptations profile)))
            (Z.of_nat (List.length (communication_samples self)))
end.

End PersonalityProfiler.

(** ** analysis_engine.py: skills and passions from the answers *)

Module SkillsPassionsAnalyzer.
Import Py Corpus.

Definition skill_keywords : dict (list string) :=
[("teaching", ["teach"; "mentor"; "guide"; "explain"; "instruct"; "train"; "educate"; "coach"]);
 ("leadership", ["lead"; "manage"; "organize"; "coordinate"; "direct"; "supervise"; "delegate"]);
 ("communication", ["speak"; "write"; "present"; "communicate"; "express"; "articulate"; "convey"]);
 ("helping", ["help"; "assist"; "support"; "serve"; "care"; "counsel"; "encourage"; "comfort"]);
 ("creative", ["create"; "design"; "artistic"; "creative"; "imagine"; "innovate"; "craft"; "build"]);
 ("analytical", ["analyze"; "research"; "investigate"; "study"; "examine"; "solve"; "logical"]);
 ("administrative", ["organize"; "plan"; "schedule"; "coordinate"; "detail"; "systematic"]);
 ("technical", ["technical"; "technology"; "programming"; "engineering"; "computing"; "digital"])].

Definition passion_keywords : dict (list string) :=
[("people", ["people"; "relationships"; "community"; "social"; "family"; "friends"; "connection"]);
 ("justice", ["justice"; "fair"; "equality"; "rights"; "advocacy"; "change"; "reform"]);
 ("nature", ["nature"; "environment"; "outdoors"; "animals"; "earth"; "conservation"]);
 ("creativity", ["art"; "music"; "creative"; "beauty"; "expression"; "imagination"; "design"]);
 ("learning", ["learn"; "knowledge"; "education"; "study"; "growth"; "discovery"; "wisdom"]);
 ("service", ["serve"; "volunteer"; "giving"; "ministry"; "mission"; "charity"; "helping"]);
 ("innovation", ["innovation"; "technology"; "progress"; "future"; "advancement"; "improvement"]);
 ("healing", ["health"; "healing"; "wellness"; "medical"; "therapy"; "recovery"; "wholeness"])].

(** [themes[key] += 1] on a [defaultdict(int)] *)
Definition increment (themes : dict Z) (key : string) : dict Z :=
setitem themes key (get_default themes key 0 + 1).

(** The loop over the keywords of one category. *)
Definition count_keywords (response_lower key : string) (keywords : list string)
           (themes : dict Z) : dict Z :=
fold_left
  (fun acc keyword => if str_in keyword response_lower then increment acc key else acc)
  keywords themes.

(** The loop over the categories of one keyword table. *)
Definition count_table (response_lower prefix : string) (table : dict (list string))
           (themes : dict Z) : dict Z :=
fold_left
  (fun acc entry =>
     count_keywords response_lower (prefix ++ fst entry)%string (snd entry) acc)
  table themes.

Definition extract_themes (responses : list string) : dict Z :=
fold_left
  (fun themes response =>
     let response_lower := lower response in
     let themes := count_table response_lower "skill_" skill_keywords themes in
     count_table response_lower "passion_" passion_keywords themes)
  responses [].

(** [{k.replace(prefix, ''): v for k, v in themes.items()
      if k.startswith(prefix)}] *)
Definition themes_with_prefix (prefix : string) (themes : dict Z) : dict Z :=
fold_left
  (fun acc kv =>
     if startswith (fst kv) prefix
     then setitem acc (replace (fst kv) prefix "") (snd kv)
     else acc)
  themes [].

(** [sorted(items, key=lambda x: x[1], reverse=True)]: stable, so an item
    goes after every item whose count is at least its own. *)
Fixpoint insert_descending (item : string * Z) (sorted : list (string * Z))
  : list (string * Z) :=
match sorted with
| [] => [item]
| head :: rest =>
    if snd head <? snd item
    then item :: head :: rest
    else head :: insert_descending item rest
end.

Definition sorted_descending (items : list (string * Z)) : list (string * Z) :=
fold_left (fun sorted item => insert_descending item sorted) items [].

(** The dictionary one of the two analyses returns; [top] is
    ['top_skills'] or ['top_passions'] and [scores] is ['skill_scores'] or
    ['passion_scores']. *)
Record Analysis : Type := {
  raw_responses : list string;
  themes : dict Z;
  top : list string;
  scores : dict Z
}.

(** The body shared by [analyze_skills] and [analyze_passions]; the
    empty dictionary they return for no responses is [None]. *)
Definition analyze (prefix : string) (responses : list ResponseObj)
  : option Analysis :=
match responses with
| [] => None
| _ :: _ =>
    let response_texts := map get_response responses in
    let all_themes := extract_themes response_texts in
    let own_themes := themes_with_prefix prefix all_themes in
    let top_items := firstn 3 (sorted_descending own_themes) in
    Some {| raw_responses := response_texts;
            themes := own_themes;
            top := map fst top_items;
            scores := fold_left (fun acc kv => setitem acc (fst kv) (snd kv))
                                top_items [] |}
end.

Definition analyze_skills (skills_responses : list ResponseObj) : option Analysis :=
analyze "skill_" skills_responses.

Definition analyze_passions (passion_responses : list ResponseObj) : option Analysis :=
analyze "passion_" passion_responses.

(** [analysis.get('top_skills', [])] and [.get('top_passions', [])] *)
Definition top_of (analysis : option Analysis) : list string :=
match analysis with
| Some a => top a
| None => []
end.

(** [self.spiritual_gift_indicators] *)
Record GiftIndicators : Type := {
  indicator_skills : list string;
  indicator_passions : list string;
  indicator_description : string
}.

Definition spiritual_gift_indicators : dict GiftIndicators :=
[("teaching",
  {| indicator_skills := ["teaching"; "communication"; "analytical"];
     indicator_passions := ["learning"; "people"];
     indicator_description := "The ability to understand and communicate truth in ways that help others learn and grow" |});
 ("leadership",
  {| indicator_skills := ["leadership"; "communication"; "administrative"];
     indicator_passions := ["people"; "service"; "justice"];
     indicator_description := "The ability to inspire and guide others toward common goals and positive change" |});
 ("helping",
  {| indicator_skills := ["helping"; "communication"];
     indicator_passions := ["people"; "service"; "healing"];
     indicator_description := "The gift of coming alongside others to provide practical assistance and emotional support" |});
 ("mercy",
  {| indicator_skills := ["helping"; "communication"];
     indicator_passions := ["people"; "healing"; "justice"];
     indicator_description := "Deep compassion that moves you to action when you see others suffering" |});
 ("administration",
  {| indicator_skills := ["administrative"; "leadership"; "analytical"];
     indicator_passions := ["service"; "people"];
     indicator_description := "The ability to organize resources and coordinate efforts to accomplish important goals" |});
 ("creativity",
  {| indicator_skills := ["creative"; "communication"];
     indicator_passions := ["creativity"; "people"; "service"];
     indicator_description := "Using artistic expression to inspire, heal, and bring beauty into the world" |});
 ("prophecy",
  {| indicator_skills := ["communication"; "analytical"];
     indicator_passions := ["justice"; "people"];
     indicator_description := "The ability to see truth clearly and speak it boldly for positive change" |});
 ("evangelism",
  {| indicator_skills := ["communication"; "helping"];
     indicator_passions := ["people"; "service"];
     indicator_description := "Natural ability to share good news and connect people with hope and purpose" |})].

(** [set(a) & set(b)]. Python leaves the order of a set's members open;
    here they stand in the order of their first occurrence in [a]. *)
Definition set_inter (a b : list string) : list string :=
filter (fun x => mem x b) (set_of a).

(** The overlaps one gift contributes: every matching skill with every
    matching passion, when both kinds match. *)
Definition gift_overlaps (skills passions : list string)
           (entry : string * GiftIndicators) : list (string * string * string) :=
let matching_skills := set_inter skills (indicator_skills (snd entry)) in
let matching_passions := set_inter passions (indicator_passions (snd entry)) in
if (0 <? Z.of_nat (List.length matching_skills))
   && (0 <? Z.of_nat (List.length matching_passions))
then flat_map (fun skill =>
                 map (fun passion => (skill, passion, fst entry)) matching_passions)
              matching_skills
else [].

Definition find_skill_passion_overlaps (skills_analysis passions_analysis : option Analysis)
  : list (string * string * string) :=
match skills_analysis, passions_analysis with
| Some _, Some _ =>
    let skills := top_of skills_analysis in
    let passions := top_of passions_analysis in
    map (fun m => (m, m, "direct_match")) (set_inter skills passions)
    ++ flat_map (gift_overlaps skills passions) spiritual_gift_indicators
| _, _ => []
end.

(** A number that is an [int] on one path and a [float] on another. *)
Inductive Number : Type :=
| Int (n : Z)
| Float (x : float).

Definition calculate_alignment_score (skills_analysis passions_analysis : option Analysis)
  : Number :=
match skills_analysis, passions_analysis with
| Some _, Some _ =>
    let overlaps := find_skill_passion_overlaps skills_analysis passions_analysis in
    let overlap_score := Z.min (Z.of_nat (List.length overlaps) * 20) 60 in
    let gift_alignments :=
      filter (fun overlap => contains_key spiritual_gift_indicators (snd overlap))
             overlaps in
    let gift_score :=
      Z.min (Z.of_nat (List.length (set_of (map snd gift_alignments))) * 10) 40 in
    Int (Z.min (overlap_score + gift_score) 100)
| _, _ => Float 0.0
end.

Definition _categorize_strength (score : float) : string :=
if (0.7 <=? score)%float then "Strong"
else if (0.4 <=? score)%float then "Moderate"
else if (0.2 <=? score)%float then "Emerging"
else "Potential".

Record PotentialGift : Type := {
  potential_name : string;
  potential_score : float;
  potential_description : string;
  potential_skills : list string;
  potential_passions : list string;
  potential_strength : string
}.

(** The loop of [identify_potential_spiritual_gifts] over the gifts. *)
Fixpoint potential_from (indicators : dict GiftIndicators) (skills passions : list string)
         (potential_gifts : list PotentialGift) : result (list PotentialGift) :=
match indicators with
| [] => Ok potential_gifts
| (name, ind) :: indicators' =>
    let skill_matches := set_inter skills (indicator_skills ind) in
    let passion_matches := set_inter passions (indicator_passions ind) in
    skill_score <- truediv (Z.of_nat (List.length skill_matches))
                           (Z.of_nat (List.length (indicator_skills ind))) ;;
    passion_score <- truediv (Z.of_nat (List.length passion_matches))
                             (Z.of_nat (List.length (indicator_passions ind))) ;;
    let total_score := ((skill_score + passion_score) / 2)%float in
    potential_from indicators' skills passions
      (if (0 <? total_score)%float
       then potential_gifts
            ++ [{| potential_name := name;
                   potential_score := total_score;
                   potential_description := indicator_description ind;
                   potential_skills := skill_matches;
                   potential_passions := passion_matches;
                   potential_strength := _categorize_strength total_score |}]
       else potential_gifts)
end.

(** [potential_gifts.sort(key=lambda x: x['score'], reverse=True)]:
    stable, so a gift goes after every gift whose score is at least its
    own. *)
Fixpoint insert_gift (gift : PotentialGift) (sorted : list PotentialGift)
  : list PotentialGift :=
match sorted with
| [] => [gift]
| head :: rest =>
    if (potential_score head <? potential_score gift)%float
    then gift :: head :: rest
    else head :: insert_gift gift rest
end.

Definition sort_gifts (gifts : list PotentialGift) : list PotentialGift :=
fold_left (fun sorted gift => insert_gift gift sorted) gifts [].

Definition identify_potential_spiritual_gifts
           (skills_analysis passions_analysis : option Analysis)
  : result (list PotentialGift) :=
match skills_analysis, passions_analysis with
| Some _, Some _ =>
    potential_gifts <- potential_from spiritual_gift_indicators
                         (top_of skills_analysis) (top_of passions_analysis) [] ;;
    Ok (sort_gifts potential_gifts)
| _, _ => Ok []
end.

End SkillsPassionsAnalyzer.

(** ** scoring_system.py: the alignment scores *)

Module SpiritualGiftsAssessment.
Import Py Corpus SkillsPassionsAnalyzer.

Record KeyIndicators : Type := {
  skills : list string;
  passions : list string;
  values : list string
}.

Record GiftInfo : Type := {
  description : string;
  key_indicators : KeyIndicators;
  behavioral_markers : list string;
  typical_expressions : list string
}.

Definition gifts_framework : dict GiftInfo :=
[("teaching",
  {| description := "The ability to understand and communicate truth effectively";
     key_indicators :=
       {| skills := ["teaching"; "communication"; "analytical"];
          passions := ["learning"; "people"];
          values := ["truth"; "growth"; "education"; "understanding"] |};
     behavioral_markers :=
       ["Others seek you out for explanations";
        "You enjoy breaking down complex concepts";
        "You feel satisfied when others understand";
        "You naturally use examples and illustrations"];
     typical_expressions :=
       ["Formal teaching or training"; "Mentoring and coaching";
        "Writing instructional content"; "Creating educational resources"] |});
 ("leadership",
  {| description := "The ability to inspire and guide others toward goals";
     key_indicators :=
       {| skills := ["leadership"; "communication"; "administrative"];
          passions := ["people"; "service"; "justice"];
          values := ["vision"; "purpose"; "teamwork"; "progress"] |};
     behavioral_markers :=
       ["People naturally follow your direction";
        "You see the big picture and future possibilities";
        "You motivate others to achieve more";
        "You take initiative in group situations"];
     typical_expressions :=
       ["Team or organization leadership"; "Project management";
        "Community organizing"; "Visionary planning"] |});
 ("mercy",
  {| description := "Deep compassion that moves you to help those who suffer";
     key_indicators :=
       {| skills := ["helping"; "communication"];
          passions := ["people"; "healing"; "justice"];
          values := ["compassion"; "kindness"; "healing"; "restoration"] |};
     behavioral_markers :=
       ["You are deeply moved by others suffering";
        "You offer comfort naturally";
        "You attract people who need encouragement";
        "You see good in difficult people"];
     typical_expressions :=
       ["Counseling and support"; "Healthcare and healing";
        "Working with marginalized people"; "Crisis intervention"] |});
 ("administration",
  {| description := "The ability to organize and coordinate for effective ministry";
     key_indicators :=
       {| skills := ["administrative"; "leadership"; "analytical"];
          passions := ["service"; "people"];
          values := ["order"; "efficiency"; "stewardship"; "service"] |};
     behavioral_markers :=
       ["You naturally organize and systematize";
        "You see what needs to be done logistically";
        "You coordinate resources effectively";
        "You help others be more productive"];
     typical_expressions :=
       ["Event planning and coordination"; "Business and operations management";
        "Resource allocation"; "Systems development"] |});
 ("serving",
  {| description := "Joy in meeting practical needs and supporting others";
     key_indicators :=
       {| skills := ["helping"; "administrative"];
          passions := ["service"; "people"];
          values := ["service"; "humility"; "helpfulness"; "support"] |};
     behavioral_markers :=
       ["You prefer to work behind the scenes";
        "You notice practical needs others miss";
        "You find joy in helping tasks get done";
        "You work well under others leadership"];
     typical_expressions :=
       ["Volunteer coordination"; "Hospitality and events";
        "Maintenance and support"; "Administrative assistance"] |});
 ("encouraging",
  {| description := "The ability to motivate and build up others";
     key_indicators :=
       {| skills := ["communication"; "helping"];
          passions := ["people"; "healing"];
          values := ["hope"; "growth"; "potential"; "encouragement"] |};
     behavioral_markers :=
       ["You see potential in others";
        "You naturally motivate and inspire";
        "People feel better after talking with you";
        "You focus on solutions and possibilities"];
     typical_expressions :=
       ["Life coaching and mentoring"; "Motivational speaking";
        "Counseling and therapy"; "Team building and development"] |});
 ("giving",
  {| description := "Joy in sharing resources generously for kingdom purposes";
     key_indicators :=
       {| skills := ["administrative"; "analytical"];
          passions := ["service"; "justice"];
          values := ["generosity"; "stewardship"; "impact"; "justice"] |};
     behavioral_markers :=
       ["You give quietly and consistently";
        "You research where gifts will have most impact";
        "You motivate others to give";
        "You see resources as tools for good"];
     typical_expressions :=
       ["Philanthropy and donations"; "Fundraising and development";
        "Financial planning for ministry"; "Resource mobilization"] |});
 ("creativity",
  {| description := "Using artistic gifts to inspire and communicate truth";
     key_indicators :=
       {| skills := ["creative"; "communication"];
          passions := ["creativity"; "people"; "service"];
          values := ["beauty"; "expression"; "inspiration"; "truth"] |};
     behavioral_markers :=
       ["You express yourself through artistic means";
        "You use creativity to communicate deeper truths";
        "You inspire others through your art";
        "You see beauty and meaning in everyday things"];
     typical_expressions :=
       ["Visual and performing arts"; "Creative writing and storytelling";
        "Design and aesthetics"; "Worship and celebration arts"] |})].

Record ScoreComponents : Type := {
  skills_alignment : float;
  passions_alignment : float;
  values_alignment : float;
  response_content : float
}.

Record ScoreData : Type := {
  total_score : float;
  score_components : ScoreComponents;
  strength : string;
  score_description : string;
  score_key_indicators : KeyIndicators;
  score_typical_expressions : list string
}.

Definition _categorize_gift_strength (score : float) : string :=
if (70 <=? score)%float then "Dominant"
else if (50 <=? score)%float then "Strong"
else if (30 <=? score)%float then "Moderate"
else if (15 <=? score)%float then "Emerging"
else "Low".

(** A sub-score [(matches / size) * 25], left at 0 when the guard of its
    [if] fails. *)
Definition sub_score (guard : bool) (matches size : Z) : result float :=
if guard
then ratio <- truediv matches size ;; Ok (ratio * 25)%float
else Ok 0%float.

Definition nonempty {A : Type} (l : list A) : bool :=
match l with
| [] => false
| _ :: _ => true
end.

(** [' '.join([r.get('response', '').lower() for r in responses])] *)
Definition lowered_text (responses : list ResponseObj) : string :=
join " " (map (fun r => lower (get_response r)) responses).

(** The same over every stage of the corpus. *)
Definition all_responses_text (user_responses : UserResponses) : string :=
join " " (flat_map (fun stage_responses =>
                      map (fun r => lower (get_response r)) stage_responses)
                   (Py.values user_responses)).

(** [sum(1 for marker in markers
         if any(keyword in text for keyword in marker.lower().split()))] *)
Definition behavioral_matches (markers : list string) (text : string) : Z :=
Z.of_nat (List.length
            (filter (fun marker => any_in (split (lower marker)) text) markers)).

Definition _calculate_individual_gift_score (gift_name : string) (gift_info : GiftInfo)
           (skills_analysis passions_analysis : option Analysis)
           (user_responses : UserResponses) : result ScoreData :=
let user_skills := set_of (top_of skills_analysis) in
let required_skills := set_of (skills (key_indicators gift_info)) in
skills_score <-
  sub_score (nonempty user_skills && nonempty required_skills)
            (inter_len user_skills required_skills)
            (Z.of_nat (List.length required_skills)) ;;
let user_passions := set_of (top_of passions_analysis) in
let required_passions := set_of (passions (key_indicators gift_info)) in
passions_score <-
  sub_score (nonempty user_passions && nonempty required_passions)
            (inter_len user_passions required_passions)
            (Z.of_nat (List.length required_passions)) ;;
let values_responses := get_default user_responses "values_clarification" [] in
let values_text := lowered_text values_responses in
let required_values := values (key_indicators gift_info) in
let values_matches := count_in required_values values_text in
values_score <-
  sub_score (nonempty required_values) values_matches
            (Z.of_nat (List.length required_values)) ;;
let text := all_responses_text user_responses in
let matches := behavioral_matches (behavioral_markers gift_info) text in
content_score <-
  sub_score (nonempty (behavioral_markers gift_info)) matches
            (Z.of_nat (List.length (behavioral_markers gift_info))) ;;
let total := fold_left PrimFloat.add
                       [skills_score; passions_score; values_score; content_score]
                       0%float in
Ok {| total_score := round1 total;
      score_components := {| skills_alignment := skills_score;
                             passions_alignment := passions_score;
                             values_alignment := values_score;
                             response_content := content_score |};
      strength := _categorize_gift_strength total;
      score_description := description gift_info;
      score_key_indicators := key_indicators gift_info;
      score_typical_expressions := typical_expressions gift_info |}.

(** The loop of [calculate_gift_scores] over a framework. *)
Fixpoint score_gifts (framework : dict GiftInfo)
         (skills_analysis passions_analysis : option Analysis)
         (user_responses : UserResponses) (gift_scores : dict ScoreData)
  : result (dict ScoreData) :=
match framework with
| [] => Ok gift_scores
| (gift_name, gift_info) :: framework' =>
    score_data <- _calculate_individual_gift_score
                    gift_name gift_info skills_analysis passions_analysis
                    user_responses ;;
    score_gifts framework' skills_analysis passions_analysis user_responses
                (setitem gift_scores gift_name score_data)
end.

(** [calculate_gift_scores]; of the analysis summary it reads the skills
    and the passions analysis. *)
Definition calculate_gift_scores (user_responses : UserResponses)
  : result (dict ScoreData) :=
let skills_analysis :=
  analyze_skills (get_default user_responses "skills_assessment" []) in
let passions_analysis :=
  analyze_passions (get_default user_responses "passion_exploration" []) in
score_gifts gifts_framework skills_analysis passions_analysis user_responses [].

(** The sample session of [test_scoring_system]. *)
Definition sample_responses : UserResponses :=
[("introduction",
  answers ["I am Sarah and I love helping people discover their potential"]);
 ("skills_assessment",
  answers ["I love teaching others and helping them understand complex concepts";
           "People often come to me for advice and guidance";
           "I excel at organizing events and managing projects";
           "I naturally explain things in ways others can understand"]);
 ("passion_exploration",
  answers ["I feel most alive when helping people grow and learn";
           "Education and human development really stir my heart";
           "I care deeply about justice and equality in our communities";
           "Seeing others have breakthrough moments energizes me"]);
 ("values_clarification",
  answers ["Truth and growth are extremely important to me";
           "I believe in the potential of every person";
           "Education and understanding drive most of my decisions";
           "I value wisdom and the sharing of knowledge"])].

(** A session whose answers are the six words of the specification's
    teaching example. *)
Definition six_words : UserResponses :=
[("skills_assessment", answers ["teach explain mentor"]);
 ("passion_exploration", answers ["love learn education"])].

End SpiritualGiftsAssessment.

(** ** Vocabulary of the properties of the alignment scores *)

Module ScoringSpec.
Import Py Corpus SkillsPassionsAnalyzer SpiritualGiftsAssessment.

Definition skills_analysis_of (user_responses : UserResponses) : option Analysis :=
analyze_skills (get_default user_responses "skills_assessment" []).

Definition passions_analysis_of (user_responses : UserResponses) : option Analysis :=
analyze_passions (get_default user_responses "passion_exploration" []).

(** The four match counts of a category on a corpus. *)
Definition skill_matches (gift_info : GiftInfo) (user_responses : UserResponses) : Z :=
inter_len (set_of (top_of (skills_analysis_of user_responses)))
          (set_of (skills (key_indicators gift_info))).

Definition passion_matches (gift_info : GiftInfo) (user_responses : UserResponses) : Z :=
inter_len (set_of (top_of (passions_analysis_of user_responses)))
          (set_of (passions (key_indicators gift_info))).

Definition value_matches (gift_info : GiftInfo) (user_responses : UserResponses) : Z :=
count_in (values (key_indicators gift_info))
         (lowered_text (get_default user_responses "values_clarification" [])).

Definition marker_matches (gift_info : GiftInfo) (user_responses : UserResponses) : Z :=
behavioral_matches (behavioral_markers gift_info)
                   (all_responses_text user_responses).

(** A corpus without any match for a category. *)
Definition no_matches (gift_info : GiftInfo) (user_responses : UserResponses) : Prop :=
skill_matches gift_info user_responses = 0
/\ passion_matches gift_info user_responses = 0
/\ value_matches gift_info user_responses = 0
/\ marker_matches gift_info user_responses = 0.

(** A corpus in which nothing of a category occurs: no keyword of a
    required skill in a skills-stage answer, no keyword of a required
    passion in a passions-stage answer, no required value keyword in the
    values-stage text and no word of a behavioral marker anywhere. *)
Definition nothing_occurs (gift_info : GiftInfo) (user_responses : UserResponses)
  : Prop :=
(forall category keywords r,
    In category (skills (key_indicators gift_info)) ->
    In (category, keywords) skill_keywords ->
    In r (get_default user_responses "skills_assessment" []) ->
    any_in keywords (lower (get_response r)) = false)
/\ (forall category keywords r,
       In category (passions (key_indicators gift_info)) ->
       In (category, keywords) passion_keywords ->
       In r (get_default user_responses "passion_exploration" []) ->
       any_in keywords (lower (get_response r)) = false)
/\ any_in (values (key_indicators gift_info))
          (lowered_text (get_default user_responses "values_clarification" []))
   = false
/\ (forall marker,
       In marker (behavioral_markers gift_info) ->
       any_in (split (lower marker)) (all_responses_text user_responses) = false).

(** The score of one category of the framework on a corpus, as
    [calculate_gift_scores] computes it. *)
Definition gift_score (gift_name : string) (gift_info : GiftInfo)
           (user_responses : UserResponses) : result ScoreData :=
_calculate_individual_gift_score gift_name gift_info
  (skills_analysis_of user_responses) (passions_analysis_of user_responses)
  user_responses.

Definition teaching_info : GiftInfo :=
{| description := "The ability to understand and communicate truth effectively";
   key_indicators :=
     {| skills := ["teaching"; "communication"; "analytical"];
        passions := ["learning"; "people"];
        values := ["truth"; "growth"; "education"; "understanding"] |};
   behavioral_markers :=
     ["Others seek you out for explanations";
      "You enjoy breaking down complex concepts";
      "You feel satisfied when others understand";
      "You naturally use examples and illustrations"];
   typical_expressions :=
     ["Formal teaching or training"; "Mentoring and coaching";
      "Writing instructional content"; "Creating educational resources"] |}.

(** A session whose answers contain the same six words among keywords
    of other categories. *)
Definition crowded_answers : UserResponses :=
[("skills_assessment",
  answers ["lead manage organize coordinate direct";
           "help assist support serve care";
           "create design artistic imagine craft";
           "teach explain mentor"]);
 ("passion_exploration",
  answers ["nature environment animals conservation";
           "justice fair equality rights";
           "health healing wellness medical";
           "love learn education"])].

(** A corpus without a single match, for the examples. *)
Definition silent_corpus : UserResponses :=
[("skills_assessment", answers ["xyz"]);
 ("values_clarification", answers ["qqq"])].

End ScoringSpec.

(** ** Vocabulary of the properties of the stage state machine *)

Module SessionSpec.
Import Py DiscoverySession.

(** Answers numbered [k], [k + 1], ... in the order they are stored. *)
Fixpoint numbered_from (k : Z) (answers : list Answer) : bool :=
match answers with
| [] => true
| a :: rest => (question_number a =? k) && numbered_from (k + 1) rest
end.

(** The stages with their positions in [self.stages]. *)
Definition indexed_stages : list (Z * string) :=
combine (map Z.of_nat (seq 0 (List.length stages))) stages.

(** What the two dictionaries hold for the stage at a position: as many
    answers as the counter says, numbered from 0; the stage is marked
    completed exactly when the session has moved past it; and a stage
    not yet entered has no answer. *)
Definition stage_consistent (s : t) (entry : Z * string) : bool :=
match get (stage_progress s) (snd entry), get (user_responses s) (snd entry) with
| Some p, Some answers =>
    (question_count p =? Z.of_nat (List.length answers))
    && numbered_from 0 answers
    && Bool.eqb (completed p) (fst entry <? current_stage s)
    && ((fst entry <=? current_stage s)
        || match answers with [] => true | _ :: _ => false end)
| _, _ => false
end.

Definition consistent (s : t) : bool :=
wf s && forallb (stage_consistent s) indexed_stages.

End SessionSpec.

(** ** Vocabulary of the properties of the exchange log and the themes *)

Module ContextSpec.
Import Py EnhancedContextManager.

(** The entry the call at position [k] (from 0) appends to the timeline. *)
Definition logged_exchange (k : nat) (c : Call) : Exchange :=
{| exchange_timestamp := call_clock c O;
   exchange_stage := call_stage c;
   user_input := call_input c;
   bot_response := call_response c;
   exchange_id := Z.min (Z.of_nat k) 8 |}.

Fixpoint logged_from (k : nat) (calls : list Call) : list Exchange :=
match calls with
| [] => []
| c :: calls' => logged_exchange k c :: logged_from (S k) calls'
end.

(** The calls whose lower-cased input contains one of the keywords. *)
Definition matching_calls (kws : list string) (calls : list Call) : list Call :=
filter (fun c => any_in kws (lower (call_input c))) calls.

(** The strength after [n] matching calls: 1.0, 1.5, ... and 5.0 from
    the ninth on. *)
Definition strength_after (n : nat) : float :=
nth (Nat.min n 9 - 1) strength_levels 5.0%float.

End ContextSpec.

(** ** enhanced_discovery_bot.py: one turn of the enhanced journey

    The state of [EnhancedSpiritualDiscoveryBot] that the loop of
    [start_enhanced_discovery_journey] reads and writes. The reply of the
    language model is an argument of the turn: the prompt is built from
    the state without changing it. What the loop prints is not part of
    the state. *)

Module EnhancedJourney.
Import Py.

Record t : Type := {
  context_manager : EnhancedContextManager.t;
  dynamic_questioner : DynamicQuestioningEngine.t;
  personality_profiler : PersonalityProfiler.t;
  discovery_session : DiscoverySession.t;
  conversation_stage : string;
  total_exchanges : Z
}.

Definition __init__ (now_id : string) : t :=
{| context_manager := EnhancedContextManager.__init__;
   dynamic_questioner := DynamicQuestioningEngine.__init__;
   personality_profiler := PersonalityProfiler.__init__;
   discovery_session := DiscoverySession.__init__ now_id;
   conversation_stage := "introduction";
   total_exchanges := 0 |}.

Definition newline : string := String (ascii_of_nat 10) EmptyString.

Definition _should_continue_dynamic_flow (self : t) : bool :=
let strong_patterns :=
  Z.of_nat (List.length
              (filter (fun p => (0.8 <=? DynamicQuestioningEngine.confidence p)%float)
                      (DynamicQuestioningEngine.response_patterns
                         (dynamic_questioner self)))) in
let uncovered_areas :=
  filter (fun entry => negb (snd entry))
         (DynamicQuestioningEngine.coverage_status (dynamic_questioner self)) in
(0 <? strong_patterns) || (2 <? Z.of_nat (List.length uncovered_areas)).

(** The text returned and the bot after the call (the questioning engine
    has recorded the patterns of this pass). *)
Definition get_next_intelligent_question (self : t) (user_input : string)
  : result string * t :=
let (outcome, questioner) :=
  DynamicQuestioningEngine.generate_next_question
    (dynamic_questioner self)
    (Corpus.of_session (discovery_session self))
    (conversation_stage self) user_input in
let self := {| context_manager := context_manager self;
               dynamic_questioner := questioner;
               personality_profiler := personality_profiler self;
               discovery_session := discovery_session self;
               conversation_stage := conversation_stage self;
               total_exchanges := total_exchanges self |} in
match outcome with
| Raise e => (Raise e, self)
| Ok dynamic_question =>
    let strong_themes :=
      filter (fun entry =>
                (2.5 <=? EnhancedContextManager.strength (snd entry))%float)
             (EnhancedContextManager.themes (context_manager self)) in
    let text := (newline ++ DynamicQuestioningEngine.question_text dynamic_question)%string in
    match DynamicQuestioningEngine.question_type dynamic_question with
    | DynamicQuestioningEngine.DEEP_DIVE =>
        match strong_themes with
        | _ :: _ => (Ok text, self)
        | [] => if _should_continue_dynamic_flow self
                then (Ok text, self) else (Ok "", self)
        end
    | DynamicQuestioningEngine.FOLLOW_UP => (Ok text, self)
    | _ => if _should_continue_dynamic_flow self
           then (Ok text, self) else (Ok "", self)
    end
end.

(** [now] is the clock reading [process_response] stamps the answer
    with; what [process_response] returns is dropped. *)
Definition _process_user_input_with_intelligence (self : t) (user_input now : string)
  : result t :=
processed <- DiscoverySession.process_response (discovery_session self) user_input now ;;
profiler <- PersonalityProfiler.update_profile (personality_profiler self) user_input ;;
stage <- DiscoverySession.get_current_stage (fst processed) ;;
Ok {| context_manager := context_manager self;
      dynamic_questioner := dynamic_questioner self;
      personality_profiler := profiler;
      discovery_session := fst processed;
      conversation_stage := stage;
      total_exchanges := total_exchanges self |}.

Definition _should_advance_stage (self : t) : result bool :=
current_stage <- DiscoverySession.get_current_stage (discovery_session self) ;;
let stage_responses :=
  Z.of_nat (List.length
              (get_default (DiscoverySession.user_responses (discovery_session self))
                           current_stage [])) in
Ok (negb (DynamicQuestioningEngine.should_continue_current_stage
            (dynamic_questioner self) current_stage stage_responses)).

Definition _advance_conversation_stage (self : t) : result t :=
session <- DiscoverySession._advance_to_next_stage (discovery_session self) ;;
stage <- DiscoverySession.get_current_stage session ;;
Ok {| context_manager := context_manager self;
      dynamic_questioner := dynamic_questioner self;
      personality_profiler := personality_profiler self;
      discovery_session := session;
      conversation_stage := stage;
      total_exchanges := total_exchanges self |}.

(** What one pass of the loop receives when the input is an answer (not
    empty and not a command): the text, the reply the language model
    gives for it, and the clock readings of the pass. *)
Record Turn : Type := {
  turn_input : string;
  turn_reply : string;
  turn_now : string;
  turn_clock : nat -> string
}.

(** The body of the loop for an answer; the text of the next question
    is returned with the bot. *)
Definition turn (self : t) (input : Turn) : result (string * t) :=
self <- _process_user_input_with_intelligence self (turn_input input) (turn_now input) ;;
let self := {| context_manager :=
                 EnhancedContextManager.add_exchange
                   (context_manager self) (turn_input input) (turn_reply input)
                   (conversation_stage self) (turn_clock input);
               dynamic_questioner := dynamic_questioner self;
               personality_profiler := personality_profiler self;
               discovery_session := discovery_session self;
               conversation_stage := conversation_stage self;
               total_exchanges := total_exchanges self + 1 |} in
let (asked, self) := get_next_intelligent_question self (turn_input input) in
next_question <- asked ;;
advance <- _should_advance_stage self ;;
if advance
then self <- _advance_conversation_stage self ;; Ok (next_question, self)
else Ok (next_question, self).

(** A conversation: the turns in order. *)
Fixpoint turns (self : t) (inputs : list Turn) : result t :=
match inputs with
| [] => Ok self
| input :: inputs' =>
    outcome <- turn self input ;; turns (snd outcome) inputs'
end.

End EnhancedJourney.

(** ** Vocabulary of the properties of the enhanced journey *)

Module JourneySpec.
Import Py DiscoverySession SessionSpec.

(** [min_responses.get(stage, 1)] *)
Definition min_for (stage : string) : Z :=
get_default DynamicQuestioningEngine.min_responses stage 1.

(** The number of answers stored under a stage. *)
Definition answer_count (s : DiscoverySession.t) (stage : string) : Z :=
Z.of_nat (List.length (get_default (user_responses s) stage [])).

(** A stage the session has left holds at least its minimum and at most
    four answers; the current stage and the later ones hold at most
    three. *)
Definition stage_bounded (s : DiscoverySession.t) (entry : Z * string) : bool :=
let n := answer_count s (snd entry) in
if fst entry <? current_stage s
then (min_for (snd entry) <=? n) && (n <=? 4)
else n <=? 3.

Definition bounded (s : DiscoverySession.t) : bool :=
forallb (stage_bounded s) indexed_stages.

(** An upper bound of the answers the session can still take: four for
    every stage from the current one on, less those the current stage
    already holds. *)
Definition remaining (s : DiscoverySession.t) : Z :=
match get_current_stage s with
| Ok name =>
    if String.eqb name "completed" then 0
    else 4 * (len_stages - current_stage s) - answer_count s name
| Raise _ => 0
end.

(** What every turn of the journey keeps, after [n] turns. *)
Definition invariant (bot : EnhancedJourney.t) (n : nat) : Prop :=
let s := EnhancedJourney.discovery_session bot in
consistent s = true
/\ bounded s = true
/\ get_current_stage s = Ok (EnhancedJourney.conversation_stage bot)
/\ (exists history,
      EnhancedJourney.dynamic_questioner bot
      = DynamicQuestioningEngine.with_history history)
/\ PersonalityProfiler.min_samples_for_profile
     (EnhancedJourney.personality_profiler bot) = 3
/\ EnhancedJourney.total_exchanges bot = Z.of_nat n
/\ remaining s <= Z.max 0 (24 - Z.of_nat n).

End JourneySpec.

(** ** Vocabulary of the properties of the sorted lists *)

Module SortSpec.

(** Scores in descending order: none is below a later one. *)
Fixpoint descending (scores : list float) : bool :=
match scores with
| [] => true
| score :: rest =>
    forallb (fun later => (later <=? score)%float) rest && descending rest
end.

(** The insertion every [sorted(..., reverse=True)] of the program
    performs, for a key function: the item goes before the first item
    whose key is smaller. *)
Fixpoint insert_desc {A : Type} (key : A -> float) (item : A) (sorted : list A)
  : list A :=
match sorted with
| [] => [item]
| head :: rest =>
    if (key head <? key item)%float
    then item :: head :: rest
    else head :: insert_desc key item rest
end.

Definition sort_desc {A : Type} (key : A -> float) (items : list A) : list A :=
fold_left (fun sorted item => insert_desc key item sorted) items [].

End SortSpec.

(** ** scoring_system.py: the comprehensive assessment *)

Module AssessmentReport.
Import Py Corpus SkillsPassionsAnalyzer SpiritualGiftsAssessment SortSpec.

Record ResponseSummary : Type := {
  response_count : Z;
  sample_response : string
}.

(** [_summarize_user_responses]: a stage without an answer gets no
    entry. *)
Definition _summarize_user_responses (user_responses : UserResponses)
  : dict ResponseSummary :=
fold_left (fun summary item =>
             match snd item with
             | [] => summary
             | first :: _ =>
                 setitem summary (fst item)
                         {| response_count := Z.of_nat (List.length (snd item));
                            sample_response := get_response first |}
             end)
          user_responses [].

(** [x >= threshold] for a number and an [int] threshold. *)
Definition at_least (x : Number) (threshold : Z) : bool :=
match x with
| Int n => threshold <=? n
| Float f => (int_to_float threshold <=? f)%float
end.

(** [round(x, 1)]: an [int] stays as it is. *)
Definition round_number (x : Number) : Number :=
match x with
| Int n => Int n
| Float f => Float (round1 f)
end.

(** [strength in ['Dominant', 'Strong']] *)
Definition is_dominant (strength : string) : bool :=
mem strength ["Dominant"; "Strong"].

Definition clarity_recommendation : string :=
"You show strong clarity in your spiritual gifts! Consider seeking opportunities to use these gifts more actively.".

Definition awareness_recommendation : string :=
"You have good awareness of your gifts. Focus on developing your top 1-2 gifts through practice and mentorship.".

Definition exploring_recommendation : string :=
"Continue exploring your gifts through various experiences and feedback from others.".

(** The loop of [_generate_recommendations] over the top gifts. *)
Fixpoint gift_recommendations (top_gifts : list (string * ScoreData))
         (recommendations : list string) : result (list string) :=
match top_gifts with
| [] => Ok recommendations
| (gift_name, gift_data) :: top_gifts' =>
    if is_dominant (strength gift_data)
    then
      first <- index (score_typical_expressions gift_data) 0 ;;
      gift_recommendations top_gifts'
        (recommendations
         ++ [("For your " ++ gift_name ++ " gift, consider: " ++ lower first)%string])
    else gift_recommendations top_gifts' recommendations
end.

Definition _generate_recommendations (top_gifts : list (string * ScoreData))
           (readiness_score : Number) : result (list string) :=
let recommendations :=
  if at_least readiness_score 60 then [clarity_recommendation] else [] in
let recommendations :=
  recommendations
  ++ [if at_least readiness_score 40
      then awareness_recommendation
      else exploring_recommendation] in
gift_recommendations top_gifts recommendations.

Definition _generate_next_steps (top_gifts : list (string * ScoreData))
  : list string :=
(match top_gifts with
 | [] => []
 | (gift_name, _) :: _ =>
     [("Find a mentor who demonstrates the " ++ gift_name ++ " gift well")%string;
      ("Look for opportunities to practice " ++ gift_name
       ++ " in low-risk environments")%string;
      "Seek feedback from trusted friends about how they see these gifts in you"]
 end)
++ ["Keep a journal of when you feel most energized and effective";
    "Continue learning about spiritual gifts through books, assessments, or courses"].

Record TopGift : Type := {
  top_name : string;
  top_score : float;
  top_strength : string;
  top_description : string
}.

Record DominantGift : Type := {
  dominant_name : string;
  dominant_score : float;
  dominant_strength : string
}.

(** The assessment without its identifier and timestamp, which come from
    the clock, and without the copy of the analysis summary kept under
    ['detailed_analysis']. *)
Record Assessment : Type := {
  user_responses_summary : dict ResponseSummary;
  gift_scores : dict ScoreData;
  top_gifts : list TopGift;
  dominant_gifts : list DominantGift;
  readiness_score : Number;
  recommendations : list string;
  next_steps : list string
}.

(** The key of the sort: [x[1]['total_score']]. *)
Definition score_of (item : string * ScoreData) : float :=
total_score (snd item).

(** [sum(top_scores) / len(top_scores) if top_scores else 0] *)
Definition readiness_of (top_scores : list float) : Number :=
match top_scores with
| [] => Int 0
| _ :: _ =>
    Float (fold_left PrimFloat.add top_scores 0
           / int_to_float (Z.of_nat (List.length top_scores)))%float
end.

Definition generate_comprehensive_assessment (user_responses : UserResponses)
  : result Assessment :=
scores <- calculate_gift_scores user_responses ;;
let sorted_gifts := sort_desc score_of scores in
let top := firstn 3 sorted_gifts in
let dominant := filter (fun item => is_dominant (strength (snd item))) sorted_gifts in
let readiness := readiness_of (map score_of top) in
recommended <- _generate_recommendations top readiness ;;
Ok {| user_responses_summary := _summarize_user_responses user_responses;
      gift_scores := scores;
      top_gifts :=
        map (fun item => {| top_name := fst item;
                            top_score := total_score (snd item);
                            top_strength := strength (snd item);
                            top_description := score_description (snd item) |})
            top;
      dominant_gifts :=
        map (fun item => {| dominant_name := fst item;
                            dominant_score := total_score (snd item);
                            dominant_strength := strength (snd item) |})
            dominant;
      readiness_score := round_number readiness;
      recommendations := recommended;
      next_steps := _generate_next_steps top |}.

End AssessmentReport.

(** ** Vocabulary of the properties of the assessment *)

Module AssessmentSpec.
Import Py Corpus SkillsPassionsAnalyzer SpiritualGiftsAssessment AssessmentReport.

(** The sub-score of [matches] matches among [size] indicators. *)
Definition ratio_score (matches size : Z) : float :=
(int_to_float matches / int_to_float size * 25)%float.

(** The values a sub-score takes over the framework, whose indicator
    lists have two, three or four entries. *)
Definition component_values : list float :=
[ratio_score 0 4; ratio_score 1 4; ratio_score 1 3; ratio_score 2 4;
 ratio_score 2 3; ratio_score 3 4; ratio_score 4 4].

Definition in_range (low x high : float) : bool :=
((low <=? x) && (x <=? high))%float.

(** The first typical expression of a gift of the framework. *)
Definition first_expression (gift_name : string) : string :=
match get gifts_framework gift_name with
| Some gift_info => hd "" (typical_expressions gift_info)
| None => ""
end.

(** The recommendation [_generate_recommendations] words for a gift. *)
Definition gift_recommendation (gift_name : string) : string :=
("For your " ++ gift_name ++ " gift, consider: "
 ++ lower (first_expression gift_name))%string.

End AssessmentSpec.

(** ** discovery_engine.py: the loop of the plain discovery bot

    The state that the loop of [DiscoveryBot.start_discovery_journey]
    reads and writes: the session and the session file. What the loop
    prints, the prompt it builds and the reply of the language model,
    which is only printed, are left out; each line typed at the prompt
    comes with the clock readings of the iteration that consumes it. *)

Module DiscoveryBot.
Import Py DiscoverySession DiscoverySessionStore.

(** [s.lstrip()], [s.rstrip()] and [s.strip()] *)
Fixpoint lstrip (s : string) : string :=
match s with
| EmptyString => EmptyString
| String c s' => if is_space c then lstrip s' else s
end.

Fixpoint rstrip (s : string) : string :=
match s with
| EmptyString => EmptyString
| String c s' =>
    match rstrip s' with
    | EmptyString => if is_space c then EmptyString else String c EmptyString
    | String c' rest => String c (String c' rest)
    end
end.

Definition strip (s : string) : string := rstrip (lstrip s).

(** A line typed at the prompt; [answered_at] is the clock reading of
    [process_response] and [saved_at] that of [save_session], when the
    iteration calls them. *)
Record Line : Type := {
  typed : string;
  answered_at : string;
  saved_at : string
}.

(** The session and the content of its file, once written: the file
    name depends on the session identifier only, so a later save
    replaces an earlier one. *)
Record t : Type := {
  discovery_session : DiscoverySession.t;
  session_file : option Json.t
}.

Definition __init__ (now_id : string) : t :=
{| discovery_session := DiscoverySession.__init__ now_id;
   session_file := None |}.

Definition with_session (self : t) (session : DiscoverySession.t) : t :=
{| discovery_session := session;
   session_file := session_file self |}.

(** [self.discovery_session.save_session()] *)
Definition save (self : t) (created : string) : result t :=
session_data <- save_session (discovery_session self) created ;;
Ok {| discovery_session := discovery_session self;
      session_file := Some session_data |}.

(** [if next_question:] on a question or [None]. *)
Definition truthy (question : option string) : bool :=
match question with
| Some (String _ _) => true
| _ => false
end.

(** The end of the loop body, for a line that is no command: the result
    holds [false] when the loop breaks. *)
Definition answer (self : t) (user_input : string) (line : Line)
  : result (t * bool) :=
processed <- process_response (discovery_session self) user_input
                              (answered_at line) ;;
if negb (snd processed) then Ok (with_session self (fst processed), false)
else
  current_stage <- get_current_stage (fst processed) ;;
  next_question <- get_next_question (fst processed) ;;
  if truthy (fst next_question)
  then Ok (with_session self (snd next_question), true)
  else
    current_stage <- get_current_stage (snd next_question) ;;
    if String.eqb current_stage "completed"
    then
      saved <- save (with_session self (snd next_question)) (saved_at line) ;;
      Ok (saved, false)
    else Ok (with_session self (snd next_question), true).

(** One iteration of [while True]. *)
Definition iteration (self : t) (line : Line) : result (t * bool) :=
let user_input := strip (typed line) in
if mem (lower user_input) ["quit"; "exit"; "bye"] then
  saved <- save self (saved_at line) ;;
  Ok (saved, false)
else if String.eqb (lower user_input) "save" then
  saved <- save self (saved_at line) ;;
  Ok (saved, true)
else if String.eqb (lower user_input) "progress" then
  summary <- get_session_summary (discovery_session self) ;;
  Ok (self, true)
else if String.eqb (lower user_input) "skip" then
  session <- _advance_to_next_stage (discovery_session self) ;;
  next_question <- get_next_question session ;;
  Ok (with_session self (snd next_question), true)
else if String.eqb user_input "" then Ok (self, true)
else answer self user_input line.

(** The loop over the lines typed; the result holds [true] when the loop
    is waiting for another line. *)
Fixpoint loop (self : t) (lines : list Line) : result (t * bool) :=
match lines with
| [] => Ok (self, true)
| line :: lines' =>
    after <- iteration self line ;;
    if snd after then loop (fst after) lines' else Ok (fst after, false)
end.

Definition start_discovery_journey (self : t) (lines : list Line)
  : result (t * bool) :=
first_question <- get_next_question (discovery_session self) ;;
loop (with_session self (snd first_question)) lines.

End DiscoveryBot.

(** ** Vocabulary of the properties of the plain journey *)

Module PlainJourneySpec.
Import Py DiscoverySession DiscoverySessionStore DiscoveryBot.

(** A line that is neither blank nor one of the commands. *)
Definition is_answer (line : Line) : bool :=
let user_input := strip (typed line) in
negb (mem (lower user_input) ["quit"; "exit"; "bye"; "save"; "progress"; "skip"])
&& negb (String.eqb user_input "").

(** A line with the text the loop reads from it. *)
Definition read (line : Line) : string * Line :=
(strip (typed line), line).

(** The loop over lines that are all answers, each with its text. *)
Fixpoint answers_loop (self : t) (answers : list (string * Line))
  : result (t * bool) :=
match answers with
| [] => Ok (self, true)
| (user_input, line) :: answers' =>
    after <- answer self user_input line ;;
    if snd after then answers_loop (fst after) answers' else Ok (fst after, false)
end.

(** The questions of the six stages, in the order of the journey. *)
Definition all_questions : list string := flat_map get_stage_questions stages.

Definition total_questions : nat := List.length all_questions.

(** The number of questions before stage [i]. *)
Definition offset (i : nat) : nat :=
List.length (flat_map get_stage_questions (firstn i stages)).

(** The answers to the questions of stage [i]. *)
Definition stage_answers {A : Type} (i : nat) (answers : list A) : list A :=
firstn (offset (S i) - offset i) (skipn (offset i) answers).

(** The entries [process_response] files for the answers of a stage. *)
Fixpoint filed_from (number : Z) (answers : list (string * Line)) : list Answer :=
match answers with
| [] => []
| (user_input, line) :: answers' =>
    {| response := user_input;
       timestamp := answered_at line;
       question_number := number |} :: filed_from (number + 1) answers'
end.

(** The session after the given answers. *)
Definition session_after (now_id : string) (answers : list (string * Line))
  : DiscoverySession.t :=
let answered := List.length answers in
{| current_stage :=
     Z.of_nat (List.length
                 (filter (fun i => (offset (S i) <=? answered)%nat)
                         (seq 0 (List.length stages))));
   stage_progress :=
     map (fun i => (nth i stages "",
                    {| completed := (offset (S i) <=? answered)%nat;
                       question_count :=
                         Z.of_nat (List.length (stage_answers i answers)) |}))
         (seq 0 (List.length stages));
   user_responses :=
     map (fun i => (nth i stages "", filed_from 0 (stage_answers i answers)))
         (seq 0 (List.length stages));
   session_id := now_id |}.

End PlainJourneySpec.

(** ** Vocabulary of the properties of the pattern history *)

Module HistorySpec.
Import Py Corpus DynamicQuestioningEngine.

(** The engine after a sequence of [analyze_response_patterns] calls,
    each with its corpus and stage. *)
Fixpoint passes (self : t) (calls : list (UserResponses * string)) : t :=
match calls with
| [] => self
| (user_responses, current_stage) :: calls' =>
    passes (snd (analyze_response_patterns self user_responses current_stage)) calls'
end.

End HistorySpec.

(* ================================================================== *)
(** * Part II: properties *)
(* ================================================================== *)

(** ** Dictionaries *)

Section DictFacts.
Context {V : Type}.
Implicit Types (d : Py.dict V) (k : string) (v : V).

Lemma get_setitem_same d k v : Py.get (Py.setitem d k v) k = Some v.
Proof.
  induction d as [|[k' v'] d IH]; simpl.
  - now rewrite String.eqb_refl.
  - destruct (String.eqb k' k) eqn:E; simpl.
    + now rewrite String.eqb_refl.
    + now rewrite E.
Qed.

Lemma get_setitem_other d k k' v :
  k' <> k -> Py.get (Py.setitem d k v) k' = Py.get d k'.
Proof.
  intros Hne. induction d as [|[k0 v0] d IH]; simpl.
  - destruct (String.eqb_spec k k'); congruence.
  - destruct (String.eqb_spec k0 k) as [->|Hk]; simpl.
    + destruct (String.eqb_spec k k'); congruence.
    + now rewrite IH.
Qed.

Lemma get_setitem d k k' v :
  Py.get (Py.setitem d k v) k' = if String.eqb k' k then Some v else Py.get d k'.
Proof.
  destruct (String.eqb_spec k' k) as [->|Hne].
  - apply get_setitem_same.
  - now apply get_setitem_other.
Qed.

Lemma contains_key_setitem d k k' v :
  Py.contains_key d k' = true -> Py.contains_key (Py.setitem d k v) k' = true.
Proof.
  unfold Py.contains_key. rewrite get_setitem.
  destruct (String.eqb k' k); auto.
Qed.

Lemma get_none_not_key d k :
  ~ In k (Py.keys d) -> Py.get d k = None.
Proof.
  induction d as [|[k' v] d IH]; simpl; [reflexivity|].
  intros Hn. destruct (String.eqb_spec k' k); [tauto|]. apply IH. tauto.
Qed.

Lemma in_get_nodup d k v :
  NoDup (Py.keys d) -> In (k, v) d -> Py.get d k = Some v.
Proof.
  induction d as [|[k' v'] d IH]; simpl; [tauto|].
  intros Hnd [E|Hin].
  - inversion E; subst. now rewrite String.eqb_refl.
  - inversion Hnd as [|? ? Hnotin Hnd']; subst.
    destruct (String.eqb_spec k' k) as [->|_].
    + exfalso. apply Hnotin. change k with (fst (k, v)). now apply in_map.
    + now apply IH.
Qed.

End DictFacts.

(** ** The stage state machine *)

Module DiscoverySessionFacts.
Import Py DiscoverySession.

Lemma contains_key_get {V : Type} (d : dict V) k :
  contains_key d k = true -> exists v, get d k = Some v.
Proof.
  unfold contains_key. destruct (get d k) as [v|]; [eauto | discriminate].
Qed.

Lemma wf_bounds s :
  wf s = true -> 0 <= current_stage s <= len_stages.
Proof.
  unfold wf. rewrite !andb_true_iff. intros [[H0 H1] _].
  apply Z.leb_le in H0. apply Z.leb_le in H1. lia.
Qed.

Lemma wf_entries s stage :
  wf s = true -> In stage stages ->
  (exists p, get (stage_progress s) stage = Some p)
  /\ (exists a, get (user_responses s) stage = Some a).
Proof.
  unfold wf. rewrite !andb_true_iff. intros [_ Hall] Hin.
  rewrite forallb_forall in Hall. specialize (Hall stage Hin).
  apply andb_true_iff in Hall as [Hp Ha].
  split; now apply contains_key_get.
Qed.

(** Below the number of stages the subscript [self.stages[i]] names a
    stage, which is never the sentinel. *)
Lemma index_stages s :
  wf s = true -> current_stage s < len_stages ->
  exists name, index stages (current_stage s) = Ok name
               /\ In name stages /\ String.eqb name "completed" = false.
Proof.
  intros Hwf Hlt. pose proof (wf_bounds s Hwf) as Hb.
  unfold len_stages in *. simpl in Hlt, Hb.
  assert (Hc : current_stage s = 0 \/ current_stage s = 1 \/ current_stage s = 2
               \/ current_stage s = 3 \/ current_stage s = 4 \/ current_stage s = 5)
    by lia.
  destruct Hc as [E|[E|[E|[E|[E|E]]]]]; rewrite E;
    eexists; (split; [reflexivity | split; [simpl; tauto | reflexivity]]).
Qed.

Lemma wf_setitem_progress s cs' name p :
  wf s = true -> 0 <= cs' <= len_stages ->
  wf {| current_stage := cs';
        stage_progress := setitem (stage_progress s) name p;
        user_responses := user_responses s;
        session_id := session_id s |} = true.
Proof.
  unfold wf. rewrite !andb_true_iff. intros [_ Hall] Hb.
  cbn [current_stage stage_progress user_responses].
  repeat split; try (apply Z.leb_le; lia).
  rewrite forallb_forall in *. intros st Hin.
  specialize (Hall st Hin). apply andb_true_iff in Hall as [Hp Ha].
  apply andb_true_iff. split; [now apply contains_key_setitem | exact Ha].
Qed.

(** One call of [_advance_to_next_stage] on a well-formed session. *)
Lemma advance_step s :
  wf s = true ->
  exists s', _advance_to_next_stage s = Ok s' /\ wf s' = true
             /\ current_stage s <= current_stage s'
             /\ (terminal s -> s' = s).
Proof.
  intros Hwf. unfold _advance_to_next_stage, terminal.
  destruct (Z.ltb_spec (current_stage s) len_stages) as [Hlt|Hge].
  - destruct (index_stages s Hwf Hlt) as (name & Hidx & Hin & _).
    destruct (wf_entries s name Hwf Hin) as [[p Hp] _].
    rewrite Hidx. simpl. unfold getitem. rewrite Hp. simpl.
    eexists. split; [reflexivity|].
    pose proof (wf_bounds s Hwf).
    split; [apply wf_setitem_progress; [assumption | lia]|].
    simpl. split; lia.
  - exists s. repeat split; auto. lia.
Qed.

(** C1: on every session, every sequence of advance calls returns, the
    stage index never decreases along it, and from the terminal state
    (index past the last stage) the calls change nothing: the index and
    every completion flag stay as they were. *)
Theorem advance_monotone_idempotent :
  forall s, wf s = true ->
  forall n, exists s',
    advance_calls n s = Ok s' /\ wf s' = true
    /\ current_stage s <= current_stage s'
    /\ (terminal s -> s' = s).
Proof.
  intros s Hwf n. revert s Hwf.
  induction n as [|n IH]; intros s Hwf; simpl.
  - exists s. repeat split; auto. lia.
  - destruct (advance_step s Hwf) as (s1 & Hs1 & Hwf1 & Hle1 & Hterm1).
    destruct (IH s1 Hwf1) as (s2 & Hs2 & Hwf2 & Hle2 & Hterm2).
    rewrite Hs1. simpl. exists s2. repeat split; auto; try lia.
    intros Ht. specialize (Hterm1 Ht). subst s1. auto.
Qed.

Lemma advance_monotone_idempotent_witness :
  exists s',
    advance_calls 8 (__init__ "20240101_120000") = Ok s'
    /\ wf s' = true
    /\ current_stage (__init__ "20240101_120000") <= current_stage s'
    /\ (terminal (__init__ "20240101_120000") -> s' = __init__ "20240101_120000").
Proof.
  apply (advance_monotone_idempotent (__init__ "20240101_120000")).
  reflexivity.
Defined.

Lemma wf_setitem_both s name p a :
  wf s = true ->
  wf {| current_stage := current_stage s;
        stage_progress := setitem (stage_progress s) name p;
        user_responses := setitem (user_responses s) name a;
        session_id := session_id s |} = true.
Proof.
  unfold wf. rewrite !andb_true_iff. intros [Hb Hall].
  cbn [current_stage stage_progress user_responses].
  split; [exact Hb|].
  rewrite forallb_forall in *. intros st Hin.
  specialize (Hall st Hin). apply andb_true_iff in Hall as [Hp Ha].
  apply andb_true_iff. split; now apply contains_key_setitem.
Qed.

(** C2: in the terminal state [process_response] returns False for
    every text and the session is unchanged (so are all answer
    sequences and response counters); otherwise it returns True, the
    current stage's sequence gains exactly one Answer at its end, that
    stage's counter goes up by one, and no other stage is touched. *)
Theorem process_response_accepts_until_terminal :
  forall s text now, wf s = true ->
    (terminal s -> process_response s text now = Ok (s, false))
    /\ (~ terminal s ->
        exists name old p s',
          index stages (current_stage s) = Ok name
          /\ answers_of s name = Some old
          /\ progress_of s name = Some p
          /\ process_response s text now = Ok (s', true)
          /\ wf s' = true
          /\ current_stage s' = current_stage s
          /\ answers_of s' name =
               Some (old ++ [{| response := text;
                                timestamp := now;
                                question_number := question_count p |}])
          /\ progress_of s' name =
               Some {| completed := completed p;
                       question_count := question_count p + 1 |}
          /\ (forall stage, stage <> name ->
                answers_of s' stage = answers_of s stage
                /\ progress_of s' stage = progress_of s stage)).
Proof.
  intros s text now Hwf. unfold terminal. split.
  - intros Ht. unfold process_response, get_current_stage.
    destruct (Z.ltb_spec (current_stage s) len_stages); [lia | reflexivity].
  - intros Hnt. assert (Hlt : current_stage s < len_stages) by lia.
    destruct (index_stages s Hwf Hlt) as (name & Hidx & Hin & Hne).
    destruct (wf_entries s name Hwf Hin) as [[p Hp] [old Hold]].
    exists name, old, p. eexists.
    unfold process_response, get_current_stage, answers_of, progress_of.
    destruct (Z.ltb_spec (current_stage s) len_stages); [|lia].
    rewrite Hidx. cbn [bind]. rewrite Hne.
    unfold getitem. rewrite Hold, Hp. cbn [bind].
    repeat split; try reflexivity; try assumption;
      cbn [current_stage stage_progress user_responses].
    + now apply wf_setitem_both.
    + apply get_setitem_same.
    + apply get_setitem_same.
    + now apply get_setitem_other.
    + now apply get_setitem_other.
Qed.

Lemma process_response_accepts_until_terminal_witness :
  let s := __init__ "20240101_120000" in
  wf s = true
  /\ (terminal s -> process_response s "I teach" "2024-01-01T12:00:00" = Ok (s, false))
  /\ (~ terminal s ->
      exists name old p s',
        index stages (current_stage s) = Ok name
        /\ answers_of s name = Some old
        /\ progress_of s name = Some p
        /\ process_response s "I teach" "2024-01-01T12:00:00" = Ok (s', true)
        /\ wf s' = true
        /\ current_stage s' = current_stage s
        /\ answers_of s' name =
             Some (old ++ [{| response := "I teach";
                              timestamp := "2024-01-01T12:00:00";
                              question_number := question_count p |}])
        /\ progress_of s' name =
             Some {| completed := completed p;
                     question_count := question_count p + 1 |}
        /\ (forall stage, stage <> name ->
              answers_of s' stage = answers_of s stage
              /\ progress_of s' stage = progress_of s stage)).
Proof.
  intros s. split; [reflexivity|].
  apply (process_response_accepts_until_terminal s "I teach" "2024-01-01T12:00:00").
  reflexivity.
Defined.

(** Every operation keeps a session well formed. *)
Lemma process_response_wf s text now s' accepted :
  wf s = true -> process_response s text now = Ok (s', accepted) ->
  wf s' = true.
Proof.
  intros Hwf. unfold process_response, get_current_stage.
  destruct (Z.ltb_spec (current_stage s) len_stages) as [Hlt|Hge].
  - destruct (index_stages s Hwf Hlt) as (name & Hidx & Hin & Hne).
    destruct (wf_entries s name Hwf Hin) as [[p Hp] [old Hold]].
    rewrite Hidx. cbn [bind]. rewrite Hne.
    unfold getitem. rewrite Hold, Hp. cbn [bind].
    intros [= <- _]. now apply wf_setitem_both.
  - cbn [bind]. change (String.eqb "completed" "completed") with true.
    intros [= <- _]. exact Hwf.
Qed.

Lemma get_next_question_depth_wf depth :
  forall s q s',
    wf s = true -> get_next_question_depth depth s = Ok (q, s') ->
    wf s' = true.
Proof.
  induction depth as [|depth IH]; intros s q s' Hwf;
    cbn [get_next_question_depth]; [discriminate|].
  destruct (get_current_stage s) as [name|e]; cbn [bind]; [|discriminate].
  destruct (String.eqb name "completed").
  - intros [= _ <-]. exact Hwf.
  - destruct (getitem (stage_progress s) name) as [p|e]; cbn [bind];
      [|discriminate].
    destruct (Z.of_nat (List.length (get_stage_questions name))
              <=? question_count p).
    + destruct (advance_step s Hwf) as (s1 & Hs1 & Hwf1 & _).
      rewrite Hs1. cbn [bind]. now apply IH.
    + destruct (index (get_stage_questions name) (question_count p));
        cbn [bind]; [|discriminate].
      intros [= _ <-]. exact Hwf.
Qed.

(** The sessions a conversation reaches are well formed, so what holds of
    every well-formed session holds of all of them. *)
Lemma reachable_wf s : reachable s -> wf s = true.
Proof.
  induction 1 as [now_id | s s' _ IH Hstep | s s' text now accepted _ IH Hstep
                 | s s' q _ IH Hstep].
  - reflexivity.
  - destruct (advance_step s IH) as (s1 & Hs1 & Hwf1 & _).
    rewrite Hs1 in Hstep. now injection Hstep as <-.
  - now apply (process_response_wf s text now s' accepted).
  - now apply (get_next_question_depth_wf recursion_limit s q s').
Qed.

End DiscoverySessionFacts.

(** ** Themes *)

Module ThemeFacts.
Import Py EnhancedContextManager.

Lemma filter_nonempty_existsb {A : Type} (f : A -> bool) (l : list A) :
  existsb f l = match filter f l with [] => false | _ :: _ => true end.
Proof.
  induction l as [|a l IH]; simpl; [reflexivity|].
  destruct (f a); simpl; [reflexivity | exact IH].
Qed.

(** What one pass of the loop body does to the entry of its own theme. *)
Lemma update_theme_get_same d ui ul st name kws :
  get (update_theme d ui ul st name kws) name =
  if any_in kws ul then
    match get d name with
    | None =>
        Some {| theme_name := name; evidence := [ui];
                strength := 1.0; first_mentioned := st |}
    | Some th =>
        Some {| theme_name := theme_name th;
                evidence := evidence th ++ [ui];
                strength := if (5.0 <? strength th + 0.5)%float
                            then 5.0%float else (strength th + 0.5)%float;
                first_mentioned := first_mentioned th |}
    end
  else get d name.
Proof.
  unfold update_theme, any_in. rewrite filter_nonempty_existsb.
  destruct (filter _ kws); [reflexivity|].
  destruct (get d name); apply get_setitem_same.
Qed.

Lemma update_theme_get_other d ui ul st name kws name' :
  name' <> name ->
  get (update_theme d ui ul st name kws) name' = get d name'.
Proof.
  intros Hne. unfold update_theme.
  destruct (filter _ kws); [reflexivity|].
  destruct (get d name); now apply get_setitem_other.
Qed.

(** The whole loop, read at one theme of a library without repeated
    names: only that theme's own pass matters. *)
Lemma update_themes_with_get lib :
  NoDup (keys lib) ->
  forall d ui st name,
    get (update_themes_with lib d ui st) name =
    match get lib name with
    | Some kws => get (update_theme d ui (lower ui) st name kws) name
    | None => get d name
    end.
Proof.
  unfold update_themes_with.
  induction lib as [|[n0 k0] lib IH]; intros Hnd d ui st name; simpl.
  - reflexivity.
  - inversion Hnd as [|? ? Hnotin Hnd']; subst.
    rewrite (IH Hnd'). simpl.
    destruct (String.eqb_spec n0 name) as [->|Hne].
    + now rewrite (get_none_not_key lib name Hnotin).
    + destruct (get lib name) as [kws|].
      * rewrite !update_theme_get_same.
        now rewrite (update_theme_get_other d ui (lower ui) st n0 k0 name)
          by congruence.
      * apply update_theme_get_other. congruence.
Qed.

Lemma theme_keywords_nodup : NoDup (keys theme_keywords).
Proof.
  unfold theme_keywords, keys. simpl.
  repeat (constructor; [simpl; intuition discriminate|]). constructor.
Qed.

Lemma themes_add_exchange self ui br st clock :
  themes (add_exchange self ui br st clock)
  = update_themes_with theme_keywords (themes self) ui st.
Proof.
  unfold add_exchange, _manage_context_window.
  match goal with |- context [if ?c then _ else _] => destruct c end;
    reflexivity.
Qed.

(** A call of [add_exchange], read at one theme of the library. *)
Lemma add_exchange_theme self ui br st clock name kws :
  get theme_keywords name = Some kws ->
  get (themes (add_exchange self ui br st clock)) name =
  if any_in kws (lower ui) then
    match get (themes self) name with
    | None =>
        Some {| theme_name := name; evidence := [ui];
                strength := 1.0; first_mentioned := st |}
    | Some th =>
        Some {| theme_name := theme_name th;
                evidence := evidence th ++ [ui];
                strength := if (5.0 <? strength th + 0.5)%float
                            then 5.0%float else (strength th + 0.5)%float;
                first_mentioned := first_mentioned th |}
    end
  else get (themes self) name.
Proof.
  intros Hk. rewrite themes_add_exchange.
  rewrite (update_themes_with_get _ theme_keywords_nodup), Hk.
  apply update_theme_get_same.
Qed.

Lemma add_exchange_theme_unlisted self ui br st clock name :
  get theme_keywords name = None ->
  get (themes (add_exchange self ui br st clock)) name = get (themes self) name.
Proof.
  intros Hk. rewrite themes_add_exchange.
  now rewrite (update_themes_with_get _ theme_keywords_nodup), Hk.
Qed.

Lemma run_snoc self calls c :
  run self (calls ++ [c]) =
  add_exchange (run self calls) (call_input c) (call_response c)
               (call_stage c) (call_clock c).
Proof. unfold run. now rewrite fold_left_app. Qed.

(** One clamped step from a level stays on the levels. *)
Lemma level_step x :
  In x strength_levels ->
  In (if (5.0 <? x + 0.5)%float then 5.0%float else (x + 0.5)%float)
     strength_levels.
Proof.
  unfold strength_levels. simpl.
  intros [<-|[<-|[<-|[<-|[<-|[<-|[<-|[<-|[<-|[]]]]]]]]]];
    vm_compute; tauto.
Qed.

(** Every strength a conversation reaches is one of the levels. *)
Lemma reachable_strength_levels calls name th :
  get (themes (run __init__ calls)) name = Some th ->
  In (strength th) strength_levels.
Proof.
  revert name th. induction calls as [|c calls IH] using rev_ind;
    intros name th.
  - discriminate.
  - rewrite run_snoc.
    destruct (get theme_keywords name) as [kws|] eqn:Hk.
    + rewrite (add_exchange_theme _ _ _ _ _ name kws Hk).
      destruct (any_in kws (lower (call_input c))).
      * destruct (get (themes (run __init__ calls)) name) as [th0|] eqn:H0;
          intros [= <-]; cbn [strength].
        -- apply level_step. eapply IH. exact H0.
        -- unfold strength_levels. simpl. tauto.
      * apply IH.
    + rewrite (add_exchange_theme_unlisted _ _ _ _ _ name Hk). apply IH.
Qed.

Lemma level_facts x :
  In x strength_levels ->
  let y := if (5.0 <? x + 0.5)%float then 5.0%float else (x + 0.5)%float in
  ((x <=? 4.5)%float = true -> y = (x + 0.5)%float)
  /\ ((x <=? 4.5)%float = false -> x = 5.0%float /\ y = 5.0%float)
  /\ (x <=? y)%float = true
  /\ (1.0 <=? x)%float = true /\ (x <=? 5.0)%float = true.
Proof.
  unfold strength_levels. simpl.
  intros [<-|[<-|[<-|[<-|[<-|[<-|[<-|[<-|[<-|[]]]]]]]]]];
    vm_compute; repeat split; intros; try reflexivity; discriminate.
Qed.

(** C4: along every sequence of [add_exchange] calls and for every theme
    of the library, a call whose lower-cased text holds
    none of the theme's keywords leaves the theme as it is; the first
    call that holds one creates the theme with strength exactly 1.0;
    each later such call adds exactly 0.5 while the strength is at most
    4.5 and leaves it at 5.0 once it is there; a theme is never
    removed, its strength never decreases and stays within 1.0..5.0. *)
Theorem theme_strength_step :
  forall calls c name kws,
    get theme_keywords name = Some kws ->
    let before := themes (run __init__ calls) in
    let after := themes (run __init__ (calls ++ [c])) in
    (any_in kws (lower (call_input c)) = false ->
       get after name = get before name)
    /\ (any_in kws (lower (call_input c)) = true ->
        match get before name with
        | None =>
            exists th', get after name = Some th'
                        /\ strength th' = 1.0%float
        | Some th =>
            exists th', get after name = Some th'
              /\ ((strength th <=? 4.5)%float = true ->
                  strength th' = (strength th + 0.5)%float)
              /\ ((strength th <=? 4.5)%float = false ->
                  strength th = 5.0%float /\ strength th' = 5.0%float)
        end)
    /\ (forall th, get before name = Some th ->
          exists th', get after name = Some th'
                      /\ (strength th <=? strength th')%float = true)
    /\ (forall th', get after name = Some th' ->
          (1.0 <=? strength th')%float = true
          /\ (strength th' <=? 5.0)%float = true).
Proof.
  intros calls c name kws Hk before after.
  assert (Hafter : get after name =
            if any_in kws (lower (call_input c)) then
              match get before name with
              | None =>
                  Some {| theme_name := name; evidence := [call_input c];
                          strength := 1.0; first_mentioned := call_stage c |}
              | Some th =>
                  Some {| theme_name := theme_name th;
                          evidence := evidence th ++ [call_input c];
                          strength := if (5.0 <? strength th + 0.5)%float
                                      then 5.0%float else (strength th + 0.5)%float;
                          first_mentioned := first_mentioned th |}
              end
            else get before name).
  { unfold after, before. rewrite run_snoc.
    now apply add_exchange_theme. }
  assert (Hlev : forall th, get before name = Some th ->
                            In (strength th) strength_levels).
  { intros th Hth. eapply reachable_strength_levels. exact Hth. }
  repeat split.
  - intros Hno. now rewrite Hafter, Hno.
  - intros Hyes. rewrite Hafter, Hyes.
    destruct (get before name) as [th|] eqn:Hb.
    + eexists. split; [reflexivity|]. cbn [strength].
      pose proof (level_facts _ (Hlev th eq_refl)) as (H1 & H2 & _).
      split; [exact H1 | exact H2].
    + eexists. split; reflexivity.
  - intros th Hth. rewrite Hafter.
    pose proof (level_facts _ (Hlev th Hth)) as (_ & _ & Hmono & _).
    destruct (any_in kws (lower (call_input c))).
    + rewrite Hth. eexists. split; [reflexivity|]. exact Hmono.
    + exists th. split; [exact Hth|].
      pose proof (Hlev th Hth) as Hin. revert Hin. unfold strength_levels. simpl.
      intros [<-|[<-|[<-|[<-|[<-|[<-|[<-|[<-|[<-|[]]]]]]]]]]; reflexivity.
  - pose proof (reachable_strength_levels (calls ++ [c]) name th' H) as Hin.
    apply (level_facts _ Hin).
  - pose proof (reachable_strength_levels (calls ++ [c]) name th' H) as Hin.
    apply (level_facts _ Hin).
Qed.

Lemma theme_strength_step_witness :
  let kws := ["teach"; "explain"; "mentor"; "guide"; "instruct"; "help others learn"] in
  let before := themes (run __init__ [teach_call]) in
  let after := themes (run __init__ ([teach_call] ++ [teach_call])) in
  get theme_keywords "teaching" = Some kws
  /\ (forall th, get before "teaching" = Some th ->
        exists th', get after "teaching" = Some th'
                    /\ (strength th <=? strength th')%float = true).
Proof.
  intros kws before after. split; [reflexivity|].
  apply (theme_strength_step [teach_call] teach_call "teaching" kws).
  reflexivity.
Defined.

(** The clamp at work: the strength is 5.0 after the ninth call that
    mentions a teaching keyword, and the tenth leaves it at 5.0 instead of
    adding 0.5. *)
Lemma theme_increment_stops_at_ceiling :
  let before := themes (run __init__ (repeat teach_call 9)) in
  let after := themes (run __init__ (repeat teach_call 9 ++ [teach_call])) in
  any_in ["teach"; "explain"; "mentor"; "guide"; "instruct"; "help others learn"]
         (lower (call_input teach_call)) = true
  /\ exists th th',
       get before "teaching" = Some th
       /\ get after "teaching" = Some th'
       /\ strength th = 5.0%float
       /\ strength th' = 5.0%float
       /\ strength th' <> (strength th + 0.5)%float.
Proof.
  split; [reflexivity|].
  eexists. eexists.
  split; [vm_compute; reflexivity|].
  split; [vm_compute; reflexivity|].
  cbn [strength]. repeat split.
  intros H.
  pose proof (f_equal (fun x => (x <? 5.25)%float) H) as H2.
  vm_compute in H2. discriminate.
Qed.

End ThemeFacts.

(** ** Insights *)

Module InsightFacts.
Import Py EnhancedContextManager.

Lemma extract_patterns_spec thr ui ul st ty clock patterns :
  forall reads log,
  exists new,
    snd (extract_patterns thr ui ul st ty patterns clock reads log) = log ++ new
    /\ map kind new =
       map (fun pc => (ty, snd pc))
           (filter (fun pc => str_in (fst pc) ul && (thr <=? snd pc)%float) patterns)
    /\ Forall (fun i => content i = ui /\ stage i = st) new.
Proof.
  induction patterns as [|[p c] patterns IH]; intros reads log; simpl.
  - exists []. rewrite app_nil_r. repeat split. constructor.
  - destruct (str_in p ul); simpl.
    + destruct (thr <=? c)%float.
      * destruct (IH (S reads) (log ++ [{| content := ui; stage := st;
                                          confidence := c;
                                          timestamp := clock reads;
                                          insight_type := ty |}]))
          as (new & Hnew & Hmap & Hall).
        eexists (_ :: new). rewrite Hnew, <- app_assoc. simpl.
        repeat split.
        -- unfold kind at 1. simpl. now rewrite Hmap.
        -- constructor; [split; reflexivity | exact Hall].
      * apply IH.
    + apply IH.
Qed.

Lemma extract_types_spec thr ui ul st clock library :
  forall reads log,
  exists new,
    snd (extract_types thr ui ul st library clock reads log) = log ++ new
    /\ map kind new = selected_patterns thr ul library
    /\ Forall (fun i => content i = ui /\ stage i = st) new.
Proof.
  induction library as [|[ty patterns] library IH]; intros reads log; simpl.
  - exists []. rewrite app_nil_r. repeat split. constructor.
  - destruct (extract_patterns_spec thr ui ul st ty clock patterns reads log)
      as (new1 & H1 & Hm1 & Ha1).
    destruct (IH (fst (extract_patterns thr ui ul st ty patterns clock reads log))
                 (snd (extract_patterns thr ui ul st ty patterns clock reads log)))
      as (new2 & H2 & Hm2 & Ha2).
    exists (new1 ++ new2). rewrite H2, H1, <- app_assoc.
    repeat split.
    + rewrite map_app. now rewrite Hm1, Hm2.
    + apply Forall_app. now split.
Qed.

Lemma insights_add_exchange self ui br st clock :
  insights (add_exchange self ui br st clock)
  = snd (extract_types (insight_threshold self) ui (lower ui) st
                       insight_patterns clock 1%nat (insights self)).
Proof.
  unfold add_exchange, _manage_context_window.
  match goal with |- context [if ?c then _ else _] => destruct c end;
    reflexivity.
Qed.

(** C7, as amended: one call of [add_exchange] appends, to the end of the
    insight log and in library order, one Insight for every library
    pattern that occurs in the lower-cased text and whose weight is at
    or above the threshold (so several for one insight type when
    several of its patterns occur); each carries its own pattern's
    weight, the text and the stage; and every weight of the library is
    at or above the threshold 0.6 the constructor sets. *)
Theorem insight_per_matching_pattern :
  forall self ui br st clock,
    (exists new,
       insights (add_exchange self ui br st clock) = insights self ++ new
       /\ map kind new =
          selected_patterns (insight_threshold self) (lower ui) insight_patterns
       /\ Forall (fun i => content i = ui /\ stage i = st) new)
    /\ insight_threshold __init__ = 0.6%float
    /\ forallb (fun entry =>
                  forallb (fun pc => (0.6 <=? snd pc)%float) (snd entry))
               insight_patterns = true.
Proof.
  intros self ui br st clock. split; [|split; reflexivity].
  rewrite insights_add_exchange. apply extract_types_spec.
Qed.

(** Against C7 as stated: one call whose text holds two patterns of the
    skill type logs two Insights of that type, not one. *)
Lemma two_insights_of_one_type :
  map kind
      (insights (add_exchange __init__ two_skill_phrases "Go on."
                              "skills_assessment" (fun _ => "2024-01-01T12:00:00")))
  = [("strong_skill_indicator", 0.8%float); ("strong_skill_indicator", 0.8%float)].
Proof. vm_compute. reflexivity. Qed.

End InsightFacts.

(** ** Saving and loading *)

Module StoreFacts.
Import Py Json DiscoverySession DiscoverySessionStore.






Lemma get_current_stage_wf s :
  wf s = true -> exists name, get_current_stage s = Ok name.
Proof.
  intros Hwf. unfold get_current_stage.
  destruct (Z.ltb_spec (current_stage s) len_stages) as [Hlt|Hge].
  - destruct (DiscoverySessionFacts.index_stages s Hwf Hlt) as (name & Hn & _).
    eauto.
  - eauto.
Qed.







End StoreFacts.

(** ** Pattern detection *)

Module PatternFacts.
Import Py Corpus DynamicQuestioningEngine PatternSpec.

Lemma scan_spec label w terms text :
  forall ev sc,
    scan label w terms text (ev, sc)
    = (ev ++ map (String.append label) (matched terms text),
       add_times (List.length (matched terms text)) w sc).
Proof.
  unfold matched.
  induction terms as [|term terms IH]; intros ev sc; simpl.
  - now rewrite app_nil_r.
  - destruct (str_in term text); simpl.
    + rewrite IH. now rewrite <- app_assoc.
    + apply IH.
Qed.

Lemma matched_length_le terms text :
  (List.length (matched terms text) <= List.length terms)%nat.
Proof. apply filter_length_le. Qed.

(** Repeated addition and the product formula give the same capped score
    for up to six keywords and three phrases. *)
Lemma capped_sum_is_product k p :
  (k <= 6)%nat -> (p <= 3)%nat ->
  fmin (add_times p 0.3 (add_times k 0.2 0)) 1.0
  = fmin (int_to_float (Z.of_nat k) * 0.2 + int_to_float (Z.of_nat p) * 0.3)%float 1.0.
Proof.
  intros Hk Hp.
  assert (Ek : (k = 0 \/ k = 1 \/ k = 2 \/ k = 3 \/ k = 4 \/ k = 5 \/ k = 6)%nat) by lia.
  assert (Ep : (p = 0 \/ p = 1 \/ p = 2 \/ p = 3)%nat) by lia.
  destruct Ek as [->|[->|[->|[->|[->|[->| ->]]]]]];
    destruct Ep as [->|[->|[->| ->]]]; vm_compute; reflexivity.
Qed.

(** The float comparison against 0.6 or 0.7 decides as exact arithmetic
    does. *)
Lemma float_decision_is_exact (th : float) k p :
  th = 0.6%float \/ th = 0.7%float ->
  (k <= 6)%nat -> (p <= 3)%nat ->
  (th <=? fmin (int_to_float (Z.of_nat k) * 0.2
                + int_to_float (Z.of_nat p) * 0.3)%float 1.0)%float
  = (tenths th <=? Z.min (2 * Z.of_nat k + 3 * Z.of_nat p) 10).
Proof.
  intros Hth Hk Hp.
  assert (Ek : (k = 0 \/ k = 1 \/ k = 2 \/ k = 3 \/ k = 4 \/ k = 5 \/ k = 6)%nat) by lia.
  assert (Ep : (p = 0 \/ p = 1 \/ p = 2 \/ p = 3)%nat) by lia.
  destruct Hth as [-> | ->];
    destruct Ek as [->|[->|[->|[->|[->|[->| ->]]]]]];
    destruct Ep as [->|[->|[->| ->]]]; vm_compute; reflexivity.
Qed.

Lemma apply_rule_spec text stage name rule :
  small_rule rule ->
  apply_rule text stage name rule = spec_pattern text stage name rule.
Proof.
  intros [Hk Hp].
  unfold apply_rule, spec_pattern, spec_emitted, spec_score, count_in.
  rewrite !scan_spec. cbn [fst snd app].
  fold (matched (keywords rule) text). fold (matched (phrases rule) text).
  pose proof (matched_length_le (keywords rule) text) as Hk'.
  pose proof (matched_length_le (phrases rule) text) as Hp'.
  rewrite (capped_sum_is_product _ _ (Nat.le_trans _ _ _ Hk' Hk)
             (Nat.le_trans _ _ _ Hp' Hp)).
  set (ks := matched (keywords rule) text) in *.
  set (ps := matched (phrases rule) text) in *.
  assert (Hne : match map (String.append "Mentioned: ") ks
                      ++ map (String.append "Said: ") ps with
                | [] => false | _ :: _ => true end
                = (0 <? Z.of_nat (List.length ks) + Z.of_nat (List.length ps))).
  { destruct ks as [|a ks']; cbn [map app List.length].
    - destruct ps as [|b ps']; cbn [map app List.length]; [reflexivity|].
      symmetry. apply Z.ltb_lt. lia.
    - symmetry. apply Z.ltb_lt. lia. }
  rewrite Hne. reflexivity.
Qed.

Lemma detect_spec rules text stage :
  Forall (fun entry => small_rule (snd entry)) rules ->
  detect rules text stage
  = flat_map (fun entry =>
                match spec_pattern text stage (fst entry) (snd entry) with
                | Some pattern => [pattern]
                | None => []
                end) rules.
Proof.
  induction rules as [|[name rule] rules IH]; intros Hall; simpl.
  - reflexivity.
  - inversion Hall as [|? ? Hsmall Hall']; subst. cbn [snd] in Hsmall.
    rewrite (apply_rule_spec text stage name rule Hsmall), (IH Hall').
    destruct (spec_pattern text stage name rule); reflexivity.
Qed.

Lemma pattern_rules_small :
  Forall (fun entry => small_rule (snd entry)) pattern_rules.
Proof.
  unfold pattern_rules, small_rule.
  repeat (constructor; [simpl; lia|]). constructor.
Qed.

Lemma pattern_rules_thresholds name rule :
  In (name, rule) pattern_rules ->
  threshold rule = 0.6%float \/ threshold rule = 0.7%float.
Proof.
  unfold pattern_rules. simpl.
  intros [E|[E|[E|[E|[E|[]]]]]]; inversion E; subst; simpl; tauto.
Qed.

Lemma lower_append a b : lower (a ++ b) = (lower a ++ lower b)%string.
Proof.
  induction a as [|c a IH]; [reflexivity|].
  cbn [String.append lower]. now rewrite IH.
Qed.

Lemma lower_join l :
  lower (join " " l) = join " " (map lower l).
Proof.
  unfold join. induction l as [|x l IH]; [reflexivity|].
  destruct l as [|y l]; [reflexivity|].
  change (String.concat " " (x :: y :: l))
    with (x ++ " " ++ String.concat " " (y :: l))%string.
  change (String.concat " " (map lower (x :: y :: l)))
    with (lower x ++ " " ++ String.concat " " (map lower (y :: l)))%string.
  rewrite !lower_append, IH. reflexivity.
Qed.

Lemma answer_texts_all_responses corpus :
  answer_texts corpus = map lower (all_responses corpus).
Proof.
  unfold all_responses, values.
  induction corpus as [|[stage stage_answers] corpus IH]; [reflexivity|].
  cbn [answer_texts map flat_map snd]. rewrite map_app, map_map, IH. reflexivity.
Qed.

(** The text the code scans is the corpus text of the specification. *)
Lemma corpus_text_joined corpus :
  corpus_text corpus = lower (join " " (all_responses corpus)).
Proof.
  unfold corpus_text. rewrite answer_texts_all_responses, lower_join. reflexivity.
Qed.

(** C6: for every corpus and stage, one detection pass emits, in rule
    order, exactly the patterns the specification describes: the
    confidence of a pattern is (matched keywords) x 0.2 + (matched
    phrases) x 0.3 over the corpus text (the answers of the corpus in
    lower case, joined by single spaces), capped at 1.0; the pattern is
    emitted iff that score reaches the rule's own threshold and something
    matched, and this float comparison decides as the exact one does; the
    emitted patterns are appended to the history as they are, so a second
    pass over the same corpus appends them again. *)
Theorem detection_matches_specification :
  forall self user_responses stage,
    let text := corpus_text user_responses in
    let pass1 := analyze_response_patterns self user_responses stage in
    let pass2 := analyze_response_patterns (snd pass1) user_responses stage in
    fst pass1 = spec_detect text stage
    /\ response_patterns (snd pass1) = response_patterns self ++ fst pass1
    /\ response_patterns (snd pass2)
       = response_patterns self ++ fst pass1 ++ fst pass1
    /\ (forall name rule,
          In (name, rule) pattern_rules ->
          spec_emitted rule text = exact_emitted rule text).
Proof.
  intros self ur stage text pass1 pass2.
  assert (Htext : text = lower (join " " (all_responses ur)))
    by apply corpus_text_joined.
  assert (H1 : fst pass1 = spec_detect text stage).
  { rewrite Htext. unfold pass1, analyze_response_patterns. cbn [fst].
    apply detect_spec, pattern_rules_small. }
  repeat split.
  - exact H1.
  - unfold pass2, pass1, analyze_response_patterns. cbn [fst snd response_patterns].
    now rewrite <- app_assoc.
  - intros name rule Hin.
    unfold spec_emitted, exact_emitted, spec_score, count_in.
    pose proof pattern_rules_small as Hsmall.
    rewrite Forall_forall in Hsmall. destruct (Hsmall _ Hin) as [Hk Hp].
    cbn [snd] in Hk, Hp.
    pose proof (filter_length_le (fun kw => str_in kw text) (keywords rule)).
    pose proof (filter_length_le (fun kw => str_in kw text) (phrases rule)).
    rewrite (float_decision_is_exact _ _ _ (pattern_rules_thresholds name rule Hin))
      by lia.
    reflexivity.
Qed.

(** A corpus of two stages: capitals, a phrase that runs from the last
    answer of one stage into the first of the next, and an answer
    without a text. Two keywords and one phrase of the teaching rule
    give 0.7, its threshold; no other rule matches. *)
Lemma detection_matches_specification_witness :
  let user_responses :=
    [("introduction", answers ["I love to TEACH and Explain things. People come"]);
     ("skills_assessment", [{| response := Some "to me for advice" |};
                            {| response := None |}])] in
  let teaching :=
    {| pattern_name := "strong_teaching_indicators";
       confidence := 0.7;
       evidence := ["Mentioned: teach"; "Mentioned: explain";
                    "Said: people come to me"];
       stage_first_seen := "skills_assessment";
       implications := _get_pattern_implications "strong_teaching_indicators" |} in
  let pass1 := analyze_response_patterns __init__ user_responses "skills_assessment" in
  let pass2 :=
    analyze_response_patterns (snd pass1) user_responses "skills_assessment" in
  corpus_text user_responses
  = "i love to teach and explain things. people come to me for advice "
  /\ fst pass1 = [teaching]
  /\ response_patterns (snd pass1) = [teaching]
  /\ response_patterns (snd pass2) = [teaching; teaching].
Proof.
  intros user_responses teaching pass1 pass2.
  destruct (detection_matches_specification __init__ user_responses
                                            "skills_assessment")
    as (Hfirst & Hhistory & Htwice & _).
  cbv zeta in Hfirst, Hhistory, Htwice.
  fold pass1 in Hfirst, Hhistory, Htwice. fold pass2 in Htwice.
  assert (Hpass : fst pass1 = [teaching])
    by (rewrite Hfirst; vm_compute; reflexivity).
  split; [vm_compute; reflexivity|]. split; [exact Hpass|].
  split; [now rewrite Hhistory, Hpass | now rewrite Htwice, Hpass].
Defined.

End PatternFacts.

(** ** Question selection *)

Module QuestionFacts.
Import Py Corpus DynamicQuestioningEngine PatternSpec QuestionSpec.

Lemma deep_dive_question_some pattern last :
  has_template (pattern_name pattern) = true ->
  exists template rest,
    get deep_dive_templates (pattern_name pattern) = Some (template :: rest)
    /\ _generate_deep_dive_question pattern last
       = Some {| question_text := template;
                 question_type := DEEP_DIVE;
                 target_theme := pattern_name pattern;
                 reasoning := ("Strong " ++ pattern_name pattern
                               ++ " pattern detected (confidence: "
                               ++ format_2f (confidence pattern) ++ ")")%string;
                 priority := 0.9 |}.
Proof.
  unfold has_template, _generate_deep_dive_question, get_default.
  destruct (get deep_dive_templates (pattern_name pattern)) as [[|template rest]|];
    try discriminate.
  intros _. exists template, rest. split; reflexivity.
Qed.

Lemma deep_dive_question_none pattern last :
  has_template (pattern_name pattern) = false ->
  _generate_deep_dive_question pattern last = None.
Proof.
  unfold has_template, _generate_deep_dive_question, get_default.
  destruct (get deep_dive_templates (pattern_name pattern)) as [[|template rest]|];
    try discriminate; reflexivity.
Qed.

(** The first loop returns the question of the first candidate. *)
Lemma first_deep_dive_find new last :
  first_deep_dive 0.8 new last =
  match find deep_dive_candidate new with
  | Some pattern => _generate_deep_dive_question pattern last
  | None => None
  end.
Proof.
  induction new as [|pattern rest IH]; simpl; [reflexivity|].
  unfold deep_dive_candidate at 1.
  destruct (0.8 <=? confidence pattern)%float; simpl; [|exact IH].
  destruct (has_template (pattern_name pattern)) eqn:Ht.
  - destruct (deep_dive_question_some pattern last Ht) as (tpl & rest' & _ & ->).
    reflexivity.
  - rewrite (deep_dive_question_none pattern last Ht). exact IH.
Qed.

Lemma follow_up_find rules response_lower stage :
  follow_up_from rules response_lower stage =
  match find (triggered response_lower) rules with
  | Some rule => Some {| question_text := question rule;
                         question_type := FOLLOW_UP;
                         target_theme := stage;
                         reasoning := rule_reasoning rule;
                         priority := 0.7 |}
  | None => None
  end.
Proof.
  induction rules as [|rule rules IH]; simpl; [reflexivity|].
  unfold triggered at 1. destruct (any_in (triggers rule) response_lower);
    [reflexivity | exact IH].
Qed.

(** The first key of the coverage table that is not in the covered set
    is the first area none of whose indicators occurs. *)
Lemma find_uncovered_area_spec history user_responses :
  _find_uncovered_area (with_history history) user_responses =
  option_map fst
    (find (uncovered (lower (join " " (all_responses user_responses))))
          theme_indicators).
Proof.
  unfold _find_uncovered_area, uncovered, theme_indicators.
  set (text := lower (join " " (all_responses user_responses))).
  cbn [filter find snd fst map].
  destruct (any_in ["good at"; "excel"; "talented"; "naturally"; "easily"] text);
    destruct (any_in ["energizes"; "love"; "enjoy"; "alive"; "passionate"] text);
    destruct (any_in ["value"; "important"; "principle"; "believe"; "matters"] text);
    destruct (any_in ["difference"; "change"; "help"; "impact"; "legacy"] text);
    reflexivity.
Qed.

Lemma uncovered_area_listed text area indicators :
  find (uncovered text) theme_indicators = Some (area, indicators) ->
  String.eqb area "" = false
  /\ exists first rest,
       get _define_coverage_requirements area = Some (first :: rest)
       /\ forall history,
            _generate_coverage_question (with_history history) area
            = Ok {| question_text := first;
                    question_type := STANDARD;
                    target_theme := area;
                    reasoning := ("Ensuring coverage of " ++ area)%string;
                    priority := 0.6 |}.
Proof.
  intros Hfind. apply find_some in Hfind as [Hin _].
  unfold theme_indicators in Hin. simpl in Hin.
  destruct Hin as [E|[E|[E|[E|[]]]]]; inversion E; subst;
    (split; [reflexivity|]); eexists; eexists; (split; [reflexivity|]);
    intros history; reflexivity.
Qed.

(** C5, as amended: [generate_next_question] appends the patterns of the
    current detection pass to the history and selects in this order:
    (1) the first pattern of the pass with confidence at or above 0.8 for
    which a deep-dive template exists gives that pattern's first template
    (priority 0.9), a pattern without a template being skipped;
    (2) otherwise the first follow-up rule with a trigger in the
    lower-cased last answer (priority 0.7);
    (3) otherwise the first coverage area none of whose indicators occurs
    in the corpus, with its first canonical question (priority 0.6);
    (4) otherwise, with at least two stored patterns of confidence at or
    above 0.7, the synthesis question (priority 0.8);
    (5) otherwise the standard question of the stage (priority 0.5). *)
Theorem next_question_priority_order :
  forall history user_responses stage last,
    let text := lower (join " " (all_responses user_responses)) in
    let new := spec_detect text stage in
    let outcome :=
      generate_next_question (with_history history) user_responses stage last in
    response_patterns (snd outcome) = history ++ new
    /\ match find deep_dive_candidate new with
       | Some pattern =>
           exists template rest,
             get deep_dive_templates (pattern_name pattern) = Some (template :: rest)
             /\ fst outcome
                = Ok {| question_text := template;
                        question_type := DEEP_DIVE;
                        target_theme := pattern_name pattern;
                        reasoning := ("Strong " ++ pattern_name pattern
                                      ++ " pattern detected (confidence: "
                                      ++ format_2f (confidence pattern) ++ ")")%string;
                        priority := 0.9 |}
       | None =>
           match find (triggered (lower last)) follow_up_rules with
           | Some rule =>
               fst outcome
               = Ok {| question_text := question rule;
                       question_type := FOLLOW_UP;
                       target_theme := stage;
                       reasoning := rule_reasoning rule;
                       priority := 0.7 |}
           | None =>
               match find (uncovered text) theme_indicators with
               | Some (area, _) =>
                   exists first rest,
                     get _define_coverage_requirements area = Some (first :: rest)
                     /\ fst outcome
                        = Ok {| question_text := first;
                                question_type := STANDARD;
                                target_theme := area;
                                reasoning := ("Ensuring coverage of " ++ area)%string;
                                priority := 0.6 |}
               | None =>
                   if 2 <=? Z.of_nat (List.length
                                        (filter (fun p => (0.7 <=? confidence p)%float)
                                                (history ++ new)))
                   then exists q, fst outcome = Ok q
                                  /\ question_type q = SYNTHESIS
                                  /\ question_text q
                                     = "Looking at what you've shared about your strengths and passions, where do you see the strongest connections?"
                                  /\ priority q = 0.8%float
                   else fst outcome = Ok (_generate_standard_question stage)
                        /\ priority (_generate_standard_question stage) = 0.5%float
               end
           end
       end.
Proof.
  intros history ur stage last text new outcome.
  assert (Hnew : detect pattern_rules text stage = new).
  { apply PatternFacts.detect_spec, PatternFacts.pattern_rules_small. }
  unfold outcome, generate_next_question, analyze_response_patterns.
  fold text. rewrite Hnew.
  cbn [response_patterns with_history deep_dive_threshold __init__].
  rewrite first_deep_dive_find.
  destruct (find deep_dive_candidate new) as [pattern|] eqn:Hdd.
  - apply find_some in Hdd as [_ Hcand].
    apply andb_true_iff in Hcand as [_ Ht].
    destruct (deep_dive_question_some pattern last Ht) as (tpl & rest & Hget & ->).
    cbn [fst snd response_patterns]. split; [reflexivity|].
    exists tpl, rest. split; [exact Hget | reflexivity].
  - unfold _generate_follow_up_question. rewrite follow_up_find.
    destruct (find (triggered (lower last)) follow_up_rules) as [rule|].
    + cbn [fst snd response_patterns]. split; reflexivity.
    + match goal with
      | |- context [_find_uncovered_area ?engine _] =>
          change engine with (with_history (history ++ new))
      end.
      rewrite find_uncovered_area_spec. fold text.
      destruct (find (uncovered text) theme_indicators) as [[area inds]|] eqn:Hun.
      * destruct (uncovered_area_listed text area inds Hun)
          as (Hne & first & rest & Hget & Hq).
        cbn [option_map fst]. rewrite Hne, Hq.
        cbn [fst snd response_patterns with_history]. split; [reflexivity|].
        exists first, rest. split; [exact Hget | reflexivity].
      * cbn [option_map]. unfold strong_pattern_count.
        cbn [response_patterns with_history].
        destruct (2 <=? Z.of_nat (List.length
                                    (filter (fun p => (0.7 <=? confidence p)%float)
                                            (history ++ new)))).
        -- cbn [fst snd response_patterns]. split; [reflexivity|].
           eexists. split; [reflexivity|]. repeat split.
        -- cbn [fst snd response_patterns]. split; [reflexivity|].
           split; reflexivity.
Qed.

(** Against C5 as stated: a pass that detects the creative pattern at
    confidence 0.8 does not give a deep dive; no template exists under
    that name, and the question returned is the coverage question of
    priority 0.6. *)
Lemma strong_pattern_without_deep_dive :
  let last := "I create and design artistic things of beauty" in
  let pass := analyze_response_patterns __init__ creative_corpus "passion_exploration" in
  let outcome :=
    generate_next_question __init__ creative_corpus "passion_exploration" last in
  map (fun p => (pattern_name p, confidence p)) (fst pass)
  = [("creative_expression", 0.8%float)]
  /\ existsb (fun p => (0.8 <=? confidence p)%float) (fst pass) = true
  /\ exists q, fst outcome = Ok q
               /\ question_type q = STANDARD
               /\ target_theme q = "natural_abilities"
               /\ priority q = 0.6%float.
Proof.
  intros last pass outcome.
  split; [vm_compute; reflexivity|].
  split; [vm_compute; reflexivity|].
  eexists. split; [vm_compute; reflexivity|].
  repeat split.
Qed.

End QuestionFacts.

(** ** The style classifier *)

Module ProfilerFacts.
Import Py PersonalityProfiler.

Ltac pick_member :=
  vm_compute; repeat (first [left; reflexivity | right]).

Lemma analytical_score_sums m :
  In (analytical_score m) (partial_sums (style_weights ANALYTICAL) [0%float]).
Proof.
  unfold analytical_score, add_if.
  destruct (0.6 <? concrete_vs_abstract_ratio m)%float;
    destruct (25 <? word_count_avg m)%float;
    destruct (emotional_language_frequency m <? 0.03)%float;
    destruct (0.3 <? question_asking_frequency m)%float;
    destruct (uncertainty_indicators m <? 0.1)%float; pick_member.
Qed.

Lemma expressive_score_sums m :
  In (expressive_score m) (partial_sums (style_weights EXPRESSIVE) [0%float]).
Proof.
  unfold expressive_score, add_if.
  destruct (0.01 <? emotional_language_frequency m)%float;
    destruct (0.02 <? enthusiasm_markers m)%float;
    destruct (20 <? word_count_avg m)%float;
    destruct (concrete_vs_abstract_ratio m <? 0.4)%float; pick_member.
Qed.

Lemma practical_score_sums m :
  In (practical_score m) (partial_sums (style_weights PRACTICAL) [0%float]).
Proof.
  unfold practical_score, add_if.
  destruct (word_count_avg m <? 15)%float;
    destruct (0.7 <? concrete_vs_abstract_ratio m)%float;
    destruct (emotional_language_frequency m <? 0.04)%float;
    destruct (question_asking_frequency m <? 0.2)%float; pick_member.
Qed.

Lemma reflective_score_sums m :
  In (reflective_score m) (partial_sums (style_weights REFLECTIVE) [0%float]).
Proof.
  unfold reflective_score, add_if.
  destruct (0.15 <? uncertainty_indicators m)%float;
    destruct (30 <? word_count_avg m)%float;
    destruct (0.25 <? question_asking_frequency m)%float;
    destruct (concrete_vs_abstract_ratio m <? 0.5)%float;
    destruct ((0.03 <? emotional_language_frequency m)%float
              && (emotional_language_frequency m <? 0.08)%float); pick_member.
Qed.

(** The check holds for every combination of reachable scores. *)
Lemma first_maximum_all :
  forallb (fun a =>
    forallb (fun e =>
      forallb (fun p =>
        forallb (fun r => first_maximum_check a e p r)
                (partial_sums (style_weights REFLECTIVE) [0%float]))
              (partial_sums (style_weights PRACTICAL) [0%float]))
            (partial_sums (style_weights EXPRESSIVE) [0%float]))
          (partial_sums (style_weights ANALYTICAL) [0%float]) = true.
Proof. vm_compute. reflexivity. Qed.

(** The score returned is the score of the style returned. *)
Lemma max_by_score_own (a e p r : float) :
  let result := max_by_score (ANALYTICAL, a)
                             [(EXPRESSIVE, e); (PRACTICAL, p); (REFLECTIVE, r)] in
  snd result = match fst result with
               | ANALYTICAL => a
               | EXPRESSIVE => e
               | PRACTICAL => p
               | REFLECTIVE => r
               end.
Proof.
  simpl.
  destruct (a <? e)%float; simpl;
    repeat match goal with
           | |- context [if ?c then _ else _] => destruct c; simpl
           end; reflexivity.
Qed.

(** The weights of every style total 1.0 in exact tenths. *)
Lemma style_weights_total style :
  fold_right Z.add 0 (map tenths (style_weights style)) = 10.
Proof. destruct style; vm_compute; reflexivity. Qed.

(** C10: for every PersonalityMarkers value the four style scores lie in
    [0, 1], each being the sum, in order, of some of its style's fixed
    weights, which are non-negative and total 1.0; the confidence
    returned is the score of the style returned and lies in [0, 1], no
    style scores higher, and every style declared earlier scores
    strictly lower: among tied maxima the first of analytical,
    expressive, practical, reflective is selected. *)
Theorem style_confidence_bounded_first_wins :
  forall markers,
    let a := analytical_score markers in
    let e := expressive_score markers in
    let p := practical_score markers in
    let r := reflective_score markers in
    let result := determine_communication_style markers in
    in_unit_interval (snd result) = true
    /\ Forall (fun entry => in_unit_interval (snd entry) = true
                            /\ In (snd entry)
                                  (partial_sums (style_weights (fst entry)) [0%float]))
              (style_scores markers)
    /\ match fst result with
       | ANALYTICAL =>
           snd result = a
           /\ (e <=? a)%float = true /\ (p <=? a)%float = true /\ (r <=? a)%float = true
       | EXPRESSIVE =>
           snd result = e
           /\ (a <? e)%float = true /\ (p <=? e)%float = true /\ (r <=? e)%float = true
       | PRACTICAL =>
           snd result = p
           /\ (a <? p)%float = true /\ (e <? p)%float = true /\ (r <=? p)%float = true
       | REFLECTIVE =>
           snd result = r
           /\ (a <? r)%float = true /\ (e <? r)%float = true /\ (p <? r)%float = true
       end
    /\ (forall style,
          forallb (fun weight => (0 <=? weight)%float) (style_weights style) = true
          /\ fold_right Z.add 0 (map tenths (style_weights style)) = 10).
Proof.
  intros m a e p r result.
  pose proof (analytical_score_sums m) as Ha.
  pose proof (expressive_score_sums m) as He.
  pose proof (practical_score_sums m) as Hp.
  pose proof (reflective_score_sums m) as Hr.
  fold a in Ha. fold e in He. fold p in Hp. fold r in Hr.
  pose proof first_maximum_all as Hall.
  rewrite forallb_forall in Hall. specialize (Hall a Ha).
  rewrite forallb_forall in Hall. specialize (Hall e He).
  rewrite forallb_forall in Hall. specialize (Hall p Hp).
  rewrite forallb_forall in Hall. specialize (Hall r Hr).
  unfold first_maximum_check in Hall.
  pose proof (max_by_score_own a e p r) as Hown. cbv zeta in Hown.
  change (max_by_score (ANALYTICAL, a)
                       [(EXPRESSIVE, e); (PRACTICAL, p); (REFLECTIVE, r)])
    with result in Hall, Hown.
  rewrite !andb_true_iff in Hall.
  destruct Hall as [[[[Ia Ie] Ip] Ir] Hcase].
  assert (Hconf : in_unit_interval (snd result) = true).
  { rewrite Hown. destruct (fst result); assumption. }
  split; [exact Hconf|]. split.
  - unfold style_scores. fold a e p r.
    repeat (apply Forall_cons; [cbn [fst snd]; split; assumption|]).
    apply Forall_nil.
  - split.
    + destruct (fst result); rewrite !andb_true_iff in Hcase;
        destruct Hcase as [[H1 H2] H3]; repeat split; assumption.
    + intros style. split; [destruct style; reflexivity|].
      apply style_weights_total.
Qed.

End ProfilerFacts.

(** ** The skills and passions analysis *)

Module AnalyzerFacts.
Import Py Corpus SkillsPassionsAnalyzer.

Lemma keys_setitem_in {V : Type} (d : dict V) key v k :
  In k (keys (setitem d key v)) -> k = key \/ In k (keys d).
Proof.
  unfold keys. induction d as [|[k0 v0] d IH]; simpl.
  - intros [<-|[]]. now left.
  - destruct (String.eqb_spec k0 key) as [->|Hne]; simpl.
    + intros [<-|Hin]; [now left | right; now right].
    + intros [<-|Hin]; [right; now left|].
      destruct (IH Hin) as [->|Hd]; [now left | right; now right].
Qed.
Lemma count_keywords_keys response_lower key keywords :
  forall themes k,
    In k (keys (count_keywords response_lower key keywords themes)) ->
    In k (keys themes) \/ (k = key /\ any_in keywords response_lower = true).
Proof.
  unfold count_keywords, any_in.
  induction keywords as [|kw keywords IH]; intros themes k;
    cbn [fold_left existsb].
  - tauto.
  - intros Hin. destruct (IH _ _ Hin) as [Hk|[-> Hany]].
    + destruct (str_in kw response_lower) eqn:Hkw; [|now left].
      unfold increment in Hk. apply keys_setitem_in in Hk as [->|Hk].
      * right. split; reflexivity.
      * now left.
    + right. split; [reflexivity|]. rewrite Hany. apply orb_true_r.
Qed.

Lemma count_table_keys response_lower prefix table :
  forall themes k,
    In k (keys (count_table response_lower prefix table themes)) ->
    In k (keys themes)
    \/ exists category keywords,
         In (category, keywords) table
         /\ k = (prefix ++ category)%string
         /\ any_in keywords response_lower = true.
Proof.
  unfold count_table.
  induction table as [|[category keywords] table IH]; intros themes k;
    cbn [fold_left fst snd].
  - tauto.
  - intros Hin. destruct (IH _ _ Hin) as [Hk|(c & kws & Hc & -> & Hany)].
    + apply count_keywords_keys in Hk as [Hk|[-> Hany]]; [now left|].
      right. exists category, keywords.
      split; [now left|]. split; [reflexivity | assumption].
    + right. exists c, kws.
      split; [now right|]. split; [reflexivity | assumption].
Qed.

(** Every theme counted comes from a response that holds a keyword of
    its category. *)
Lemma extract_themes_keys responses k :
  In k (keys (extract_themes responses)) ->
  exists response category keywords,
    In response responses
    /\ any_in keywords (lower response) = true
    /\ ((In (category, keywords) skill_keywords
         /\ k = ("skill_" ++ category)%string)
        \/ (In (category, keywords) passion_keywords
            /\ k = ("passion_" ++ category)%string)).
Proof.
  unfold extract_themes.
  generalize skill_keywords as skill_table, passion_keywords as passion_table.
  intros skill_table passion_table.
  assert (Hgen : forall themes,
            In k (keys (fold_left
                          (fun themes response =>
                             count_table (lower response) "passion_" passion_table
                               (count_table (lower response) "skill_" skill_table
                                            themes))
                          responses themes)) ->
            In k (keys themes)
            \/ exists response category keywords,
                 In response responses
                 /\ any_in keywords (lower response) = true
                 /\ ((In (category, keywords) skill_table
                      /\ k = ("skill_" ++ category)%string)
                     \/ (In (category, keywords) passion_table
                         /\ k = ("passion_" ++ category)%string))).
  { induction responses as [|response responses IH]; intros themes;
      cbn [fold_left].
    - tauto.
    - intros Hin. destruct (IH _ Hin) as [Hk|(r & c & kws & Hr & Hany & Hcase)].
      + apply count_table_keys in Hk as [Hk|(c & kws & Hc & -> & Hany)].
        * apply count_table_keys in Hk as [Hk|(c & kws & Hc & -> & Hany)];
            [now left|].
          right. exists response, c, kws.
          split; [now left|]. split; [assumption|]. left. now split.
        * right. exists response, c, kws.
          split; [now left|]. split; [assumption|]. right. now split.
      + right. exists r, c, kws.
        split; [now right|]. split; [assumption | exact Hcase]. }
  intros Hin. destruct (Hgen [] Hin) as [[]|H]. exact H.
Qed.

Lemma themes_with_prefix_keys prefix themes c :
  In c (keys (themes_with_prefix prefix themes)) ->
  exists k, In k (keys themes)
            /\ startswith k prefix = true
            /\ c = replace k prefix "".
Proof.
  unfold themes_with_prefix.
  assert (Hgen : forall acc,
            In c (keys (fold_left
                          (fun acc kv =>
                             if startswith (fst kv) prefix
                             then setitem acc (replace (fst kv) prefix "") (snd kv)
                             else acc) themes acc)) ->
            In c (keys acc)
            \/ exists k, In k (keys themes)
                         /\ startswith k prefix = true
                         /\ c = replace k prefix "").
  { induction themes as [|[k0 v0] themes IH]; intros acc;
      cbn [fold_left fst snd keys map].
    - tauto.
    - intros Hin. destruct (IH _ Hin) as [Hk|(k & Hk & Hs & Hc)].
      + destruct (startswith k0 prefix) eqn:Hs0; [|now left].
        apply keys_setitem_in in Hk as [->|Hk]; [|now left].
        right. exists k0.
        split; [now left|]. split; [assumption | reflexivity].
      + right. exists k.
        split; [now right|]. split; assumption. }
  intros Hin. destruct (Hgen [] Hin) as [[]|H]. exact H.
Qed.

Lemma insert_descending_in item sorted x :
  In x (insert_descending item sorted) -> x = item \/ In x sorted.
Proof.
  induction sorted as [|head rest IH]; cbn [insert_descending In].
  - intros [<-|[]]. now left.
  - destruct (snd head <? snd item); cbn [In].
    + intros [<-|Hin]; [now left | now right].
    + intros [<-|Hin]; [right; now left|].
      destruct (IH Hin) as [->|Hr]; [now left | right; now right].
Qed.

Lemma sorted_descending_in items x :
  In x (sorted_descending items) -> In x items.
Proof.
  unfold sorted_descending.
  assert (Hgen : forall sorted,
            In x (fold_left (fun sorted item => insert_descending item sorted)
                            items sorted) ->
            In x sorted \/ In x items).
  { induction items as [|item items IH]; intros sorted; cbn [fold_left In].
    - tauto.
    - intros Hin. destruct (IH _ Hin) as [Hs|Hi]; [|right; now right].
      apply insert_descending_in in Hs as [->|Hs];
        [right; now left | now left]. }
  intros Hin. destruct (Hgen [] Hin) as [[]|H]. exact H.
Qed.

Lemma firstn_in {A : Type} (n : nat) (l : list A) x :
  In x (firstn n l) -> In x l.
Proof.
  revert l. induction n as [|n IH]; intros [|a l]; cbn [firstn In]; try tauto.
  intros [<-|Hin]; [now left | right; now apply IH].
Qed.

Lemma skill_prefix_removed category keywords :
  In (category, keywords) skill_keywords ->
  replace ("skill_" ++ category) "skill_" "" = category.
Proof.
  unfold skill_keywords. cbn [In].
  intros [E|[E|[E|[E|[E|[E|[E|[E|[]]]]]]]]]; inversion E; vm_compute; reflexivity.
Qed.

Lemma passion_key_not_skill category keywords :
  In (category, keywords) passion_keywords ->
  startswith ("passion_" ++ category) "skill_" = false.
Proof. intros _. reflexivity. Qed.

(** A category among the top skills has a keyword in one of the
    skills-stage answers. *)
Lemma top_skill_occurs responses category :
  In category (top_of (analyze_skills responses)) ->
  exists keywords r,
    In (category, keywords) skill_keywords
    /\ In r responses
    /\ any_in keywords (lower (get_response r)) = true.
Proof.
  unfold analyze_skills, analyze, top_of.
  destruct responses as [|r0 responses0] eqn:Hresp; [intros []|].
  rewrite <- Hresp. cbn [top].
  intros Hin. apply in_map_iff in Hin as ([c v] & Hc & Hin).
  cbn [fst] in Hc. subst c.
  apply firstn_in, sorted_descending_in in Hin.
  assert (Hkey : In category
                    (keys (themes_with_prefix "skill_"
                             (extract_themes (map get_response responses))))).
  { unfold keys. apply in_map_iff. exists (category, v). split; [reflexivity | exact Hin]. }
  apply themes_with_prefix_keys in Hkey as (k & Hk & Hstart & Hrep).
  apply extract_themes_keys in Hk
    as (response & cat & kws & Hr & Hany & [[Hcat ->]|[Hcat ->]]).
  - apply in_map_iff in Hr as (r & <- & Hr).
    rewrite (skill_prefix_removed cat kws Hcat) in Hrep. subst category.
    exists kws, r. split; [assumption|]. split; assumption.
  - rewrite (passion_key_not_skill cat kws Hcat) in Hstart. discriminate.
Qed.

Lemma passion_prefix_removed category keywords :
  In (category, keywords) passion_keywords ->
  replace ("passion_" ++ category) "passion_" "" = category.
Proof.
  unfold passion_keywords. cbn [In].
  intros [E|[E|[E|[E|[E|[E|[E|[E|[]]]]]]]]]; inversion E; vm_compute; reflexivity.
Qed.

Lemma skill_key_not_passion category keywords :
  In (category, keywords) skill_keywords ->
  startswith ("skill_" ++ category) "passion_" = false.
Proof. intros _. reflexivity. Qed.

(** A category among the top passions has a keyword in one of the
    passions-stage answers. *)
Lemma top_passion_occurs responses category :
  In category (top_of (analyze_passions responses)) ->
  exists keywords r,
    In (category, keywords) passion_keywords
    /\ In r responses
    /\ any_in keywords (lower (get_response r)) = true.
Proof.
  unfold analyze_passions, analyze, top_of.
  destruct responses as [|r0 responses0] eqn:Hresp; [intros []|].
  rewrite <- Hresp. cbn [top].
  intros Hin. apply in_map_iff in Hin as ([c v] & Hc & Hin).
  cbn [fst] in Hc. subst c.
  apply firstn_in, sorted_descending_in in Hin.
  assert (Hkey : In category
                    (keys (themes_with_prefix "passion_"
                             (extract_themes (map get_response responses))))).
  { unfold keys. apply in_map_iff. exists (category, v). split; [reflexivity | exact Hin]. }
  apply themes_with_prefix_keys in Hkey as (k & Hk & Hstart & Hrep).
  apply extract_themes_keys in Hk
    as (response & cat & kws & Hr & Hany & [[Hcat ->]|[Hcat ->]]).
  - rewrite (skill_key_not_passion cat kws Hcat) in Hstart. discriminate.
  - apply in_map_iff in Hr as (r & <- & Hr).
    rewrite (passion_prefix_removed cat kws Hcat) in Hrep. subst category.
    exists kws, r. split; [assumption|]. split; assumption.
Qed.

End AnalyzerFacts.

(** ** The alignment scores *)

Module ScoringFacts.
Import Py Corpus SkillsPassionsAnalyzer SpiritualGiftsAssessment ScoringSpec.

Lemma sub_score_ok guard matches size :
  (guard = true -> size <> 0) ->
  exists x, sub_score guard matches size = Ok x.
Proof.
  intros Hsize. unfold sub_score, truediv. destruct guard; [|eauto].
  destruct (Z.eqb_spec size 0) as [E|_]; [now apply Hsize in E|].
  cbn [bind]. eauto.
Qed.

Lemma nonempty_length {A : Type} (l : list A) :
  nonempty l = true -> Z.of_nat (List.length l) <> 0.
Proof. destruct l; [discriminate | simpl; lia]. Qed.

(** Name the value of the next sub-score and keep its equation. *)
Ltac sub_score_returns x Hx :=
  match goal with
  | |- context [bind (sub_score ?g ?m ?n) _] =>
      let H := fresh "Hsub" in
      assert (H : g = true -> n <> 0);
      [ let Hg := fresh "Hg" in
        intros Hg; try (apply andb_true_iff in Hg as [_ Hg]);
        now apply nonempty_length
      | destruct (sub_score_ok g m n H) as [x Hx]; clear H;
        rewrite Hx; cbn [bind] ]
  end.

(** The scoring of one category returns on every input: each division is
    behind the test that its divisor is not empty. *)
Lemma individual_score_returns gift_name gift_info sa pa user_responses :
  exists score,
    _calculate_individual_gift_score gift_name gift_info sa pa user_responses
    = Ok score.
Proof.
  unfold _calculate_individual_gift_score.
  sub_score_returns x1 H1. sub_score_returns x2 H2.
  sub_score_returns x3 H3. sub_score_returns x4 H4.
  eauto.
Qed.

(** The loop over a framework without repeated names returns, and the
    dictionary holds each category's score under its name. *)
Lemma score_gifts_get framework sa pa user_responses :
  NoDup (keys framework) ->
  forall acc,
  exists gift_scores,
    score_gifts framework sa pa user_responses acc = Ok gift_scores
    /\ forall gift_name,
         get gift_scores gift_name =
         match get framework gift_name with
         | Some gift_info =>
             match _calculate_individual_gift_score
                     gift_name gift_info sa pa user_responses with
             | Ok score => Some score
             | Raise _ => None
             end
         | None => get acc gift_name
         end.
Proof.
  induction framework as [|[n0 i0] framework IH]; intros Hnd acc; simpl.
  - exists acc. split; reflexivity.
  - inversion Hnd as [|? ? Hnotin Hnd']; subst.
    destruct (individual_score_returns n0 i0 sa pa user_responses) as [s0 Hs0].
    rewrite Hs0. cbn [bind].
    destruct (IH Hnd' (setitem acc n0 s0)) as (gs & Hgs & Hget).
    exists gs. split; [exact Hgs|].
    intros n. rewrite Hget.
    destruct (String.eqb_spec n0 n) as [<-|Hne].
    + rewrite (get_none_not_key framework n0 Hnotin), Hs0.
      apply get_setitem_same.
    + destruct (get framework n); [reflexivity|].
      apply get_setitem_other. congruence.
Qed.

Lemma gifts_framework_nodup : NoDup (keys gifts_framework).
Proof.
  unfold gifts_framework, keys. simpl.
  repeat (constructor; [simpl; intuition discriminate|]). constructor.
Qed.

(** A sub-score of the framework with no match is 0, whatever the guard. *)
Lemma sub_score_zero guard size :
  size = 2 \/ size = 3 \/ size = 4 ->
  sub_score guard 0 size = Ok 0%float.
Proof.
  intros [->|[->| ->]]; destruct guard; reflexivity.
Qed.

Lemma framework_sizes gift_name gift_info :
  In (gift_name, gift_info) gifts_framework ->
  let size l := Z.of_nat (List.length l) in
  (size (set_of (skills (key_indicators gift_info))) = 2
   \/ size (set_of (skills (key_indicators gift_info))) = 3)
  /\ (size (set_of (passions (key_indicators gift_info))) = 2
      \/ size (set_of (passions (key_indicators gift_info))) = 3)
  /\ size (values (key_indicators gift_info)) = 4
  /\ size (behavioral_markers gift_info) = 4.
Proof.
  unfold gifts_framework. simpl.
  intros [E|[E|[E|[E|[E|[E|[E|[E|[]]]]]]]]]; inversion E; subst;
    vm_compute; tauto.
Qed.

Lemma inter_len_nil b : inter_len [] b = 0.
Proof.
  unfold inter_len. induction b as [|x b IH]; simpl; [reflexivity | exact IH].
Qed.

Lemma filter_none {A : Type} (f : A -> bool) (l : list A) :
  (forall x, In x l -> f x = false) -> filter f l = [].
Proof.
  induction l as [|a l IH]; intros Hall; cbn [filter]; [reflexivity|].
  rewrite (Hall a (or_introl eq_refl)). apply IH.
  intros x Hx. apply Hall. now right.
Qed.

Lemma existsb_false_filter {A : Type} (f : A -> bool) (l : list A) :
  existsb f l = false -> filter f l = [].
Proof.
  intros Hex. apply filter_none. intros x Hx.
  destruct (f x) eqn:Hfx; [|reflexivity].
  assert (existsb f l = true) by (apply existsb_exists; eauto). congruence.
Qed.

Lemma mem_true_in x l : mem x l = true -> In x l.
Proof.
  unfold mem. intros H. apply existsb_exists in H as (y & Hy & Heq).
  apply String.eqb_eq in Heq. now subst.
Qed.

(** When nothing of a category occurs in the answers, its four match
    counts are 0. *)
Lemma nothing_occurs_no_matches gift_info user_responses :
  nothing_occurs gift_info user_responses -> no_matches gift_info user_responses.
Proof.
  intros (Hskills & Hpassions & Hvalues & Hmarkers).
  unfold no_matches, skill_matches, passion_matches, value_matches,
    marker_matches, inter_len, count_in, behavioral_matches.
  repeat split.
  - rewrite filter_none; [reflexivity|].
    intros x Hx. destruct (mem x _) eqn:Hmem; [|reflexivity].
    apply mem_true_in, nodup_In in Hmem. apply nodup_In in Hx.
    apply AnalyzerFacts.top_skill_occurs in Hmem as (kws & r & Hcat & Hr & Hany).
    rewrite (Hskills x kws r Hx Hcat Hr) in Hany. discriminate.
  - rewrite filter_none; [reflexivity|].
    intros x Hx. destruct (mem x _) eqn:Hmem; [|reflexivity].
    apply mem_true_in, nodup_In in Hmem. apply nodup_In in Hx.
    apply AnalyzerFacts.top_passion_occurs in Hmem as (kws & r & Hcat & Hr & Hany).
    rewrite (Hpassions x kws r Hx Hcat Hr) in Hany. discriminate.
  - rewrite existsb_false_filter; [reflexivity | exact Hvalues].
  - rewrite filter_none; [reflexivity | exact Hmarkers].
Qed.

(** C8: on every corpus the scoring of the eight categories returns (no
    division by zero or other error), the dictionary of scores holding
    each category's score under its name; an empty top-skills or
    top-passions list gives the sub-score 0; for a corpus without any
    skill, passion, value-keyword or behavioral-marker match for a
    category, the four sub-scores and the total of that category are
    exactly 0 and its strength label is "Low"; and a corpus in which no
    keyword of the category's required skills and passions, no required
    value keyword and no word of its behavioral markers occurs is such a
    corpus. *)
Theorem zero_matches_zero_score :
  forall user_responses gift_name gift_info,
    In (gift_name, gift_info) gifts_framework ->
    exists gift_scores score,
      calculate_gift_scores user_responses = Ok gift_scores
      /\ get gift_scores gift_name = Some score
      /\ gift_score gift_name gift_info user_responses = Ok score
      /\ (top_of (skills_analysis_of user_responses) = [] ->
          skills_alignment (score_components score) = 0%float)
      /\ (top_of (passions_analysis_of user_responses) = [] ->
          passions_alignment (score_components score) = 0%float)
      /\ (no_matches gift_info user_responses ->
          total_score score = 0%float
          /\ strength score = "Low"
          /\ score_components score
             = {| skills_alignment := 0; passions_alignment := 0;
                  values_alignment := 0; response_content := 0 |})
      /\ (nothing_occurs gift_info user_responses ->
          no_matches gift_info user_responses).
Proof.
  intros ur name info Hin.
  unfold calculate_gift_scores.
  fold (skills_analysis_of ur). fold (passions_analysis_of ur).
  destruct (score_gifts_get gifts_framework (skills_analysis_of ur)
                            (passions_analysis_of ur) ur gifts_framework_nodup [])
    as (gs & Hgs & Hget).
  destruct (individual_score_returns name info (skills_analysis_of ur)
                                     (passions_analysis_of ur) ur) as [score Hscore].
  exists gs, score.
  split; [exact Hgs|]. split.
  { rewrite Hget, (in_get_nodup _ _ _ gifts_framework_nodup Hin), Hscore.
    reflexivity. }
  split; [exact Hscore|].
  pose proof (framework_sizes name info Hin) as (Hs & Hp & Hv & Hm).
  cbv zeta in Hs, Hp, Hv, Hm.
  revert Hscore. unfold gift_score, _calculate_individual_gift_score.
  sub_score_returns x1 H1. sub_score_returns x2 H2.
  sub_score_returns x3 H3. sub_score_returns x4 H4.
  intros [= <-].
  cbn [score_components skills_alignment passions_alignment
         total_score strength].
  split; [|split; [|split]].
  - intros Hempty. rewrite Hempty in H1. cbn in H1. congruence.
  - intros Hempty. rewrite Hempty in H2. cbn in H2. congruence.
  - intros (Z1 & Z2 & Z3 & Z4).
    unfold skill_matches in Z1. unfold passion_matches in Z2.
    unfold value_matches in Z3. unfold marker_matches in Z4.
    rewrite Z1, sub_score_zero in H1 by tauto.
    rewrite Z2, sub_score_zero in H2 by tauto.
    rewrite Z3, sub_score_zero in H3 by tauto.
    rewrite Z4, sub_score_zero in H4 by tauto.
    injection H1 as <-. injection H2 as <-.
    injection H3 as <-. injection H4 as <-.
    repeat split.
  - apply nothing_occurs_no_matches.
Qed.

Lemma zero_matches_zero_score_witness :
  In ("teaching", teaching_info) gifts_framework
  /\ no_matches teaching_info silent_corpus
  /\ exists gift_scores score,
       calculate_gift_scores silent_corpus = Ok gift_scores
       /\ get gift_scores "teaching" = Some score
       /\ gift_score "teaching" teaching_info silent_corpus = Ok score
       /\ (top_of (skills_analysis_of silent_corpus) = [] ->
           skills_alignment (score_components score) = 0%float)
       /\ (top_of (passions_analysis_of silent_corpus) = [] ->
           passions_alignment (score_components score) = 0%float)
       /\ (no_matches teaching_info silent_corpus ->
           total_score score = 0%float
           /\ strength score = "Low"
           /\ score_components score
              = {| skills_alignment := 0; passions_alignment := 0;
                   values_alignment := 0; response_content := 0 |})
       /\ (nothing_occurs teaching_info silent_corpus ->
           no_matches teaching_info silent_corpus).
Proof.
  split; [cbn [In gifts_framework]; left; reflexivity|].
  split; [vm_compute; repeat split|].
  apply (zero_matches_zero_score silent_corpus "teaching" teaching_info).
  cbn [In gifts_framework]. left. reflexivity.
Defined.

Lemma count_in_bounds kws text :
  0 <= count_in kws text <= Z.of_nat (List.length kws).
Proof.
  unfold count_in.
  pose proof (filter_length_le (fun kw => str_in kw text) kws). lia.
Qed.

Lemma behavioral_matches_bounds markers text :
  0 <= behavioral_matches markers text <= Z.of_nat (List.length markers).
Proof.
  unfold behavioral_matches.
  pose proof (filter_length_le
                (fun marker => any_in (split (lower marker)) text) markers).
  lia.
Qed.

Lemma mem_in x l : In x l -> mem x l = true.
Proof.
  intros Hin. unfold mem. apply existsb_exists. exists x.
  split; [exact Hin | apply String.eqb_refl].
Qed.

Lemma inter_len_bounds a b x :
  In x b -> mem x a = true ->
  1 <= inter_len a b <= Z.of_nat (List.length b).
Proof.
  intros Hin Hmem. unfold inter_len.
  pose proof (filter_length_le (fun y => mem y a) b) as Hle.
  assert (Hf : In x (filter (fun y => mem y a) b)) by (apply filter_In; tauto).
  destruct (filter (fun y => mem y a) b); [contradiction|]. simpl in *. lia.
Qed.

Lemma nonempty_in {A : Type} (x : A) l : In x l -> nonempty l = true.
Proof. destruct l; [contradiction | reflexivity]. Qed.

(** The teaching total over every combination of match counts with at
    least one skill and one passion match. *)
Lemma teaching_total_bounds ns np nv nc :
  1 <= ns <= 3 -> 1 <= np <= 2 -> 0 <= nv <= 4 -> 0 <= nc <= 4 ->
  exists x1 x2 x3 x4,
    sub_score true ns 3 = Ok x1 /\ sub_score true np 2 = Ok x2
    /\ sub_score true nv 4 = Ok x3 /\ sub_score true nc 4 = Ok x4
    /\ (20.8 <=? round1 (fold_left PrimFloat.add [x1; x2; x3; x4] 0))%float = true
    /\ In (_categorize_gift_strength (fold_left PrimFloat.add [x1; x2; x3; x4] 0%float))
          ["Emerging"; "Moderate"; "Strong"; "Dominant"]
    /\ (2 <= nv + nc ->
        (30 <? round1 (fold_left PrimFloat.add [x1; x2; x3; x4] 0))%float = true
        /\ In (_categorize_gift_strength
                 (fold_left PrimFloat.add [x1; x2; x3; x4] 0%float))
              ["Moderate"; "Strong"; "Dominant"]).
Proof.
  intros Hs Hp Hv Hc.
  assert (Es : ns = 1 \/ ns = 2 \/ ns = 3) by lia.
  assert (Ep : np = 1 \/ np = 2) by lia.
  assert (Ev : nv = 0 \/ nv = 1 \/ nv = 2 \/ nv = 3 \/ nv = 4) by lia.
  assert (Ec : nc = 0 \/ nc = 1 \/ nc = 2 \/ nc = 3 \/ nc = 4) by lia.
  clear Hs Hp Hv Hc.
  destruct Es as [->|[->| ->]]; destruct Ep as [->| ->];
    destruct Ev as [->|[->|[->|[->| ->]]]];
    destruct Ec as [->|[->|[->|[->| ->]]]];
    (do 4 eexists;
     split; [reflexivity|]; split; [reflexivity|];
     split; [reflexivity|]; split; [reflexivity|];
     split; [vm_compute; reflexivity|];
     split; [vm_compute; tauto|];
     intros Hsum; first [ exfalso; lia
                        | split; [vm_compute; reflexivity | vm_compute; tauto] ]).
Qed.

(** C9, as amended: for every session in which teaching is among the
    derived top-3 skills and learning among the derived top-3 passions,
    the scoring returns, the teaching total is at least 20.8 and its
    strength label at least "Emerging"; the total exceeds 30 and the label
    is at least "Moderate" when, in addition, at least two of the
    category's value keywords and behavioral markers match. *)
Theorem teaching_score_lower_bounds :
  forall user_responses,
    In "teaching" (top_of (skills_analysis_of user_responses)) ->
    In "learning" (top_of (passions_analysis_of user_responses)) ->
    exists gift_scores score,
      calculate_gift_scores user_responses = Ok gift_scores
      /\ get gift_scores "teaching" = Some score
      /\ gift_score "teaching" teaching_info user_responses = Ok score
      /\ (20.8 <=? total_score score)%float = true
      /\ In (strength score) ["Emerging"; "Moderate"; "Strong"; "Dominant"]
      /\ (2 <= value_matches teaching_info user_responses
               + marker_matches teaching_info user_responses ->
          (30 <? total_score score)%float = true
          /\ In (strength score) ["Moderate"; "Strong"; "Dominant"]).
Proof.
  intros ur Hskill Hpassion.
  unfold calculate_gift_scores.
  fold (skills_analysis_of ur). fold (passions_analysis_of ur).
  destruct (score_gifts_get gifts_framework (skills_analysis_of ur)
                            (passions_analysis_of ur) ur gifts_framework_nodup [])
    as (gs & Hgs & Hget).
  destruct (individual_score_returns "teaching" teaching_info
              (skills_analysis_of ur) (passions_analysis_of ur) ur)
    as [score Hscore].
  exists gs, score.
  split; [exact Hgs|]. split.
  { assert (Hg : get gifts_framework "teaching" = Some teaching_info)
      by reflexivity.
    rewrite Hget, Hg. cbv beta iota. now rewrite Hscore. }
  split; [exact Hscore|].
  revert Hscore.
  unfold gift_score, _calculate_individual_gift_score, value_matches, marker_matches.
  set (user_skills := set_of (top_of (skills_analysis_of ur))).
  set (user_passions := set_of (top_of (passions_analysis_of ur))).
  assert (Hus : In "teaching" user_skills) by (apply nodup_In; exact Hskill).
  assert (Hup : In "learning" user_passions) by (apply nodup_In; exact Hpassion).
  change (set_of (skills (key_indicators teaching_info)))
    with ["teaching"; "communication"; "analytical"].
  change (set_of (passions (key_indicators teaching_info)))
    with ["learning"; "people"].
  rewrite (nonempty_in _ _ Hus), (nonempty_in _ _ Hup).
  change (nonempty ["teaching"; "communication"; "analytical"]) with true.
  change (nonempty ["learning"; "people"]) with true.
  change (nonempty (values (key_indicators teaching_info))) with true.
  change (nonempty (behavioral_markers teaching_info)) with true.
  change (Z.of_nat (List.length ["teaching"; "communication"; "analytical"])) with 3.
  change (Z.of_nat (List.length ["learning"; "people"])) with 2.
  change (Z.of_nat (List.length (values (key_indicators teaching_info)))) with 4.
  change (Z.of_nat (List.length (behavioral_markers teaching_info))) with 4.
  cbn [andb].
  pose proof (inter_len_bounds user_skills
                ["teaching"; "communication"; "analytical"] "teaching"
                (or_introl eq_refl) (mem_in _ _ Hus)) as Bs.
  pose proof (inter_len_bounds user_passions ["learning"; "people"] "learning"
                (or_introl eq_refl) (mem_in _ _ Hup)) as Bp.
  pose proof (count_in_bounds (values (key_indicators teaching_info))
                (lowered_text (get_default ur "values_clarification" []))) as Bv.
  pose proof (behavioral_matches_bounds (behavioral_markers teaching_info)
                (all_responses_text ur)) as Bc.
  change (Z.of_nat (List.length ["teaching"; "communication"; "analytical"]))
    with 3 in Bs.
  change (Z.of_nat (List.length ["learning"; "people"])) with 2 in Bp.
  change (Z.of_nat (List.length (values (key_indicators teaching_info))))
    with 4 in Bv.
  change (Z.of_nat (List.length (behavioral_markers teaching_info))) with 4 in Bc.
  destruct (teaching_total_bounds _ _ _ _ Bs Bp Bv Bc)
    as (x1 & x2 & x3 & x4 & -> & -> & -> & -> & Hlow & Hlabel & Hhigh).
  cbn [bind]. intros [= <-]. cbn [total_score strength].
  split; [exact Hlow|]. split; [exact Hlabel | exact Hhigh].
Qed.

Lemma teaching_score_lower_bounds_witness :
  In "teaching" (top_of (skills_analysis_of sample_responses))
  /\ In "learning" (top_of (passions_analysis_of sample_responses))
  /\ exists gift_scores score,
       calculate_gift_scores sample_responses = Ok gift_scores
       /\ get gift_scores "teaching" = Some score
       /\ gift_score "teaching" teaching_info sample_responses = Ok score
       /\ (20.8 <=? total_score score)%float = true
       /\ In (strength score) ["Emerging"; "Moderate"; "Strong"; "Dominant"]
       /\ (2 <= value_matches teaching_info sample_responses
                + marker_matches teaching_info sample_responses ->
           (30 <? total_score score)%float = true
           /\ In (strength score) ["Moderate"; "Strong"; "Dominant"]).
Proof.
  split; [vm_compute; tauto|].
  split; [vm_compute; tauto|].
  apply (teaching_score_lower_bounds sample_responses); vm_compute; tauto.
Defined.

(** Against C9 as stated: the session whose skills answers are
    "teach explain mentor" and whose passions answers are
    "love learn education" scores 20.8 for teaching, which does not
    exceed 30, and its label is "Emerging". *)
Lemma six_words_score_below_thirty :
  str_in "teach" "teach explain mentor" = true
  /\ str_in "explain" "teach explain mentor" = true
  /\ str_in "mentor" "teach explain mentor" = true
  /\ str_in "love" "love learn education" = true
  /\ str_in "learn" "love learn education" = true
  /\ str_in "education" "love learn education" = true
  /\ exists score,
       gift_score "teaching" teaching_info six_words = Ok score
       /\ total_score score = 20.8%float
       /\ (30 <? total_score score)%float = false
       /\ strength score = "Emerging".
Proof.
  repeat (split; [reflexivity|]).
  eexists. split; [vm_compute; reflexivity|].
  repeat split.
Qed.

(** With the six words among keywords of other categories, teaching is
    not among the top three skills nor learning among the top three
    passions, and the teaching total is 0. *)
Lemma crowded_answers_score_zero :
  top_of (skills_analysis_of crowded_answers) = ["leadership"; "helping"; "creative"]
  /\ top_of (passions_analysis_of crowded_answers) = ["nature"; "justice"; "healing"]
  /\ exists score,
       gift_score "teaching" teaching_info crowded_answers = Ok score
       /\ total_score score = 0%float
       /\ strength score = "Low".
Proof.
  split; [vm_compute; reflexivity|].
  split; [vm_compute; reflexivity|].
  eexists. split; [vm_compute; reflexivity|].
  repeat split.
Qed.

(** The sample session of the repository's scoring test scores 83.3 for
    teaching. *)
Lemma sample_responses_teaching_score :
  exists score,
    gift_score "teaching" teaching_info sample_responses = Ok score
    /\ total_score score = 83.3%float
    /\ strength score = "Dominant".
Proof.
  eexists. split; [vm_compute; reflexivity|].
  repeat split.
Qed.

End ScoringFacts.

(** ** The stage state machine: invariants of the reachable sessions *)

Module SessionInvariantFacts.
Import Py DiscoverySession SessionSpec DiscoverySessionFacts.

Lemma numbered_from_app k a b :
  numbered_from k (a ++ b)
  = numbered_from k a && numbered_from (k + Z.of_nat (List.length a)) b.
Proof.
  revert k. induction a as [|x a IH]; intro k.
  - cbn [app numbered_from List.length]. now rewrite Z.add_0_r.
  - cbn [app numbered_from List.length]. rewrite IH, andb_assoc.
    do 2 f_equal. lia.
Qed.

Lemma indexed_stage_at i n cs name :
  In (i, n) indexed_stages -> index stages cs = Ok name ->
  0 <= cs < len_stages -> (n = name <-> i = cs).
Proof.
  intros Hin Hidx Hb. unfold len_stages in Hb. cbn in Hb.
  assert (Hc : cs = 0 \/ cs = 1 \/ cs = 2 \/ cs = 3 \/ cs = 4 \/ cs = 5) by lia.
  cbn in Hin.
  destruct Hc as [E|[E|[E|[E|[E|E]]]]]; subst cs; vm_compute in Hidx;
    injection Hidx as <-;
    destruct Hin as [E|[E|[E|[E|[E|[E|[]]]]]]]; injection E as <- <-;
    split; intro H; try reflexivity; try discriminate H.
Qed.

Lemma indexed_stages_in i n : In (i, n) indexed_stages -> In n stages.
Proof.
  cbn. intros [E|[E|[E|[E|[E|[E|[]]]]]]]; injection E as <- <-; cbn; tauto.
Qed.


Lemma stage_consistent_iff s i name :
  stage_consistent s (i, name) = true <->
  exists p a,
    get (stage_progress s) name = Some p
    /\ get (user_responses s) name = Some a
    /\ question_count p = Z.of_nat (List.length a)
    /\ numbered_from 0 a = true
    /\ completed p = (i <? current_stage s)
    /\ (current_stage s < i -> a = []).
Proof.
  unfold stage_consistent. cbn [fst snd]. split.
  - destruct (get (stage_progress s) name) as [p|]; [|discriminate].
    destruct (get (user_responses s) name) as [a|]; [|discriminate].
    rewrite !andb_true_iff. intros [[[H1 H2] H3] H4].
    exists p, a. repeat split; trivial.
    + now apply Z.eqb_eq.
    + now apply eqb_prop.
    + intro Hlt. apply orb_true_iff in H4 as [H4|H4].
      * apply Z.leb_le in H4. lia.
      * destruct a; [reflexivity | discriminate].
  - intros (p & a & -> & -> & H1 & H2 & H3 & H4).
    rewrite !andb_true_iff. repeat split; trivial.
    + now apply Z.eqb_eq.
    + rewrite H3. apply eqb_reflx.
    + destruct (Z.leb_spec i (current_stage s)) as [Hle|Hlt]; [reflexivity|].
      rewrite (H4 Hlt). reflexivity.
Qed.

Lemma consistent_wf s : consistent s = true -> wf s = true.
Proof. unfold consistent. now intros [H _]%andb_true_iff. Qed.

Lemma consistent_stage s i name :
  consistent s = true -> In (i, name) indexed_stages ->
  stage_consistent s (i, name) = true.
Proof.
  unfold consistent. intros [_ H]%andb_true_iff Hin.
  rewrite forallb_forall in H. now apply H.
Qed.

Lemma consistent_intro s :
  wf s = true ->
  (forall i name, In (i, name) indexed_stages ->
                  stage_consistent s (i, name) = true) ->
  consistent s = true.
Proof.
  intros Hwf H. unfold consistent. rewrite Hwf. cbn [andb].
  apply forallb_forall. intros [i name] Hin. now apply H.
Qed.

Lemma init_consistent now_id : consistent (__init__ now_id) = true.
Proof. reflexivity. Qed.

Lemma advance_consistent s s' :
  consistent s = true -> _advance_to_next_stage s = Ok s' ->
  consistent s' = true.
Proof.
  intros Hc Hadv. pose proof (consistent_wf s Hc) as Hwf.
  pose proof (wf_bounds s Hwf) as Hb.
  unfold _advance_to_next_stage in Hadv.
  destruct (Z.ltb_spec (current_stage s) len_stages) as [Hlt|Hge].
  2:{ injection Hadv as <-. exact Hc. }
  destruct (index_stages s Hwf Hlt) as (name & Hidx & Hin & _).
  rewrite Hidx in Hadv. cbn [bind] in Hadv.
  destruct (wf_entries s name Hwf Hin) as [[p Hp] _].
  unfold getitem in Hadv. rewrite Hp in Hadv. cbn [bind] in Hadv.
  injection Hadv as <-.
  apply consistent_intro.
  { apply wf_setitem_progress; [exact Hwf | lia]. }
  intros i n Hi.
  pose proof (consistent_stage s i n Hc Hi) as Hs.
  apply stage_consistent_iff in Hs as (p0 & a & Hp0 & Ha & H1 & H2 & H3 & H4).
  apply stage_consistent_iff. cbn [current_stage stage_progress user_responses].
  pose proof (indexed_stage_at i n (current_stage s) name Hi Hidx
                               (conj (proj1 Hb) Hlt)) as Hiff.
  destruct (String.eqb_spec n name) as [E|N].
  - subst n. assert (i = current_stage s) by now apply Hiff. subst i.
    rewrite Hp in Hp0. injection Hp0 as <-.
    eexists _, a. rewrite get_setitem_same.
    repeat split; try eassumption; cbn [question_count completed]; trivial.
    + symmetry. apply Z.ltb_lt. lia.
    + lia.
  - assert (i <> current_stage s) by (intro E; apply N, Hiff, E).
    exists p0, a. rewrite get_setitem_other by (intro E; apply N; now symmetry).
    repeat split; trivial.
    + rewrite H3.
      destruct (Z.ltb_spec i (current_stage s)), (Z.ltb_spec i (current_stage s + 1));
        trivial; lia.
    + intro. apply H4. lia.
Qed.


Lemma response_consistent s text now s' accepted :
  consistent s = true -> process_response s text now = Ok (s', accepted) ->
  consistent s' = true.
Proof.
  intros Hc Hpr. pose proof (consistent_wf s Hc) as Hwf.
  pose proof (wf_bounds s Hwf) as Hb.
  unfold process_response, get_current_stage in Hpr.
  destruct (Z.ltb_spec (current_stage s) len_stages) as [Hlt|Hge].
  2:{ cbn in Hpr. injection Hpr as <- _. exact Hc. }
  destruct (index_stages s Hwf Hlt) as (name & Hidx & Hin & Hnc).
  rewrite Hidx in Hpr. cbn [bind] in Hpr. rewrite Hnc in Hpr.
  destruct (wf_entries s name Hwf Hin) as [[p Hp] [a Ha]].
  unfold getitem in Hpr. rewrite Ha, Hp in Hpr. cbn [bind] in Hpr.
  injection Hpr as <- _.
  apply consistent_intro.
  { apply wf_setitem_both. exact Hwf. }
  intros i n Hi.
  pose proof (consistent_stage s i n Hc Hi) as Hs.
  apply stage_consistent_iff in Hs as (p0 & a0 & Hp0 & Ha0 & H1 & H2 & H3 & H4).
  apply stage_consistent_iff. cbn [current_stage stage_progress user_responses].
  pose proof (indexed_stage_at i n (current_stage s) name Hi Hidx
                               (conj (proj1 Hb) Hlt)) as Hiff.
  destruct (String.eqb_spec n name) as [E|N].
  - subst n. assert (i = current_stage s) by now apply Hiff. subst i.
    rewrite Hp in Hp0. injection Hp0 as <-.
    rewrite Ha in Ha0. injection Ha0 as <-.
    eexists _, _. rewrite !get_setitem_same.
    repeat split; cbn [question_count completed]; trivial.
    + rewrite length_app. cbn [List.length]. lia.
    + rewrite numbered_from_app, H2. cbn [numbered_from andb question_number].
      rewrite andb_true_r. apply Z.eqb_eq. lia.
    + lia.
  - exists p0, a0. rewrite !get_setitem_other by (intro E; apply N; now symmetry).
    repeat split; trivial.
Qed.

Lemma question_depth_consistent depth :
  forall s q s',
    consistent s = true -> get_next_question_depth depth s = Ok (q, s') ->
    consistent s' = true.
Proof.
  induction depth as [|depth IH]; intros s q s' Hc Hq; [discriminate|].
  cbn [get_next_question_depth] in Hq.
  destruct (get_current_stage s) as [name|]; [|discriminate].
  cbn [bind] in Hq.
  destruct (String.eqb name "completed").
  { injection Hq as _ <-. exact Hc. }
  destruct (getitem (stage_progress s) name) as [p|]; [|discriminate].
  cbn [bind] in Hq.
  destruct (Z.of_nat (List.length (get_stage_questions name)) <=? question_count p).
  - destruct (_advance_to_next_stage s) as [s1|] eqn:Hadv; [|discriminate].
    cbn [bind] in Hq. eapply IH; [|exact Hq].
    eapply advance_consistent; eassumption.
  - destruct (index (get_stage_questions name) (question_count p)); [|discriminate].
    injection Hq as _ <-. exact Hc.
Qed.

(** X1: in every session a conversation reaches, each stage's counter
    equals the number of answers stored under it, the k-th answer carries
    question number k, a stage is marked completed exactly when the
    session has moved past it, and a stage not yet entered has no
    answer. *)
Theorem reachable_sessions_consistent :
  forall s, reachable s -> consistent s = true.
Proof.
  induction 1 as [now_id | s s' _ IH Hadv | s s' text now accepted _ IH Hpr
                  | s s' q _ IH Hq].
  - apply init_consistent.
  - eapply advance_consistent; eassumption.
  - eapply response_consistent; eassumption.
  - eapply question_depth_consistent; eassumption.
Qed.


Lemma index_in_range {A : Type} (l : list A) i :
  0 <= i < Z.of_nat (List.length l) ->
  exists x, index l i = Ok x /\ nth_error l (Z.to_nat i) = Some x.
Proof.
  intros Hi. unfold index.
  destruct (Z.ltb_spec i 0) as [Hneg|_]; [lia|].
  destruct (Z.leb_spec 0 i) as [_|Hneg]; [|lia].
  destruct (Z.ltb_spec i (Z.of_nat (List.length l))) as [_|Hge]; [|lia].
  cbn [andb].
  destruct (nth_error l (Z.to_nat i)) as [x|] eqn:E; [eauto|].
  apply nth_error_None in E. lia.
Qed.

Lemma advance_below s :
  wf s = true -> current_stage s < len_stages ->
  exists name p,
    index stages (current_stage s) = Ok name
    /\ get (stage_progress s) name = Some p
    /\ _advance_to_next_stage s
       = Ok {| current_stage := current_stage s + 1;
               stage_progress :=
                 setitem (stage_progress s) name
                   {| completed := true; question_count := question_count p |};
               user_responses := user_responses s;
               session_id := session_id s |}.
Proof.
  intros Hwf Hlt.
  destruct (index_stages s Hwf Hlt) as (name & Hidx & Hin & _).
  destruct (wf_entries s name Hwf Hin) as [[p Hp] _].
  exists name, p. repeat split; trivial.
  unfold _advance_to_next_stage.
  destruct (Z.ltb_spec (current_stage s) len_stages) as [_|Hge]; [|lia].
  rewrite Hidx. cbn [bind]. unfold getitem. rewrite Hp. reflexivity.
Qed.

Lemma current_stage_name s :
  consistent s = true -> current_stage s < len_stages ->
  exists name p a,
    get_current_stage s = Ok name
    /\ String.eqb name "completed" = false
    /\ get (stage_progress s) name = Some p
    /\ get (user_responses s) name = Some a
    /\ question_count p = Z.of_nat (List.length a).
Proof.
  intros Hc Hlt. pose proof (consistent_wf s Hc) as Hwf.
  pose proof (wf_bounds s Hwf) as Hb.
  destruct (index_stages s Hwf Hlt) as (name & Hidx & Hin & Hnc).
  assert (Hi : In (current_stage s, name) indexed_stages).
  { unfold len_stages in Hlt. cbn in Hlt.
    assert (Hcs : current_stage s = 0 \/ current_stage s = 1 \/ current_stage s = 2
                  \/ current_stage s = 3 \/ current_stage s = 4 \/ current_stage s = 5)
      by lia.
    destruct Hcs as [E|[E|[E|[E|[E|E]]]]]; rewrite E in Hidx |- *;
      vm_compute in Hidx; injection Hidx as <-; cbn; tauto. }
  pose proof (consistent_stage s _ _ Hc Hi) as Hs.
  apply stage_consistent_iff in Hs as (p & a & Hp & Ha & H1 & _).
  exists name, p, a. repeat split; trivial.
  unfold get_current_stage.
  destruct (Z.ltb_spec (current_stage s) len_stages) as [_|Hge]; [exact Hidx|lia].
Qed.

Lemma question_depth_returns n :
  forall s depth,
    consistent s = true ->
    Z.to_nat (len_stages - current_stage s) = n -> (n < depth)%nat ->
    exists q s',
      get_next_question_depth depth s = Ok (q, s')
      /\ consistent s' = true
      /\ user_responses s' = user_responses s
      /\ session_id s' = session_id s
      /\ current_stage s <= current_stage s'
      /\ match q with
         | None => terminal s'
         | Some text =>
             exists name p,
               get_current_stage s' = Ok name
               /\ progress_of s' name = Some p
               /\ 0 <= question_count p
                  < Z.of_nat (List.length (get_stage_questions name))
               /\ nth_error (get_stage_questions name)
                            (Z.to_nat (question_count p)) = Some text
         end
      /\ forall d, (0 < d)%nat -> get_next_question_depth d s' = Ok (q, s').
Proof.
  induction n as [|n IH]; intros s depth Hc Hn Hd;
    (destruct depth as [|depth]; [lia|]);
    pose proof (consistent_wf s Hc) as Hwf;
    pose proof (wf_bounds s Hwf) as Hb.
  - (* the session is completed *)
    assert (Hge : len_stages <= current_stage s) by lia.
    assert (Hcur : get_current_stage s = Ok "completed").
    { unfold get_current_stage.
      destruct (Z.ltb_spec (current_stage s) len_stages); [lia | reflexivity]. }
    exists None, s. cbn [get_next_question_depth]. rewrite Hcur. cbn [bind].
    repeat split; trivial; try lia.
    intros [|d] Hpos; [lia|]. cbn [get_next_question_depth].
    rewrite Hcur. reflexivity.
  - assert (Hlt : current_stage s < len_stages) by lia.
    destruct (current_stage_name s Hc Hlt) as (name & p & a & Hcur & Hnc & Hp & Ha & Hcount).
    cbn [get_next_question_depth]. rewrite Hcur. cbn [bind]. rewrite Hnc.
    unfold getitem. rewrite Hp. cbn [bind].
    destruct (Z.leb_spec (Z.of_nat (List.length (get_stage_questions name)))
                         (question_count p)) as [Hall|Hsome].
    + destruct (advance_below s Hwf Hlt) as (name' & p' & _ & _ & Hadv).
      rewrite Hadv. cbn [bind].
      match goal with
      | |- context [get_next_question_depth depth ?x] => set (s1 := x) in *
      end.
      assert (Hc1 : consistent s1 = true)
        by (eapply advance_consistent; eassumption).
      destruct (IH s1 depth Hc1) as (q & s' & Hq & Hc' & Hur & Hid & Hle & Hm & Hst).
      { subst s1. cbn [current_stage]. lia. }
      { lia. }
      exists q, s'. repeat split; trivial.
      subst s1. cbn [current_stage] in Hle. lia.
    + assert (Hr : 0 <= question_count p
                   < Z.of_nat (List.length (get_stage_questions name))) by lia.
      destruct (index_in_range (get_stage_questions name) _ Hr) as (text & Hidx & Hnth).
      rewrite Hidx. cbn [bind].
      exists (Some text), s. repeat split; trivial; try lia.
      * exists name, p. repeat split; trivial; lia.
      * intros [|d] Hpos; [lia|]. cbn [get_next_question_depth].
        rewrite Hcur. cbn [bind]. rewrite Hnc. unfold getitem. rewrite Hp.
        cbn [bind].
        destruct (Z.leb_spec (Z.of_nat (List.length (get_stage_questions name)))
                             (question_count p)); [lia|].
        rewrite Hidx. reflexivity.
Qed.

(** X2: on a consistent session [get_next_question] returns (it never
    raises and stays far below the recursion limit); it leaves the answers
    and the session id alone and never moves the stage index back; the
    question returned is the template of the resulting stage at the
    position of that stage's counter, and None is returned exactly when
    the resulting session is completed; asking again returns the same
    question and changes nothing. *)
Theorem get_next_question_returns :
  forall s, consistent s = true ->
    exists q s',
      get_next_question s = Ok (q, s')
      /\ consistent s' = true
      /\ user_responses s' = user_responses s
      /\ session_id s' = session_id s
      /\ current_stage s <= current_stage s'
      /\ match q with
         | None => terminal s'
         | Some text =>
             exists name p,
               get_current_stage s' = Ok name
               /\ progress_of s' name = Some p
               /\ 0 <= question_count p
                  < Z.of_nat (List.length (get_stage_questions name))
               /\ nth_error (get_stage_questions name)
                            (Z.to_nat (question_count p)) = Some text
         end
      /\ get_next_question s' = Ok (q, s').
Proof.
  intros s Hc. pose proof (wf_bounds s (consistent_wf s Hc)) as Hb.
  destruct (question_depth_returns _ s recursion_limit Hc eq_refl)
    as (q & s' & Hq & Hc' & Hur & Hid & Hle & Hm & Hst).
  { unfold recursion_limit, len_stages. cbn [List.length stages]. lia. }
  exists q, s'. repeat split; trivial.
  apply Hst. unfold recursion_limit. lia.
Qed.

Lemma get_next_question_returns_witness :
  consistent (__init__ "20240101_120000") = true
  /\ exists q s',
       get_next_question (__init__ "20240101_120000") = Ok (q, s')
       /\ consistent s' = true
       /\ user_responses s' = user_responses (__init__ "20240101_120000")
       /\ session_id s' = session_id (__init__ "20240101_120000")
       /\ current_stage (__init__ "20240101_120000") <= current_stage s'
       /\ match q with
          | None => terminal s'
          | Some text =>
              exists name p,
                get_current_stage s' = Ok name
                /\ progress_of s' name = Some p
                /\ 0 <= question_count p
                   < Z.of_nat (List.length (get_stage_questions name))
                /\ nth_error (get_stage_questions name)
                             (Z.to_nat (question_count p)) = Some text
          end
       /\ get_next_question s' = Ok (q, s').
Proof.
  split; [reflexivity|].
  apply (get_next_question_returns (__init__ "20240101_120000")). reflexivity.
Defined.

Lemma reachable_sessions_consistent_witness :
  reachable (__init__ "20240101_120000")
  /\ consistent (__init__ "20240101_120000") = true.
Proof.
  split; [apply reachable_init|].
  apply (reachable_sessions_consistent (__init__ "20240101_120000")).
  apply reachable_init.
Defined.

End SessionInvariantFacts.

(** ** The session summary and the loader *)

Module SessionSummaryFacts.
Import Py Json DiscoverySession DiscoverySessionStore DiscoverySessionFacts.

Lemma fold_add_shift (l : list Z) (acc : Z) :
  fold_left Z.add l acc = fold_left Z.add l 0 + acc.
Proof.
  revert acc. induction l as [|x l IH]; intro acc; cbn [fold_left]; [lia|].
  rewrite (IH (acc + x)), (IH (0 + x)). lia.
Qed.

Lemma total_setitem (d : dict (list Answer)) k a a' :
  get d k = Some a ->
  fold_left Z.add (map (fun r => Z.of_nat (List.length r)) (values (setitem d k a'))) 0
  = fold_left Z.add (map (fun r => Z.of_nat (List.length r)) (values d)) 0
    - Z.of_nat (List.length a) + Z.of_nat (List.length a').
Proof.
  unfold values. induction d as [|[k0 v0] d IH]; [discriminate|].
  cbn [get setitem]. destruct (String.eqb k0 k).
  - intros [= <-]. cbn [map snd fold_left].
    rewrite (fold_add_shift _ (0 + _)), (fold_add_shift _ (0 + Z.of_nat (List.length v0))).
    lia.
  - intro H. cbn [map snd fold_left].
    rewrite (fold_add_shift _ (0 + _)),
            (fold_add_shift (map _ (map snd d)) (0 + _)), (IH H). lia.
Qed.

Lemma advance_user_responses s s1 :
  _advance_to_next_stage s = Ok s1 -> user_responses s1 = user_responses s.
Proof.
  unfold _advance_to_next_stage.
  destruct (current_stage s <? len_stages).
  - destruct (index stages (current_stage s)) as [name|]; [|discriminate].
    cbn [bind].
    destruct (getitem (stage_progress s) name); [|discriminate].
    intros [= <-]. reflexivity.
  - intros [= <-]. reflexivity.
Qed.

Lemma question_depth_user_responses depth :
  forall s q s1,
    get_next_question_depth depth s = Ok (q, s1) ->
    user_responses s1 = user_responses s.
Proof.
  induction depth as [|depth IH]; intros s q s1 Hq; [discriminate|].
  cbn [get_next_question_depth] in Hq.
  destruct (get_current_stage s) as [name|]; [|discriminate].
  cbn [bind] in Hq.
  destruct (String.eqb name "completed").
  { injection Hq as _ <-. reflexivity. }
  destruct (getitem (stage_progress s) name) as [p|]; [|discriminate].
  cbn [bind] in Hq.
  destruct (Z.of_nat (List.length (get_stage_questions name)) <=? question_count p).
  - destruct (_advance_to_next_stage s) as [s2|] eqn:Hadv; [|discriminate].
    cbn [bind] in Hq. rewrite (IH _ _ _ Hq).
    now apply advance_user_responses.
  - destruct (index (get_stage_questions name) (question_count p)); [|discriminate].
    injection Hq as _ <-. reflexivity.
Qed.

(** X3: [total_responses] of the summary goes up by one with every
    answer [process_response] accepts and stays as it is when the answer
    is refused, which happens exactly in the terminal state; advancing
    the stage and asking for a question never change it. *)
Theorem total_responses_counts_accepted :
  forall s text now s' accepted,
    wf s = true ->
    process_response s text now = Ok (s', accepted) ->
    total_responses s' = total_responses s + (if accepted then 1 else 0)
    /\ (accepted = false <-> terminal s)
    /\ (forall s1, _advance_to_next_stage s = Ok s1 ->
                   total_responses s1 = total_responses s)
    /\ (forall q s1, get_next_question s = Ok (q, s1) ->
                     total_responses s1 = total_responses s).
Proof.
  intros s text now s' accepted Hwf Hpr.
  pose proof (wf_bounds s Hwf) as Hb.
  split; [|split; [|split]].
  - unfold process_response, get_current_stage in Hpr.
    destruct (Z.ltb_spec (current_stage s) len_stages) as [Hlt|Hge].
    2:{ cbn in Hpr. injection Hpr as <- <-. lia. }
    destruct (index_stages s Hwf Hlt) as (name & Hidx & Hin & Hnc).
    rewrite Hidx in Hpr. cbn [bind] in Hpr. rewrite Hnc in Hpr.
    destruct (wf_entries s name Hwf Hin) as [[p Hp] [a Ha]].
    unfold getitem in Hpr. rewrite Ha, Hp in Hpr. cbn [bind] in Hpr.
    injection Hpr as <- <-.
    unfold total_responses. cbn [user_responses].
    rewrite (total_setitem _ _ _ _ Ha), length_app. cbn [List.length]. lia.
  - unfold process_response, get_current_stage in Hpr. unfold terminal.
    destruct (Z.ltb_spec (current_stage s) len_stages) as [Hlt|Hge].
    2:{ cbn in Hpr. injection Hpr as _ <-. split; trivial. }
    destruct (index_stages s Hwf Hlt) as (name & Hidx & Hin & Hnc).
    rewrite Hidx in Hpr. cbn [bind] in Hpr. rewrite Hnc in Hpr.
    destruct (wf_entries s name Hwf Hin) as [[p Hp] [a Ha]].
    unfold getitem in Hpr. rewrite Ha, Hp in Hpr. cbn [bind] in Hpr.
    injection Hpr as _ <-. split; [discriminate | lia].
  - intros s1 Hadv. unfold total_responses.
    now rewrite (advance_user_responses _ _ Hadv).
  - intros q s1 Hq. unfold total_responses.
    now rewrite (question_depth_user_responses _ _ _ _ Hq).
Qed.


(** X4: on a well-formed session [get_session_summary] returns, its
    completion percentage lies between 0 and 100, is 100 exactly when the
    session is completed and 0 exactly at the first stage. *)
Theorem completion_percentage_range :
  forall s, wf s = true ->
    (0 <=? completion_percentage s)%float = true
    /\ (completion_percentage s <=? 100)%float = true
    /\ ((completion_percentage s =? 100)%float = true <-> terminal s)
    /\ ((completion_percentage s =? 0)%float = true <-> current_stage s = 0)
    /\ exists name,
         get_current_stage s = Ok name
         /\ get_session_summary s
            = Ok (JDict [("session_id", JStr (session_id s));
                         ("current_stage", JStr name);
                         ("progress", stage_progress_to_json (stage_progress s));
                         ("total_responses", JInt (total_responses s));
                         ("completion_percentage",
                          JFloat (completion_percentage s))]).
Proof.
  intros s Hwf. pose proof (wf_bounds s Hwf) as Hb.
  assert (Hsum : exists name,
             get_current_stage s = Ok name
             /\ get_session_summary s
                = Ok (JDict [("session_id", JStr (session_id s));
                             ("current_stage", JStr name);
                             ("progress", stage_progress_to_json (stage_progress s));
                             ("total_responses", JInt (total_responses s));
                             ("completion_percentage",
                              JFloat (completion_percentage s))])).
  { unfold get_session_summary, get_current_stage.
    destruct (Z.ltb_spec (current_stage s) len_stages) as [Hlt|Hge].
    - destruct (index_stages s Hwf Hlt) as (name & Hidx & _).
      exists name. rewrite Hidx. split; reflexivity.
    - exists "completed". split; reflexivity. }
  assert (Hc : current_stage s = 0 \/ current_stage s = 1 \/ current_stage s = 2
               \/ current_stage s = 3 \/ current_stage s = 4 \/ current_stage s = 5
               \/ current_stage s = 6)
    by (unfold len_stages in Hb; cbn [List.length stages] in Hb; lia).
  split; [|split; [|split; [|split; [|exact Hsum]]]];
    unfold terminal, completion_percentage, len_stages;
    cbn [List.length stages];
    destruct Hc as [E|[E|[E|[E|[E|[E|E]]]]]]; rewrite E;
    try (vm_compute; reflexivity);
    (split; intro H; [vm_compute in H; try discriminate H; lia
                     | try (vm_compute; reflexivity); exfalso; lia]).
Qed.




(** X6: the stage index is not checked against its lower bound: at or
    past the number of stages the session is completed, an index from
    -6 to -1 names a stage counted from the end of the list, and below
    -6 every operation of the state machine raises IndexError. *)
Theorem stage_index_out_of_range :
  forall s,
    (len_stages <= current_stage s ->
       get_current_stage s = Ok "completed")
    /\ (- len_stages <= current_stage s < 0 ->
        exists name,
          nth_error stages (Z.to_nat (current_stage s + len_stages)) = Some name
          /\ get_current_stage s = Ok name)
    /\ (current_stage s < - len_stages ->
        get_current_stage s = Raise IndexError
        /\ _advance_to_next_stage s = Raise IndexError
        /\ get_next_question s = Raise IndexError
        /\ forall text now, process_response s text now = Raise IndexError).
Proof.
  intro s. unfold len_stages. cbn [List.length stages].
  split; [|split].
  - intro H. unfold get_current_stage, len_stages. cbn [List.length stages].
    destruct (Z.ltb_spec (current_stage s) (Z.of_nat 6)); [lia | reflexivity].
  - intro H. unfold get_current_stage, len_stages. cbn [List.length stages].
    destruct (Z.ltb_spec (current_stage s) (Z.of_nat 6)); [|lia].
    assert (Hc : current_stage s = -6 \/ current_stage s = -5 \/ current_stage s = -4
                 \/ current_stage s = -3 \/ current_stage s = -2
                 \/ current_stage s = -1) by lia.
    destruct Hc as [E|[E|[E|[E|[E|E]]]]]; rewrite E;
      eexists; split; reflexivity.
  - intro H.
    assert (Hidx : index stages (current_stage s) = Raise IndexError).
    { unfold index. cbn [List.length stages].
      destruct (Z.ltb_spec (current_stage s) 0); [|lia].
      destruct (Z.leb_spec 0 (current_stage s + Z.of_nat 6)); [lia|].
      reflexivity. }
    assert (Hcur : get_current_stage s = Raise IndexError).
    { unfold get_current_stage, len_stages. cbn [List.length stages].
      destruct (Z.ltb_spec (current_stage s) (Z.of_nat 6)); [exact Hidx | lia]. }
    repeat split.
    + exact Hcur.
    + unfold _advance_to_next_stage, len_stages. cbn [List.length stages].
      destruct (Z.ltb_spec (current_stage s) (Z.of_nat 6)); [|lia].
      rewrite Hidx. reflexivity.
    + unfold get_next_question, recursion_limit.
      cbn [get_next_question_depth]. rewrite Hcur. reflexivity.
    + intros text now. unfold process_response. rewrite Hcur. reflexivity.
Qed.


Lemma total_responses_counts_accepted_witness :
  let s := __init__ "20240101_120000" in
  exists s',
    wf s = true
    /\ process_response s "I teach" "2024-01-01T12:00:00" = Ok (s', true)
    /\ total_responses s' = total_responses s + 1
    /\ (true = false <-> terminal s)
    /\ (forall s1, _advance_to_next_stage s = Ok s1 ->
                   total_responses s1 = total_responses s)
    /\ (forall q s1, get_next_question s = Ok (q, s1) ->
                     total_responses s1 = total_responses s).
Proof.
  eexists. split; [reflexivity|]. split; [vm_compute; reflexivity|].
  eapply (total_responses_counts_accepted
            (__init__ "20240101_120000") "I teach" "2024-01-01T12:00:00" _ true);
    [reflexivity | vm_compute; reflexivity].
Defined.

Lemma completion_percentage_range_witness :
  let s := __init__ "20240101_120000" in
  wf s = true
  /\ (0 <=? completion_percentage s)%float = true
  /\ (completion_percentage s <=? 100)%float = true
  /\ ((completion_percentage s =? 100)%float = true <-> terminal s)
  /\ ((completion_percentage s =? 0)%float = true <-> current_stage s = 0)
  /\ exists name,
       get_current_stage s = Ok name
       /\ get_session_summary s
          = Ok (JDict [("session_id", JStr (session_id s));
                       ("current_stage", JStr name);
                       ("progress", stage_progress_to_json (stage_progress s));
                       ("total_responses", JInt (total_responses s));
                       ("completion_percentage",
                        JFloat (completion_percentage s))]).
Proof.
  split; [reflexivity|].
  apply (completion_percentage_range (__init__ "20240101_120000")). reflexivity.
Defined.

End SessionSummaryFacts.

(** ** The exchange log: the context window *)

Module WindowFacts.
Import Py EnhancedContextManager ContextSpec.

Lemma slice_last (A : Type) (l : list A) :
  slice_from l (-8) = skipn (List.length l - 8) l.
Proof.
  unfold slice_from. cbn [Z.ltb Z.compare]. f_equal. lia.
Qed.

Lemma logged_from_app k a b :
  logged_from k (a ++ b) = logged_from k a ++ logged_from (k + List.length a) b.
Proof.
  revert k. induction a as [|c a IH]; intro k; cbn [app logged_from List.length].
  - now rewrite Nat.add_0_r.
  - rewrite IH. do 3 f_equal. lia.
Qed.

Lemma logged_from_length k calls :
  List.length (logged_from k calls) = List.length calls.
Proof.
  revert k. induction calls as [|c calls IH]; intro k; cbn [logged_from List.length];
    [reflexivity | now rewrite IH].
Qed.

Lemma window_add_exchange self ui br st clock :
  max_context_window (add_exchange self ui br st clock) = max_context_window self.
Proof.
  unfold add_exchange, _manage_context_window.
  match goal with |- context [if ?b then _ else _] => destruct b end; reflexivity.
Qed.

Lemma window_run calls :
  forall self, max_context_window (run self calls) = max_context_window self.
Proof.
  unfold run. induction calls as [|c calls IH]; intro self; cbn [fold_left];
    [reflexivity | now rewrite IH, window_add_exchange].
Qed.

Lemma timeline_add_exchange self ui br st clock :
  let timeline :=
    conversation_timeline self
    ++ [{| exchange_timestamp := clock O;
           exchange_stage := st;
           user_input := ui;
           bot_response := br;
           exchange_id := Z.of_nat (List.length (conversation_timeline self)) |}] in
  conversation_timeline (add_exchange self ui br st clock)
  = if max_context_window self <? Z.of_nat (List.length timeline)
    then slice_from timeline (- max_context_window self)
    else timeline.
Proof.
  unfold add_exchange, _manage_context_window.
  cbn [conversation_timeline max_context_window _update_themes
       _extract_insights_from_exchange snd].
  match goal with |- context [if ?b then _ else _] => destruct b end; reflexivity.
Qed.

Lemma stage_add_exchange self ui br st clock :
  current_stage (add_exchange self ui br st clock) = st.
Proof.
  unfold add_exchange, _manage_context_window.
  match goal with |- context [if ?b then _ else _] => destruct b end; reflexivity.
Qed.

Lemma run_last self calls c :
  run self (calls ++ [c]) =
  add_exchange (run self calls) (call_input c) (call_response c)
               (call_stage c) (call_clock c).
Proof. unfold run. now rewrite fold_left_app. Qed.

Lemma timeline_run calls :
  conversation_timeline (run __init__ calls)
  = slice_from (logged_from 0 calls) (-8).
Proof.
  induction calls as [|c calls IH] using rev_ind; [reflexivity|].
  rewrite run_last, timeline_add_exchange, window_run. cbn zeta.
  change (max_context_window __init__) with 8. cbn [Z.opp].
  rewrite IH, !slice_last, logged_from_app, !length_app, length_skipn,
    !logged_from_length.
  cbn [logged_from List.length Nat.add].
  assert (Hid : Z.of_nat (List.length calls - (List.length calls - 8))
                = Z.min (Z.of_nat (List.length calls)) 8) by lia.
  rewrite Hid. fold (logged_exchange (List.length calls) c).
  pose proof (logged_from_length 0 calls) as Hlen.
  destruct (Z.ltb_spec 8
              (Z.of_nat (List.length calls - (List.length calls - 8) + 1)))
    as [Hlong|Hshort].
  - replace (List.length calls - (List.length calls - 8) + 1 - 8)%nat
      with 1%nat by lia.
    rewrite !skipn_app, skipn_skipn, length_skipn, Hlen.
    replace (1 + (List.length calls - 8))%nat
      with (List.length calls + 1 - 8)%nat by lia.
    f_equal.
    replace (1 - (List.length calls - (List.length calls - 8)))%nat
      with 0%nat by lia.
    replace (List.length calls + 1 - 8 - List.length calls)%nat with 0%nat by lia.
    reflexivity.
  - rewrite skipn_app, Hlen.
    replace (List.length calls - 8)%nat with 0%nat by lia.
    replace (List.length calls + 1 - 8)%nat with 0%nat by lia.
    reflexivity.
Qed.


Lemma map_slice_from {A B : Type} (f : A -> B) (l : list A) i :
  map f (slice_from l i) = slice_from (map f l) i.
Proof. unfold slice_from. now rewrite skipn_map, length_map. Qed.

Lemma logged_from_inputs k calls :
  map user_input (logged_from k calls) = map call_input calls.
Proof.
  revert k. induction calls as [|c calls IH]; intro k; cbn [logged_from map];
    [reflexivity | now rewrite IH].
Qed.

Lemma logged_from_ids k calls :
  map exchange_id (logged_from k calls)
  = map (fun j => Z.min (Z.of_nat j) 8) (seq k (List.length calls)).
Proof.
  revert k. induction calls as [|c calls IH]; intro k;
    cbn [logged_from map List.length seq]; [reflexivity | now rewrite IH].
Qed.

(** X7: after any sequence of [add_exchange] calls on a new context
    manager the timeline holds the last eight exchanges, in order;
    [total_exchanges] of the summary is the number of calls only up to
    eight; an exchange's id is the length of the timeline when it was
    appended, so the ninth and every later exchange get id 8 and, from
    ten calls on, the last two entries carry the same id. *)
Theorem timeline_keeps_last_eight :
  forall calls,
    let self := run __init__ calls in
    let n := List.length calls in
    conversation_timeline self = slice_from (logged_from 0 calls) (-8)
    /\ total_exchanges (get_conversation_summary self) = Z.min (Z.of_nat n) 8
    /\ map user_input (conversation_timeline self)
       = slice_from (map call_input calls) (-8)
    /\ map exchange_id (conversation_timeline self)
       = slice_from (map (fun k => Z.min (Z.of_nat k) 8) (seq 0 n)) (-8)
    /\ ((10 <= n)%nat ->
        map exchange_id (skipn 6 (conversation_timeline self)) = [8; 8]).
Proof.
  intros calls self n. subst self.
  pose proof (timeline_run calls) as Htl.
  split; [exact Htl|]. split; [|split; [|split]].
  - unfold get_conversation_summary. cbn [total_exchanges].
    rewrite Htl, slice_last, length_skipn, logged_from_length. subst n. lia.
  - now rewrite Htl, map_slice_from, logged_from_inputs.
  - now rewrite Htl, map_slice_from, logged_from_ids.
  - intro Hn. rewrite Htl, slice_last, logged_from_length, skipn_skipn.
    rewrite <- skipn_map, logged_from_ids, skipn_map, skipn_seq.
    fold n.
    replace (n - (6 + (n - 8)))%nat with 2%nat by lia.
    cbn [seq map]. f_equal; [|f_equal]; lia.
Qed.

End WindowFacts.

(** ** The themes in closed form *)

Module ThemeRecordFacts.
Import Py EnhancedContextManager ContextSpec.

Lemma strength_after_top n : (9 <= n)%nat -> strength_after n = 5.0%float.
Proof.
  intro H. unfold strength_after. rewrite Nat.min_r by exact H. reflexivity.
Qed.

Lemma strength_after_step n :
  (1 <= n)%nat ->
  (if (5.0 <? strength_after n + 0.5)%float
   then 5.0%float else (strength_after n + 0.5)%float)
  = strength_after (S n).
Proof.
  intro H. destruct (Nat.le_gt_cases 9 n) as [Hbig|Hsmall].
  - rewrite !strength_after_top by lia. reflexivity.
  - assert (Hn : (n = 1 \/ n = 2 \/ n = 3 \/ n = 4 \/ n = 5 \/ n = 6 \/ n = 7
                  \/ n = 8)%nat) by lia.
    destruct Hn as [E|[E|[E|[E|[E|[E|[E|E]]]]]]]; subst n; reflexivity.
Qed.

Lemma deep_dive_after n :
  (1 <= n)%nat ->
  (2.5 <=? strength_after n)%float && (3 <=? Z.of_nat n) = (4 <=? n)%nat.
Proof.
  intro H. destruct (Nat.le_gt_cases 9 n) as [Hbig|Hsmall].
  - rewrite strength_after_top by lia.
    destruct (Z.leb_spec 3 (Z.of_nat n)); [|lia].
    destruct (Nat.leb_spec 4 n); [reflexivity | lia].
  - assert (Hn : (n = 1 \/ n = 2 \/ n = 3 \/ n = 4 \/ n = 5 \/ n = 6 \/ n = 7
                  \/ n = 8)%nat) by lia.
    destruct Hn as [E|[E|[E|[E|[E|[E|[E|E]]]]]]]; subst n; reflexivity.
Qed.

Lemma matching_calls_snoc kws calls c :
  matching_calls kws (calls ++ [c])
  = matching_calls kws calls
    ++ (if any_in kws (lower (call_input c)) then [c] else []).
Proof.
  unfold matching_calls. rewrite filter_app. cbn [filter].
  destruct (any_in kws (lower (call_input c))); reflexivity.
Qed.

Lemma run_append self calls c :
  run self (calls ++ [c]) =
  add_exchange (run self calls) (call_input c) (call_response c)
               (call_stage c) (call_clock c).
Proof. unfold run. now rewrite fold_left_app. Qed.

Lemma theme_after_calls calls name kws :
  get theme_keywords name = Some kws ->
  get (themes (run __init__ calls)) name
  = match matching_calls kws calls with
    | [] => None
    | first :: rest =>
        Some {| theme_name := name;
                evidence := map call_input (first :: rest);
                strength := strength_after (List.length (first :: rest));
                first_mentioned := call_stage first |}
    end.
Proof.
  intro Hk. induction calls as [|c calls IH] using rev_ind; [reflexivity|].
  rewrite run_append, (ThemeFacts.add_exchange_theme _ _ _ _ _ _ _ Hk),
    matching_calls_snoc, IH.
  destruct (any_in kws (lower (call_input c))).
  - destruct (matching_calls kws calls) as [|first rest].
    + reflexivity.
    + cbn [theme_name evidence strength first_mentioned].
      rewrite strength_after_step by (cbn [List.length]; lia).
      change ((first :: rest) ++ [c]) with (first :: (rest ++ [c])).
      cbn iota. do 2 f_equal.
      * change (first :: (rest ++ [c])) with ((first :: rest) ++ [c]).
        now rewrite map_app.
      * cbn [List.length]. rewrite length_app. cbn [List.length].
        do 2 f_equal. lia.
  - now rewrite app_nil_r.
Qed.

Lemma theme_unlisted calls name :
  get theme_keywords name = None ->
  get (themes (run __init__ calls)) name = None.
Proof.
  intro Hk. induction calls as [|c calls IH] using rev_ind; [reflexivity|].
  now rewrite run_append, (ThemeFacts.add_exchange_theme_unlisted _ _ _ _ _ _ Hk).
Qed.

(** X8: after any sequence of [add_exchange] calls on a new context
    manager, a theme of the keyword table exists exactly when some call
    matched one of its keywords; its evidence is the inputs of the
    matching calls in order (one entry per call, never trimmed), its
    first stage is that of the first matching call, and its strength is
    1.0 after one matching call, 0.5 more per further call, 5.0 from the
    ninth on. [should_suggest_deep_dive] holds exactly from the fourth
    matching call on, and never for a name outside the table. *)
Theorem theme_record_closed_form :
  forall calls name,
    let self := run __init__ calls in
    match get theme_keywords name with
    | Some kws =>
        let matching := matching_calls kws calls in
        get (themes self) name
        = match matching with
          | [] => None
          | first :: _ =>
              Some {| theme_name := name;
                      evidence := map call_input matching;
                      strength := strength_after (List.length matching);
                      first_mentioned := call_stage first |}
          end
        /\ should_suggest_deep_dive self name = (4 <=? List.length matching)%nat
    | None =>
        get (themes self) name = None
        /\ should_suggest_deep_dive self name = false
    end.
Proof.
  intros calls name self. subst self.
  destruct (get theme_keywords name) as [kws|] eqn:Hk.
  - cbn zeta. pose proof (theme_after_calls calls name kws Hk) as Hth.
    split.
    + rewrite Hth. destruct (matching_calls kws calls); reflexivity.
    + unfold should_suggest_deep_dive. rewrite Hth.
      destruct (matching_calls kws calls) as [|first rest]; [reflexivity|].
      cbn [strength evidence]. rewrite length_map.
      apply deep_dive_after. cbn [List.length]. lia.
  - pose proof (theme_unlisted calls name Hk) as Hth.
    split; [exact Hth|].
    unfold should_suggest_deep_dive. now rewrite Hth.
Qed.

End ThemeRecordFacts.

(** ** The communication profile *)

Module ProfileFacts.
Import Py PersonalityProfiler.

Lemma div_if_returns guard a b otherwise :
  (guard = true -> b <> 0) ->
  exists x, div_if guard a b otherwise = Ok x
            /\ (guard = false -> x = otherwise).
Proof.
  intro H. unfold div_if, truediv. destruct guard.
  - destruct (Z.eqb_spec b 0) as [E|_]; [now destruct (H eq_refl)|].
    eexists. split; [reflexivity | discriminate].
  - eexists. split; [reflexivity | reflexivity].
Qed.

Lemma pos_guard a : (0 <? a) = true -> a <> 0.
Proof. intros H%Z.ltb_lt. lia. Qed.

Lemma analyze_communication_patterns_aux user_responses :
  exists m, analyze_communication_patterns user_responses = Ok m.
Proof.
  destruct user_responses as [|first rest]; [eexists; reflexivity|].
  unfold analyze_communication_patterns.
  assert (Hlen : Z.of_nat (List.length (first :: rest)) <> 0)
    by (cbn [List.length]; lia).
  set (l := first :: rest) in *. clearbody l. clear first rest.
  repeat match goal with
         | |- context [div_if ?g ?a ?b ?o] =>
             let x := fresh "x" in
             let H := fresh "H" in
             destruct (div_if_returns g a b o) as (x & H & _);
             [ first [ exact (fun _ => Hlen) | apply pos_guard ]
             | rewrite H; cbn [bind] ]
         end.
  eexists. reflexivity.
Qed.

(** X9: [analyze_communication_patterns] returns for every list of
    responses: no division by zero, whatever the texts. With no response
    it gives the default markers; when the responses hold no word at all
    the emotional and the enthusiasm frequency are 0, and when no
    concrete and no abstract word occurs the ratio is 0.5. *)
Theorem analyze_communication_patterns_returns :
  forall user_responses,
    exists m,
      analyze_communication_patterns user_responses = Ok m
      /\ (user_responses = [] -> m = _default_markers)
      /\ (user_responses <> [] -> total_words user_responses = 0 ->
          emotional_language_frequency m = 0%float
          /\ enthusiasm_markers m = 0%float)
      /\ (user_responses <> [] ->
          sum_over (fun response => count_in concrete_words (lower response))
                   user_responses
          + sum_over (fun response => count_in abstract_words (lower response))
                     user_responses = 0 ->
          concrete_vs_abstract_ratio m = 0.5%float).
Proof.
  intros [|first rest].
  - exists _default_markers. split; [reflexivity|]. split; [reflexivity|].
    split; intro H; now destruct H.
  - unfold analyze_communication_patterns.
    assert (Hlen : Z.of_nat (List.length (first :: rest)) <> 0)
      by (cbn [List.length]; lia).
    set (l := first :: rest) in *. clearbody l. clear first rest.
    destruct (div_if_returns true (total_words l) (Z.of_nat (List.length l)) 0
                             (fun _ => Hlen)) as (x1 & -> & _).
    cbn [bind].
    destruct (div_if_returns (0 <? total_words l)
                (sum_over (fun response => count_in emotional_words (lower response)) l)
                (total_words l) 0 (pos_guard _)) as (x2 & -> & H2).
    cbn [bind].
    destruct (div_if_returns true (sum_over (count_char "?") l)
                (Z.of_nat (List.length l)) 0 (fun _ => Hlen)) as (x3 & -> & _).
    cbn [bind].
    destruct (div_if_returns
                (0 <? sum_over (fun response => count_in concrete_words (lower response)) l
                      + sum_over (fun response => count_in abstract_words (lower response)) l)
                (sum_over (fun response => count_in concrete_words (lower response)) l)
                (sum_over (fun response => count_in concrete_words (lower response)) l
                 + sum_over (fun response => count_in abstract_words (lower response)) l)
                0.5 (pos_guard _)) as (x4 & -> & H4).
    cbn [bind].
    destruct (div_if_returns true
                (sum_over (fun response => count_in uncertainty_words (lower response)) l)
                (Z.of_nat (List.length l)) 0 (fun _ => Hlen)) as (x5 & -> & _).
    cbn [bind].
    destruct (div_if_returns (0 <? total_words l)
                (sum_over (fun response =>
                             count_in enthusiasm_words (lower response)
                             + count_char "!" response) l)
                (total_words l) 0 (pos_guard _)) as (x6 & -> & H6).
    cbn [bind].
    eexists. split; [reflexivity|].
    cbn [emotional_language_frequency enthusiasm_markers concrete_vs_abstract_ratio].
    split; [|split].
    + intros ->. cbn [List.length] in Hlen. now destruct Hlen.
    + intros _ Hw.
      assert (Hg : (0 <? total_words l) = false) by (apply Z.ltb_ge; lia).
      split; [apply H2, Hg | apply H6, Hg].
    + intros _ Hc. apply H4. apply Z.ltb_ge. lia.
Qed.


Lemma build_returns self user_responses :
  exists built,
    build_communication_profile self user_responses = Ok built
    /\ (fst built = None <->
        Z.of_nat (List.length user_responses) < min_samples_for_profile self)
    /\ communication_samples (snd built) = communication_samples self
    /\ min_samples_for_profile (snd built) = min_samples_for_profile self
    /\ current_profile (snd built)
       = match fst built with
         | Some profile => Some profile
         | None => current_profile self
         end.
Proof.
  unfold build_communication_profile.
  destruct (Z.ltb_spec (Z.of_nat (List.length user_responses))
                       (min_samples_for_profile self)) as [Hlt|Hge].
  - eexists. split; [reflexivity|]. cbn [fst snd]. repeat split; trivial.
  - destruct (analyze_communication_patterns_aux user_responses) as [m ->].
    cbn [bind]. destruct (determine_communication_style m) as [style conf].
    eexists. split; [reflexivity|]. cbn [fst snd communication_samples
      min_samples_for_profile current_profile].
    repeat split; trivial; [discriminate | lia].
Qed.


Lemma build_profile_independent self self0 user_responses :
  min_samples_for_profile self = min_samples_for_profile self0 ->
  forall built,
    build_communication_profile self user_responses = Ok built ->
    exists built0,
      build_communication_profile self0 user_responses = Ok built0
      /\ fst built0 = fst built.
Proof.
  intros Hmin built. unfold build_communication_profile. rewrite Hmin.
  destruct (Z.of_nat (List.length user_responses) <? min_samples_for_profile self0).
  - intros [= <-]. eexists. split; reflexivity.
  - destruct (analyze_communication_patterns user_responses) as [m|]; [|discriminate].
    cbn [bind]. destruct (determine_communication_style m) as [style conf].
    intros [= <-]. eexists. split; reflexivity.
Qed.

Lemma update_profile_step self response :
  min_samples_for_profile self = 3 ->
  (forall built,
     build_communication_profile __init__ (communication_samples self) = Ok built ->
     current_profile self = fst built) ->
  exists self',
    update_profile self response = Ok self'
    /\ communication_samples self' = communication_samples self ++ [response]
    /\ min_samples_for_profile self' = 3
    /\ (forall built,
          build_communication_profile __init__ (communication_samples self') = Ok built ->
          current_profile self' = fst built).
Proof.
  intros Hmin Hcur. unfold update_profile.
  cbn [communication_samples min_samples_for_profile].
  set (self1 := {| communication_samples := communication_samples self ++ [response];
                   current_profile := current_profile self;
                   style_history := style_history self;
                   min_samples_for_profile := min_samples_for_profile self;
                   confidence_threshold := confidence_threshold self |}).
  destruct (build_returns self1 (communication_samples self ++ [response]))
    as (built1 & Hb1 & Hnone1 & Hs1 & Hm1 & Hc1).
  destruct (build_returns __init__ (communication_samples self))
    as (built0 & Hb0 & Hnone0 & _).
  change (min_samples_for_profile self1) with (min_samples_for_profile self) in *.
  change (min_samples_for_profile __init__) with 3 in *.
  change (communication_samples self1)
    with (communication_samples self ++ [response]) in *.
  rewrite Hmin in *.
  destruct (Z.leb_spec 3 (Z.of_nat (List.length (communication_samples self ++ [response]))))
    as [Hge|Hlt].
  - rewrite Hb1. cbn [bind]. exists (snd built1).
    repeat split; trivial.
    intros built Hb. rewrite Hs1 in Hb.
    destruct (build_profile_independent self1 __init__ _ Hmin built1 Hb1)
      as (built' & Hb' & Hfst).
    rewrite Hb in Hb'. injection Hb' as <-.
    rewrite Hc1, Hfst.
    destruct (fst built1) as [p|] eqn:E; [reflexivity|].
    exfalso. assert (Z.of_nat (List.length (communication_samples self ++ [response])) < 3)
      by now apply Hnone1. lia.
  - exists self1. repeat split; trivial.
    intros built Hb. cbn [current_profile communication_samples self1] in *.
    rewrite (Hcur built0 Hb0).
    destruct (build_returns __init__ (communication_samples self ++ [response]))
      as (built2 & Hb2 & Hnone2 & _).
    rewrite Hb in Hb2. injection Hb2 as <-.
    change (min_samples_for_profile __init__) with 3 in Hnone2.
    rewrite length_app in Hlt, Hnone2. cbn [List.length] in Hlt, Hnone2.
    rewrite (proj2 Hnone0) by lia. symmetry. apply Hnone2. lia.
Qed.

Lemma update_all_steps responses :
  forall self,
    min_samples_for_profile self = 3 ->
    (forall built,
       build_communication_profile __init__ (communication_samples self) = Ok built ->
       current_profile self = fst built) ->
    exists self',
      update_all self responses = Ok self'
      /\ communication_samples self' = communication_samples self ++ responses
      /\ min_samples_for_profile self' = 3
      /\ (forall built,
            build_communication_profile __init__ (communication_samples self') = Ok built ->
            current_profile self' = fst built).
Proof.
  induction responses as [|response responses IH]; intros self Hmin Hcur.
  - exists self. cbn [update_all]. rewrite app_nil_r. repeat split; trivial.
  - destruct (update_profile_step self response Hmin Hcur)
      as (self1 & Hup & Hs1 & Hm1 & Hc1).
    destruct (IH self1 Hm1 Hc1) as (self' & Hall & Hs & Hm & Hc).
    exists self'. cbn [update_all]. rewrite Hup. cbn [bind].
    repeat split; trivial.
    rewrite Hs, Hs1, <- app_assoc. reflexivity.
Qed.

(** X10: after any sequence of [update_profile] calls on a new profiler
    every sample is kept, and the current profile is the one
    [build_communication_profile] gives for the whole list of samples:
    none before the third sample, one from the third on. Without a
    profile the style guidance is the default sentence and the summary
    reports how many samples are missing. *)
Theorem profile_needs_three_samples :
  forall responses,
    exists self' built,
      update_all __init__ responses = Ok self'
      /\ communication_samples self' = responses
      /\ build_communication_profile __init__ responses = Ok built
      /\ current_profile self' = fst built
      /\ (current_profile self' = None <-> (List.length responses < 3)%nat)
      /\ ((List.length responses < 3)%nat ->
          get_style_guidance_for_llm self'
          = "Respond naturally with warmth and insight."
          /\ get_profile_summary self'
             = InsufficientData (3 - Z.of_nat (List.length responses))).
Proof.
  intro responses.
  destruct (update_all_steps responses __init__ eq_refl)
    as (self' & Hall & Hs & Hm & Hc).
  { intros built Hb. vm_compute in Hb. injection Hb as <-. reflexivity. }
  cbn [communication_samples __init__ app] in Hs.
  destruct (build_returns __init__ responses) as (built & Hb & Hnone & _).
  change (min_samples_for_profile __init__) with 3 in Hnone.
  exists self', built. rewrite Hs in Hc.
  assert (Hcur : current_profile self' = fst built) by now apply Hc.
  assert (Hiff : current_profile self' = None <-> (List.length responses < 3)%nat).
  { rewrite Hcur, Hnone. lia. }
  split; [exact Hall|]. split; [exact Hs|]. split; [exact Hb|].
  split; [exact Hcur|]. split; [exact Hiff|].
  intro Hlt. split.
  - unfold get_style_guidance_for_llm. now rewrite (proj2 Hiff Hlt).
  - unfold get_profile_summary. now rewrite (proj2 Hiff Hlt), Hs, Hm.
Qed.


Lemma style_adaptations_four style :
  exists a b c d, style_adaptations style = [a; b; c; d].
Proof. destruct style; do 4 eexists; reflexivity. Qed.

Lemma generate_adaptations_prefix style depth m :
  exists rest,
    _generate_adaptations style depth m = style_adaptations style ++ rest
    /\ (List.length rest <= 3)%nat.
Proof.
  unfold _generate_adaptations.
  generalize (style_adaptations style) as base. intro base.
  destruct depth;
    destruct (0.2 <? uncertainty_indicators m)%float;
    destruct (0.05 <? enthusiasm_markers m)%float;
    rewrite <- ?app_assoc; cbn [app];
    try (eexists; split; [reflexivity | cbn [List.length]; lia]).
  all: exists []; split; [now rewrite app_nil_r | cbn [List.length]; lia].
Qed.

(** X11: a profile built by [build_communication_profile] starts with
    the four adaptations of its primary style and has at most three
    more; the style guidance quotes the first three only, so it is
    determined by the primary style and the preferred depth: the
    adaptations for depth, uncertainty and enthusiasm never reach it. *)
Theorem style_guidance_ignores_markers :
  forall self user_responses profile self',
    build_communication_profile self user_responses = Ok (Some profile, self') ->
    current_profile self' = Some profile
    /\ firstn 4 (adaptations profile) = style_adaptations (primary_style profile)
    /\ (4 <= List.length (adaptations profile) <= 7)%nat
    /\ get_style_guidance_for_llm self'
       = join " "
           [("COMMUNICATION STYLE: "
             ++ style_instructions (primary_style profile))%string;
            ("RESPONSE DEPTH: "
             ++ depth_instructions (preferred_depth profile))%string;
            ("SPECIFIC ADAPTATIONS: "
             ++ join " | " (firstn 3 (style_adaptations (primary_style profile))))%string].
Proof.
  intros self user_responses profile self'. unfold build_communication_profile.
  destruct (Z.of_nat (List.length user_responses) <? min_samples_for_profile self);
    [discriminate|].
  destruct (analyze_communication_patterns user_responses) as [m|]; [|discriminate].
  cbn [bind]. destruct (determine_communication_style m) as [style conf].
  intros [= <- <-].
  cbn [current_profile adaptations primary_style preferred_depth].
  destruct (generate_adaptations_prefix style (determine_response_depth m) m)
    as (rest & Hgen & Hrest).
  destruct (style_adaptations_four style) as (a & b & c & d & Hfour).
  split; [reflexivity|]. split; [|split].
  - rewrite Hgen, Hfour. reflexivity.
  - rewrite Hgen, length_app, Hfour. cbn [List.length]. lia.
  - unfold get_style_guidance_for_llm.
    cbn [current_profile adaptations primary_style preferred_depth].
    rewrite Hgen, Hfour. reflexivity.
Qed.


Lemma style_guidance_ignores_markers_witness :
  let user_responses :=
    ["I want to know my gifts so I can serve more effectively.";
     "What should I do next once I know my results?";
     "I'm here to get clear direction on where to focus my efforts."] in
  exists profile self',
    build_communication_profile __init__ user_responses = Ok (Some profile, self')
    /\ current_profile self' = Some profile
    /\ firstn 4 (adaptations profile) = style_adaptations (primary_style profile)
    /\ (4 <= List.length (adaptations profile) <= 7)%nat
    /\ get_style_guidance_for_llm self'
       = join " "
           [("COMMUNICATION STYLE: "
             ++ style_instructions (primary_style profile))%string;
            ("RESPONSE DEPTH: "
             ++ depth_instructions (preferred_depth profile))%string;
            ("SPECIFIC ADAPTATIONS: "
             ++ join " | " (firstn 3 (style_adaptations (primary_style profile))))%string].
Proof.
  cbv zeta.
  destruct (build_communication_profile __init__
              ["I want to know my gifts so I can serve more effectively.";
               "What should I do next once I know my results?";
               "I'm here to get clear direction on where to focus my efforts."])
    as [[[profile|] self']|] eqn:E.
  - exists profile, self'. split; [reflexivity|].
    exact (style_guidance_ignores_markers __init__ _ profile self' E).
  - exfalso. vm_compute in E. discriminate E.
  - exfalso. vm_compute in E. discriminate E.
Defined.

End ProfileFacts.

(** ** The enhanced journey, turn by turn *)

Module FlowFacts.
Import Py Corpus DynamicQuestioningEngine PatternSpec QuestionSpec.

Lemma generate_next_question_returns history user_responses stage last :
  exists q new,
    generate_next_question (with_history history) user_responses stage last
    = (Ok q, with_history (history ++ new)).
Proof.
  unfold generate_next_question, analyze_response_patterns.
  set (text := lower (join " " (all_responses user_responses))).
  set (new := detect pattern_rules text stage).
  cbn [response_patterns with_history deep_dive_threshold __init__].
  rewrite QuestionFacts.first_deep_dive_find.
  destruct (find deep_dive_candidate new) as [pattern|] eqn:Hdd.
  - apply find_some in Hdd as [_ Hcand].
    apply andb_true_iff in Hcand as [_ Ht].
    destruct (QuestionFacts.deep_dive_question_some pattern last Ht)
      as (tpl & rest & Hget & ->).
    eexists _, new. reflexivity.
  - unfold _generate_follow_up_question. rewrite QuestionFacts.follow_up_find.
    destruct (find (triggered (lower last)) follow_up_rules) as [rule|].
    + eexists _, new. reflexivity.
    + match goal with
      | |- context [_find_uncovered_area ?engine _] =>
          change engine with (with_history (history ++ new))
      end.
      rewrite QuestionFacts.find_uncovered_area_spec. fold text.
      destruct (find (uncovered text) theme_indicators) as [[area inds]|] eqn:Hun.
      * destruct (QuestionFacts.uncovered_area_listed text area inds Hun)
          as (Hne & first & rest & Hget & Hq).
        cbn [option_map fst]. rewrite Hne, Hq.
        eexists _, new. reflexivity.
      * cbn [option_map].
        destruct (2 <=? strong_pattern_count (with_history (history ++ new))).
        -- eexists _, new. reflexivity.
        -- eexists _, new. reflexivity.
Qed.

End FlowFacts.

Module JourneyFacts.
Import Py DiscoverySession SessionSpec JourneySpec.
Import DiscoverySessionFacts SessionInvariantFacts.

Lemma min_for_range stage : 1 <= min_for stage <= 2.
Proof.
  unfold min_for, get_default, DynamicQuestioningEngine.min_responses.
  cbn [get].
  repeat match goal with
         | |- context [if ?b then _ else _] => destruct b
         end; lia.
Qed.

Lemma should_continue_true engine stage n :
  DynamicQuestioningEngine.should_continue_current_stage engine stage n = true ->
  n <= 3.
Proof.
  unfold DynamicQuestioningEngine.should_continue_current_stage.
  fold (min_for stage). pose proof (min_for_range stage) as Hm.
  destruct (Z.ltb_spec n (min_for stage)) as [Hlt|Hge]; [lia|].
  destruct (filter _ _); [discriminate|].
  intros Hfour%Z.ltb_lt. lia.
Qed.

Lemma should_continue_false engine stage n :
  DynamicQuestioningEngine.should_continue_current_stage engine stage n = false ->
  min_for stage <= n.
Proof.
  unfold DynamicQuestioningEngine.should_continue_current_stage.
  fold (min_for stage).
  destruct (Z.ltb_spec n (min_for stage)) as [Hlt|Hge]; [discriminate | lia].
Qed.

Lemma update_profile_returns profiler response :
  PersonalityProfiler.min_samples_for_profile profiler = 3 ->
  exists profiler',
    PersonalityProfiler.update_profile profiler response = Ok profiler'
    /\ PersonalityProfiler.min_samples_for_profile profiler' = 3.
Proof.
  intro Hmin. unfold PersonalityProfiler.update_profile.
  cbn [PersonalityProfiler.communication_samples
       PersonalityProfiler.min_samples_for_profile].
  match goal with |- context [if ?c then _ else _] => destruct c end.
  - match goal with
    | |- context [PersonalityProfiler.build_communication_profile ?p ?l] =>
        destruct (ProfileFacts.build_returns p l) as (b & Hb & _ & _ & Hm & _);
        rewrite Hb
    end.
    cbn [bind]. eexists. split; [reflexivity|].
    rewrite Hm. exact Hmin.
  - eexists. split; [reflexivity | exact Hmin].
Qed.

Lemma respond_below s text now :
  consistent s = true -> current_stage s < len_stages ->
  exists name p a,
    get_current_stage s = Ok name
    /\ String.eqb name "completed" = false
    /\ In (current_stage s, name) indexed_stages
    /\ get (stage_progress s) name = Some p
    /\ get (user_responses s) name = Some a
    /\ process_response s text now
       = Ok ({| current_stage := current_stage s;
                stage_progress :=
                  setitem (stage_progress s) name
                    {| completed := completed p;
                       question_count := question_count p + 1 |};
                user_responses :=
                  setitem (user_responses s) name
                    (a ++ [{| response := text;
                              timestamp := now;
                              question_number := question_count p |}]);
                session_id := session_id s |}, true).
Proof.
  intros Hc Hlt. pose proof (consistent_wf s Hc) as Hwf.
  pose proof (wf_bounds s Hwf) as Hb.
  destruct (index_stages s Hwf Hlt) as (name & Hidx & Hin & Hnc).
  destruct (wf_entries s name Hwf Hin) as [[p Hp] [a Ha]].
  assert (Hcur : get_current_stage s = Ok name).
  { unfold get_current_stage.
    destruct (Z.ltb_spec (current_stage s) len_stages); [exact Hidx | lia]. }
  exists name, p, a. repeat split; trivial.
  - unfold len_stages in Hlt. cbn in Hlt.
    assert (Hcs : current_stage s = 0 \/ current_stage s = 1 \/ current_stage s = 2
                  \/ current_stage s = 3 \/ current_stage s = 4 \/ current_stage s = 5)
      by lia.
    destruct Hcs as [E|[E|[E|[E|[E|E]]]]]; rewrite E in Hidx |- *;
      vm_compute in Hidx; injection Hidx as <-; cbn; tauto.
  - unfold process_response. rewrite Hcur. cbn [bind]. rewrite Hnc.
    unfold getitem. rewrite Ha, Hp. reflexivity.
Qed.


Lemma bounded_stage s i name :
  bounded s = true -> In (i, name) indexed_stages ->
  stage_bounded s (i, name) = true.
Proof.
  unfold bounded. intros H Hin. rewrite forallb_forall in H. now apply H.
Qed.

Lemma bounded_intro s :
  (forall i name, In (i, name) indexed_stages -> stage_bounded s (i, name) = true) ->
  bounded s = true.
Proof.
  intro H. unfold bounded. apply forallb_forall. intros [i name] Hin. now apply H.
Qed.

Lemma answer_count_get s name a :
  get (user_responses s) name = Some a ->
  answer_count s name = Z.of_nat (List.length a).
Proof. unfold answer_count, get_default. now intros ->. Qed.

Lemma current_stage_only s s' :
  current_stage s' = current_stage s -> get_current_stage s' = get_current_stage s.
Proof. unfold get_current_stage. now intros ->. Qed.

Lemma len_stages_six : len_stages = 6.
Proof. reflexivity. Qed.

Lemma session_step_terminal s text now :
  len_stages <= current_stage s ->
  process_response s text now = Ok (s, false)
  /\ get_current_stage s = Ok "completed"
  /\ _advance_to_next_stage s = Ok s
  /\ remaining s = 0.
Proof.
  intro Hge.
  assert (Hcur : get_current_stage s = Ok "completed").
  { unfold get_current_stage.
    destruct (Z.ltb_spec (current_stage s) len_stages); [lia | reflexivity]. }
  repeat split; trivial.
  - unfold process_response. rewrite Hcur. reflexivity.
  - unfold _advance_to_next_stage.
    destruct (Z.ltb_spec (current_stage s) len_stages); [lia | reflexivity].
  - unfold remaining. rewrite Hcur. reflexivity.
Qed.

Lemma session_step_below s text now :
  consistent s = true -> bounded s = true -> current_stage s < len_stages ->
  exists name s1,
    process_response s text now = Ok (s1, true)
    /\ get_current_stage s1 = Ok name
    /\ consistent s1 = true
    /\ 1 <= remaining s
    /\ (forall engine,
        DynamicQuestioningEngine.should_continue_current_stage
          engine name
          (Z.of_nat (List.length (get_default (user_responses s1) name []))) = true ->
        bounded s1 = true /\ remaining s1 = remaining s - 1)
    /\ (forall engine,
        DynamicQuestioningEngine.should_continue_current_stage
          engine name
          (Z.of_nat (List.length (get_default (user_responses s1) name []))) = false ->
        exists s2 name2,
          _advance_to_next_stage s1 = Ok s2
          /\ get_current_stage s2 = Ok name2
          /\ consistent s2 = true
          /\ bounded s2 = true
          /\ remaining s2 <= remaining s - 1).
Proof.
  intros Hc Hbd Hlt. pose proof (wf_bounds s (consistent_wf s Hc)) as Hb.
  destruct (respond_below s text now Hc Hlt)
    as (name & p & a & Hcur & Hnc & Hin & Hp & Ha & Hpr).
  match type of Hpr with _ = Ok (?x, _) => set (s1 := x) in * end.
  assert (Hc1 : consistent s1 = true)
    by (eapply response_consistent; eassumption).
  assert (Hcur1 : get_current_stage s1 = Ok name)
    by (rewrite <- Hcur; now apply current_stage_only).
  assert (Hlen : Z.of_nat (List.length a) <= 3).
  { pose proof (bounded_stage s _ _ Hbd Hin) as Hs.
    unfold stage_bounded in Hs. cbn [fst snd] in Hs.
    rewrite (answer_count_get s name a Ha), Z.ltb_irrefl in Hs.
    now apply Z.leb_le. }
  assert (Hrem : remaining s = 4 * (len_stages - current_stage s)
                               - Z.of_nat (List.length a)).
  { unfold remaining. now rewrite Hcur, Hnc, (answer_count_get s name a Ha). }
  assert (Hidx : index stages (current_stage s) = Ok name).
  { unfold get_current_stage in Hcur.
    destruct (Z.ltb_spec (current_stage s) len_stages); [exact Hcur | lia]. }
  assert (Hcount1 : forall name',
             answer_count s1 name'
             = if String.eqb name' name
               then Z.of_nat (List.length a) + 1
               else answer_count s name').
  { intro name'. unfold answer_count, get_default. subst s1.
    cbn [user_responses]. rewrite get_setitem.
    destruct (String.eqb name' name); [|reflexivity].
    rewrite length_app. cbn [List.length]. lia. }
  assert (Hn1 : Z.of_nat (List.length (get_default (user_responses s1) name []))
                = Z.of_nat (List.length a) + 1).
  { fold (answer_count s1 name). now rewrite Hcount1, String.eqb_refl. }
  exists name, s1. rewrite Hn1. rewrite len_stages_six in *.
  split; [exact Hpr|]. split; [exact Hcur1|]. split; [exact Hc1|].
  split; [lia|]. split.
  - intros engine Hcont%should_continue_true. split.
    + apply bounded_intro. intros i n' Hi.
      pose proof (bounded_stage s i n' Hbd Hi) as Hs.
      unfold stage_bounded in *. cbn [fst snd] in *.
      rewrite Hcount1. change (current_stage s1) with (current_stage s).
      destruct (String.eqb_spec n' name) as [->|Hne]; [|exact Hs].
      assert (i = current_stage s)
        by (now apply (indexed_stage_at i name (current_stage s) name Hi Hidx);
            [rewrite len_stages_six; lia|]).
      subst i. rewrite Z.ltb_irrefl. apply Z.leb_le. lia.
    + rewrite Hrem. unfold remaining.
      rewrite Hcur1, Hnc, Hcount1, String.eqb_refl.
      change (current_stage s1) with (current_stage s).
      rewrite len_stages_six. lia.
  - intros engine Hstop%should_continue_false.
    destruct (advance_below s1 (consistent_wf s1 Hc1))
      as (name' & p' & Hidx' & Hp' & Hadv).
    { rewrite len_stages_six. exact Hlt. }
    match type of Hadv with _ = Ok ?x => set (s2 := x) in * end.
    assert (Hc2 : consistent s2 = true)
      by (eapply advance_consistent; eassumption).
    destruct (StoreFacts.get_current_stage_wf s2 (consistent_wf s2 Hc2))
      as [name2 Hcur2].
    assert (Hbd2 : bounded s2 = true).
    { apply bounded_intro. intros i n' Hi.
      pose proof (bounded_stage s i n' Hbd Hi) as Hs.
      unfold stage_bounded in *. cbn [fst snd] in *.
      change (answer_count s2 n') with (answer_count s1 n').
      rewrite Hcount1. change (current_stage s2) with (current_stage s + 1).
      destruct (String.eqb_spec n' name) as [->|Hne].
      - assert (i = current_stage s)
          by (now apply (indexed_stage_at i name (current_stage s) name Hi Hidx);
              [rewrite len_stages_six; lia|]).
        subst i.
        destruct (Z.ltb_spec (current_stage s) (current_stage s + 1)); [|lia].
        apply andb_true_iff. split; apply Z.leb_le; lia.
      - assert (i <> current_stage s).
        { intro E. apply Hne.
          apply (indexed_stage_at i n' (current_stage s) name Hi Hidx);
            [rewrite len_stages_six; lia | exact E]. }
        destruct (Z.ltb_spec i (current_stage s)),
                 (Z.ltb_spec i (current_stage s + 1)); trivial; lia. }
    exists s2, name2.
    split; [exact Hadv|]. split; [exact Hcur2|]. split; [exact Hc2|].
    split; [exact Hbd2|].
    destruct (Z.lt_ge_cases (current_stage s2) len_stages) as [Hlt2|Hge2].
    + destruct (respond_below s2 "" "" Hc2 Hlt2)
        as (n2 & p2 & a2 & Hcur2' & Hnc2 & Hin2 & _ & Ha2 & _).
      rewrite Hcur2 in Hcur2'. injection Hcur2' as <-.
      pose proof (consistent_stage s1 _ _ Hc1 Hin2) as Hst.
      apply stage_consistent_iff in Hst as (p3 & a3 & _ & Ha3 & _ & _ & _ & Hempty).
      change (user_responses s2) with (user_responses s1) in Ha2.
      rewrite Ha2 in Ha3. injection Ha3 as <-.
      change (current_stage s2) with (current_stage s + 1) in *.
      change (current_stage s1) with (current_stage s) in Hempty.
      rewrite Hempty in Ha2 by lia.
      rewrite Hrem. unfold remaining. rewrite Hcur2, Hnc2.
      rewrite (answer_count_get s2 name2 [] Ha2). cbn [List.length].
      change (current_stage s2) with (current_stage s + 1).
      rewrite len_stages_six in *. lia.
    + destruct (session_step_terminal s2 "" "" Hge2) as (_ & _ & _ & ->).
      rewrite Hrem. lia.
Qed.


Lemma dynamic_flow_continues cm history pp ds stage total :
  EnhancedJourney._should_continue_dynamic_flow
    {| EnhancedJourney.context_manager := cm;
       EnhancedJourney.dynamic_questioner :=
         DynamicQuestioningEngine.with_history history;
       EnhancedJourney.personality_profiler := pp;
       EnhancedJourney.discovery_session := ds;
       EnhancedJourney.conversation_stage := stage;
       EnhancedJourney.total_exchanges := total |} = true.
Proof.
  unfold EnhancedJourney._should_continue_dynamic_flow.
  cbn [EnhancedJourney.dynamic_questioner
       DynamicQuestioningEngine.coverage_status
       DynamicQuestioningEngine.with_history].
  apply orb_true_iff. right. reflexivity.
Qed.

Lemma question_step cm history pp ds stage total user_input :
  exists question new,
    EnhancedJourney.get_next_intelligent_question
      {| EnhancedJourney.context_manager := cm;
         EnhancedJourney.dynamic_questioner :=
           DynamicQuestioningEngine.with_history history;
         EnhancedJourney.personality_profiler := pp;
         EnhancedJourney.discovery_session := ds;
         EnhancedJourney.conversation_stage := stage;
         EnhancedJourney.total_exchanges := total |} user_input
    = (Ok (EnhancedJourney.newline
           ++ DynamicQuestioningEngine.question_text question)%string,
       {| EnhancedJourney.context_manager := cm;
          EnhancedJourney.dynamic_questioner :=
            DynamicQuestioningEngine.with_history (history ++ new);
          EnhancedJourney.personality_profiler := pp;
          EnhancedJourney.discovery_session := ds;
          EnhancedJourney.conversation_stage := stage;
          EnhancedJourney.total_exchanges := total |}).
Proof.
  unfold EnhancedJourney.get_next_intelligent_question.
  cbn [EnhancedJourney.context_manager EnhancedJourney.dynamic_questioner
       EnhancedJourney.personality_profiler EnhancedJourney.discovery_session
       EnhancedJourney.conversation_stage EnhancedJourney.total_exchanges].
  destruct (FlowFacts.generate_next_question_returns
              history (Corpus.of_session ds) stage user_input)
    as (question & new & ->).
  exists question, new.
  rewrite dynamic_flow_continues.
  destruct (DynamicQuestioningEngine.question_type question); try reflexivity.
  destruct (filter _ _); reflexivity.
Qed.


Lemma turn_step bot n input :
  invariant bot n ->
  exists text bot',
    EnhancedJourney.turn bot input = Ok (text, bot')
    /\ invariant bot' (S n)
    /\ (exists question,
          text = (EnhancedJourney.newline
                  ++ DynamicQuestioningEngine.question_text question)%string)
    /\ (terminal (EnhancedJourney.discovery_session bot) ->
        EnhancedJourney.discovery_session bot'
        = EnhancedJourney.discovery_session bot).
Proof.
  destruct bot as [cm dq pp ds stage total]. unfold invariant.
  cbn [EnhancedJourney.context_manager EnhancedJourney.dynamic_questioner
       EnhancedJourney.personality_profiler EnhancedJourney.discovery_session
       EnhancedJourney.conversation_stage EnhancedJourney.total_exchanges].
  intros (Hc & Hbd & Hcur & (history & ->) & Hmin & Htot & Hrem).
  destruct (update_profile_returns pp (EnhancedJourney.turn_input input) Hmin)
    as (pp' & Hup & Hmin').
  unfold EnhancedJourney.turn, EnhancedJourney._process_user_input_with_intelligence.
  cbn [EnhancedJourney.context_manager EnhancedJourney.dynamic_questioner
       EnhancedJourney.personality_profiler EnhancedJourney.discovery_session
       EnhancedJourney.conversation_stage EnhancedJourney.total_exchanges].
  destruct (Z.lt_ge_cases (current_stage ds) len_stages) as [Hlt|Hge].
  - destruct (session_step_below ds (EnhancedJourney.turn_input input)
                                 (EnhancedJourney.turn_now input) Hc Hbd Hlt)
      as (name & s1 & Hpr & Hcur1 & Hc1 & Hpos & Hgo & Hstop).
    rewrite Hpr. cbn [bind fst]. rewrite Hup. cbn [bind]. rewrite Hcur1. cbn [bind].
    cbn [EnhancedJourney.context_manager EnhancedJourney.dynamic_questioner
         EnhancedJourney.personality_profiler EnhancedJourney.discovery_session
         EnhancedJourney.conversation_stage EnhancedJourney.total_exchanges].
    match goal with
    | |- context [EnhancedJourney.get_next_intelligent_question
                    {| EnhancedJourney.context_manager := ?c;
                       EnhancedJourney.total_exchanges := ?k |} ?ui] =>
        destruct (question_step c history pp' s1 name k ui)
          as (question & new & Hqs)
    end.
    rewrite Hqs. cbn [bind].
    unfold EnhancedJourney._should_advance_stage.
    cbn [EnhancedJourney.discovery_session EnhancedJourney.dynamic_questioner].
    rewrite Hcur1. cbn [bind].
    destruct (DynamicQuestioningEngine.should_continue_current_stage _ _ _) eqn:E;
      cbn [negb].
    + destruct (Hgo _ E) as [Hbd1 Hrem1].
      eexists _, _. split; [reflexivity|].
      cbn [EnhancedJourney.context_manager EnhancedJourney.dynamic_questioner
           EnhancedJourney.personality_profiler EnhancedJourney.discovery_session
           EnhancedJourney.conversation_stage EnhancedJourney.total_exchanges].
      split; [|split; [eauto|intro Ht; unfold terminal in Ht; lia]].
      repeat split; trivial; try lia. eauto.
    + destruct (Hstop _ E) as (s2 & name2 & Hadv & Hcur2 & Hc2 & Hbd2 & Hrem2).
      unfold EnhancedJourney._advance_conversation_stage.
      cbn [EnhancedJourney.context_manager EnhancedJourney.dynamic_questioner
           EnhancedJourney.personality_profiler EnhancedJourney.discovery_session
           EnhancedJourney.conversation_stage EnhancedJourney.total_exchanges].
      rewrite Hadv. cbn [bind]. rewrite Hcur2. cbn [bind].
      eexists _, _. split; [reflexivity|].
      cbn [EnhancedJourney.context_manager EnhancedJourney.dynamic_questioner
           EnhancedJourney.personality_profiler EnhancedJourney.discovery_session
           EnhancedJourney.conversation_stage EnhancedJourney.total_exchanges].
      split; [|split; [eauto|intro Ht; unfold terminal in Ht; lia]].
      repeat split; trivial; try lia. eauto.
  - destruct (session_step_terminal ds (EnhancedJourney.turn_input input)
                                    (EnhancedJourney.turn_now input) Hge)
      as (Hpr & Hdone & Hadv & Hzero).
    rewrite Hpr. cbn [bind fst]. rewrite Hup. cbn [bind]. rewrite Hdone. cbn [bind].
    cbn [EnhancedJourney.context_manager EnhancedJourney.dynamic_questioner
         EnhancedJourney.personality_profiler EnhancedJourney.discovery_session
         EnhancedJourney.conversation_stage EnhancedJourney.total_exchanges].
    match goal with
    | |- context [EnhancedJourney.get_next_intelligent_question
                    {| EnhancedJourney.context_manager := ?c;
                       EnhancedJourney.total_exchanges := ?k |} ?ui] =>
        destruct (question_step c history pp' ds "completed" k ui)
          as (question & new & Hqs)
    end.
    rewrite Hqs. cbn [bind].
    unfold EnhancedJourney._should_advance_stage.
    cbn [EnhancedJourney.discovery_session EnhancedJourney.dynamic_questioner].
    rewrite Hdone. cbn [bind].
    destruct (DynamicQuestioningEngine.should_continue_current_stage _ _ _);
      cbn [negb].
    + eexists _, _. split; [reflexivity|].
      cbn [EnhancedJourney.context_manager EnhancedJourney.dynamic_questioner
           EnhancedJourney.personality_profiler EnhancedJourney.discovery_session
           EnhancedJourney.conversation_stage EnhancedJourney.total_exchanges].
      split; [|split; [eauto|reflexivity]].
      repeat split; trivial; try lia. eauto.
    + unfold EnhancedJourney._advance_conversation_stage.
      cbn [EnhancedJourney.context_manager EnhancedJourney.dynamic_questioner
           EnhancedJourney.personality_profiler EnhancedJourney.discovery_session
           EnhancedJourney.conversation_stage EnhancedJourney.total_exchanges].
      rewrite Hadv. cbn [bind]. rewrite Hdone. cbn [bind].
      eexists _, _. split; [reflexivity|].
      cbn [EnhancedJourney.context_manager EnhancedJourney.dynamic_questioner
           EnhancedJourney.personality_profiler EnhancedJourney.discovery_session
           EnhancedJourney.conversation_stage EnhancedJourney.total_exchanges].
      split; [|split; [eauto|reflexivity]].
      repeat split; trivial; try lia. eauto.
Qed.


Lemma init_invariant now_id : invariant (EnhancedJourney.__init__ now_id) 0.
Proof.
  unfold invariant.
  cbn [EnhancedJourney.__init__ EnhancedJourney.context_manager
       EnhancedJourney.dynamic_questioner EnhancedJourney.personality_profiler
       EnhancedJourney.discovery_session EnhancedJourney.conversation_stage
       EnhancedJourney.total_exchanges].
  split; [reflexivity|]. split; [reflexivity|]. split; [reflexivity|].
  split; [exists []; reflexivity|]. split; [reflexivity|].
  split; [reflexivity|]. vm_compute. discriminate.
Qed.

Lemma turns_invariant inputs :
  forall bot n,
    invariant bot n ->
    exists bot',
      EnhancedJourney.turns bot inputs = Ok bot'
      /\ invariant bot' (n + List.length inputs).
Proof.
  induction inputs as [|input inputs IH]; intros bot n Hinv.
  - exists bot. cbn [EnhancedJourney.turns List.length].
    rewrite Nat.add_0_r. split; [reflexivity | exact Hinv].
  - destruct (turn_step bot n input Hinv) as (text & bot1 & Hturn & Hinv1 & _).
    destruct (IH bot1 (S n) Hinv1) as (bot' & Hturns & Hinv').
    exists bot'. cbn [EnhancedJourney.turns List.length]. rewrite Hturn.
    cbn [bind snd]. split; [exact Hturns|].
    now rewrite Nat.add_succ_r.
Qed.

(** X12: every sequence of answers takes the enhanced bot through its
    turns without an exception. After them the session is consistent,
    the bot's stage name is the session's, each stage the session has
    left holds at least its minimum number of answers and at most four,
    the current one at most three, and the session is completed after
    twenty-four answers at the latest. Once it is completed a further
    turn is still counted as an exchange but leaves the session as it
    is. *)
Theorem journey_completes_within_bound :
  forall now_id inputs,
    exists bot,
      EnhancedJourney.turns (EnhancedJourney.__init__ now_id) inputs = Ok bot
      /\ consistent (EnhancedJourney.discovery_session bot) = true
      /\ bounded (EnhancedJourney.discovery_session bot) = true
      /\ get_current_stage (EnhancedJourney.discovery_session bot)
         = Ok (EnhancedJourney.conversation_stage bot)
      /\ EnhancedJourney.total_exchanges bot = Z.of_nat (List.length inputs)
      /\ remaining (EnhancedJourney.discovery_session bot)
         <= Z.max 0 (24 - Z.of_nat (List.length inputs))
      /\ ((24 <= List.length inputs)%nat ->
          terminal (EnhancedJourney.discovery_session bot))
      /\ (terminal (EnhancedJourney.discovery_session bot) ->
          forall input,
            exists text bot',
              EnhancedJourney.turn bot input = Ok (text, bot')
              /\ EnhancedJourney.discovery_session bot'
                 = EnhancedJourney.discovery_session bot
              /\ EnhancedJourney.total_exchanges bot'
                 = EnhancedJourney.total_exchanges bot + 1).
Proof.
  intros now_id inputs.
  destruct (turns_invariant inputs _ 0%nat (init_invariant now_id))
    as (bot & Hturns & Hinv).
  cbn [Nat.add] in Hinv. exists bot. split; [exact Hturns|].
  pose proof Hinv as (Hc & Hbd & Hcur & _ & _ & Htot & Hrem).
  split; [exact Hc|]. split; [exact Hbd|]. split; [exact Hcur|].
  split; [exact Htot|]. split; [exact Hrem|]. split.
  - intro Hlen. unfold terminal.
    destruct (Z.lt_ge_cases (current_stage (EnhancedJourney.discovery_session bot))
                            len_stages) as [Hlt|Hge]; [|exact Hge].
    destruct (session_step_below _ "" "" Hc Hbd Hlt)
      as (_ & _ & _ & _ & _ & Hpos & _).
    lia.
  - intros Hterm input.
    destruct (turn_step bot _ input Hinv)
      as (text & bot' & Hturn & Hinv' & _ & Hsame).
    exists text, bot'. split; [exact Hturn|]. split; [now apply Hsame|].
    destruct Hinv' as (_ & _ & _ & _ & _ & Htot' & _). lia.
Qed.

(** X13: no turn of the enhanced journey writes the coverage status or
    the list of questions asked: all four areas stay uncovered and the
    summary reports no question asked. [_should_continue_dynamic_flow]
    is therefore always True, and [get_next_intelligent_question] always
    returns the text of the dynamic question after a newline, never the
    empty fallback. *)
Theorem dynamic_flow_never_falls_back :
  forall now_id inputs,
    exists bot,
      EnhancedJourney.turns (EnhancedJourney.__init__ now_id) inputs = Ok bot
      /\ DynamicQuestioningEngine.coverage_status
           (EnhancedJourney.dynamic_questioner bot)
         = [("natural_abilities", false); ("energy_sources", false);
            ("core_values", false); ("impact_desires", false)]
      /\ DynamicQuestioningEngine.dynamic_questions_asked
           (EnhancedJourney.dynamic_questioner bot) = []
      /\ DynamicQuestioningEngine.summary_questions_asked
           (DynamicQuestioningEngine.get_questioning_summary
              (EnhancedJourney.dynamic_questioner bot)) = 0
      /\ EnhancedJourney._should_continue_dynamic_flow bot = true
      /\ forall user_input,
           exists question bot',
             EnhancedJourney.get_next_intelligent_question bot user_input
             = (Ok (EnhancedJourney.newline
                    ++ DynamicQuestioningEngine.question_text question)%string,
                bot').
Proof.
  intros now_id inputs.
  destruct (turns_invariant inputs _ 0%nat (init_invariant now_id))
    as (bot & Hturns & Hinv).
  exists bot. split; [exact Hturns|].
  destruct Hinv as (_ & _ & _ & (history & Hq) & _).
  destruct bot as [cm dq pp ds stage total].
  cbn [EnhancedJourney.dynamic_questioner] in *. subst dq.
  split; [reflexivity|]. split; [reflexivity|]. split; [reflexivity|].
  split; [apply dynamic_flow_continues|].
  intro user_input.
  destruct (question_step cm history pp ds stage total user_input)
    as (question & new & Hqs).
  eexists question, _. exact Hqs.
Qed.

End JourneyFacts.

(** ** The order of binary64 numbers, for the sorted lists *)

Module FloatOrderFacts.

Lemma pos_compare_cont_eq m1 m2 : Pos.compare_cont Eq m1 m2 = Pos.compare m1 m2.
Proof. reflexivity. Qed.

Ltac cmp_cases :=
  repeat match goal with
         | H : context [Z.compare ?a ?b] |- _ =>
             destruct (Z.compare_spec a b); cbn [CompOpp] in H
         | |- context [Z.compare ?a ?b] =>
             destruct (Z.compare_spec a b); cbn [CompOpp]
         | H : context [Pos.compare ?a ?b] |- _ =>
             destruct (Pos.compare_spec a b); cbn [CompOpp] in H
         | |- context [Pos.compare ?a ?b] =>
             destruct (Pos.compare_spec a b); cbn [CompOpp]
         end.

Ltac float_cases :=
  cbn [SFcompare]; try discriminate; try reflexivity;
  repeat match goal with s : bool |- _ => destruct s end;
  cbn [SFcompare]; try discriminate; try reflexivity;
  intros;
  repeat match goal with
         | H : context [PosDef.Pos.compare_cont Eq ?a ?b] |- _ =>
             change (PosDef.Pos.compare_cont Eq a b) with (Pos.compare a b) in H
         | |- context [PosDef.Pos.compare_cont Eq ?a ?b] =>
             change (PosDef.Pos.compare_cont Eq a b) with (Pos.compare a b)
         end;
  cmp_cases; try discriminate; try reflexivity; try lia.

Lemma SFleb_trans f1 f2 f3 :
  SFleb f1 f2 = true -> SFleb f2 f3 = true -> SFleb f1 f3 = true.
Proof.
  unfold SFleb. destruct f1, f2, f3; float_cases.
Qed.

Lemma SFltb_leb f1 f2 : SFltb f1 f2 = true -> SFleb f1 f2 = true.
Proof.
  unfold SFltb, SFleb. destruct (SFcompare f1 f2) as [[| |]|];
    try discriminate; reflexivity.
Qed.

Lemma SFleb_total f1 f2 :
  SFeqb f1 f1 = true -> SFeqb f2 f2 = true ->
  SFltb f1 f2 = false -> SFleb f2 f1 = true.
Proof.
  unfold SFeqb, SFltb, SFleb. destruct f1, f2; float_cases.
Qed.


Lemma leb_trans (a b c : float) :
  (a <=? b)%float = true -> (b <=? c)%float = true -> (a <=? c)%float = true.
Proof. rewrite !FloatAxioms.leb_spec. apply SFleb_trans. Qed.

Lemma ltb_leb (a b : float) :
  (a <? b)%float = true -> (a <=? b)%float = true.
Proof. rewrite FloatAxioms.ltb_spec, FloatAxioms.leb_spec. apply SFltb_leb. Qed.

Lemma not_ltb_leb (a b : float) :
  (a =? a)%float = true -> (b =? b)%float = true ->
  (a <? b)%float = false -> (b <=? a)%float = true.
Proof.
  rewrite !FloatAxioms.eqb_spec, FloatAxioms.ltb_spec, FloatAxioms.leb_spec.
  apply SFleb_total.
Qed.

End FloatOrderFacts.

(** ** Sorting by a score, highest first *)

Module SortFacts.
Import SortSpec.

Section Sorting.
Context {A : Type} (key : A -> float).

Lemma insert_desc_in item sorted x :
  In x (insert_desc key item sorted) <-> x = item \/ In x sorted.
Proof.
  induction sorted as [|head rest IH]; cbn [insert_desc In].
  - intuition.
  - destruct (key head <? key item)%float; cbn [In]; rewrite ?IH; intuition.
Qed.

Lemma insert_desc_length item sorted :
  List.length (insert_desc key item sorted) = S (List.length sorted).
Proof.
  induction sorted as [|head rest IH]; cbn [insert_desc List.length];
    [reflexivity|].
  destruct (key head <? key item)%float; cbn [List.length]; now rewrite ?IH.
Qed.

Lemma insert_desc_descending item sorted :
  (key item =? key item)%float = true ->
  Forall (fun x => (key x =? key x)%float = true) sorted ->
  descending (map key sorted) = true ->
  descending (map key (insert_desc key item sorted)) = true.
Proof.
  intros Hitem. induction sorted as [|head rest IH]; intros Hall Hsorted.
  - reflexivity.
  - cbn [insert_desc]. inversion Hall as [|? ? Hhead Hrest]; subst.
    cbn [map descending] in Hsorted.
    apply andb_true_iff in Hsorted as [Hle Hs].
    destruct (key head <? key item)%float eqn:E.
    + cbn [map descending]. rewrite Hs, andb_true_r. cbn [forallb].
      apply FloatOrderFacts.ltb_leb in E. rewrite E, Hle, andb_true_r.
      cbn [andb]. apply forallb_forall. intros y Hy.
      rewrite forallb_forall in Hle.
      eapply FloatOrderFacts.leb_trans; [apply Hle, Hy | exact E].
    + cbn [map descending]. rewrite (IH Hrest Hs), andb_true_r.
      apply forallb_forall. intros y Hy.
      apply in_map_iff in Hy as (x & <- & Hx).
      apply insert_desc_in in Hx as [->|Hx].
      * now apply FloatOrderFacts.not_ltb_leb.
      * rewrite forallb_forall in Hle. apply Hle. now apply in_map.
Qed.

Lemma sort_desc_from items :
  forall sorted,
    let result := fold_left (fun sorted item => insert_desc key item sorted)
                            items sorted in
    (forall x, In x result <-> In x sorted \/ In x items)
    /\ List.length result = (List.length sorted + List.length items)%nat
    /\ (Forall (fun x => (key x =? key x)%float = true) (sorted ++ items) ->
        descending (map key sorted) = true ->
        descending (map key result) = true).
Proof.
  induction items as [|item items IH]; intros sorted; cbn [fold_left].
  - cbn zeta. repeat split; try tauto.
    + intros [H|[]]. exact H.
    + cbn [List.length]. lia.
  - destruct (IH (insert_desc key item sorted)) as (Hin & Hlen & Hdesc).
    cbn zeta in *. split; [|split].
    + intro x. rewrite Hin, insert_desc_in. cbn [In]. intuition.
    + rewrite Hlen, insert_desc_length. cbn [List.length]. lia.
    + intros Hall Hsorted. rewrite Forall_app in Hall. destruct Hall as [Hs Hi].
      inversion Hi as [|? ? Hitem Hitems]; subst.
      apply Hdesc.
      * rewrite Forall_app. split; [|exact Hitems].
        apply Forall_forall. intros x Hx. apply insert_desc_in in Hx as [->|Hx];
          [exact Hitem|]. rewrite Forall_forall in Hs. now apply Hs.
      * now apply insert_desc_descending.
Qed.

Lemma sort_desc_spec items :
  (forall x, In x (sort_desc key items) <-> In x items)
  /\ List.length (sort_desc key items) = List.length items
  /\ (Forall (fun x => (key x =? key x)%float = true) items ->
      descending (map key (sort_desc key items)) = true).
Proof.
  destruct (sort_desc_from items []) as (Hin & Hlen & Hdesc). cbn zeta in *.
  split; [|split].
  - intro x. unfold sort_desc. rewrite Hin. cbn [In]. tauto.
  - exact Hlen.
  - intro Hall. now apply Hdesc.
Qed.

Lemma sort_desc_nodup {B : Type} (f : A -> B) items :
  NoDup (map f items) -> NoDup (map f (sort_desc key items)).
Proof.
  intro Hnd. destruct (sort_desc_spec items) as (Hin & Hlen & _).
  apply NoDup_incl_NoDup with (l := map f items); [exact Hnd| |].
  - rewrite !length_map, Hlen. lia.
  - intros y Hy. apply in_map_iff in Hy as (x & <- & Hx).
    apply in_map. now apply Hin.
Qed.

End Sorting.

End SortFacts.

(** ** Overlaps of skills and passions, alignment and potential gifts *)

Module OverlapFacts.
Import Py Corpus SkillsPassionsAnalyzer SortSpec.

Lemma mem_iff x l : mem x l = true <-> In x l.
Proof.
  unfold mem. rewrite existsb_exists. split.
  - intros (y & Hin & Heq). apply String.eqb_eq in Heq. now subst.
  - intro Hin. exists x. split; [exact Hin | apply String.eqb_refl].
Qed.

Lemma set_inter_in a b x : In x (set_inter a b) <-> In x a /\ In x b.
Proof.
  unfold set_inter, set_of. rewrite filter_In, nodup_In, mem_iff. tauto.
Qed.

Lemma set_inter_nodup a b : NoDup (set_inter a b).
Proof. unfold set_inter, set_of. apply NoDup_filter, NoDup_nodup. Qed.

Lemma set_inter_length a b :
  (List.length (set_inter a b) <= List.length b)%nat.
Proof.
  apply NoDup_incl_length; [apply set_inter_nodup|].
  intros x Hx. now apply set_inter_in in Hx.
Qed.

Lemma categories_disjoint category :
  In category (keys skill_keywords) -> In category (keys passion_keywords) -> False.
Proof.
  intros Hs Hp.
  assert (Hall : forallb (fun c => negb (mem c (keys passion_keywords)))
                         (keys skill_keywords) = true) by (vm_compute; reflexivity).
  rewrite forallb_forall in Hall. specialize (Hall category Hs).
  apply mem_iff in Hp. rewrite Hp in Hall. discriminate.
Qed.

Lemma top_skill_category responses category :
  In category (top_of (analyze_skills responses)) ->
  In category (keys skill_keywords).
Proof.
  intro H. destruct (AnalyzerFacts.top_skill_occurs responses category H)
    as (keywords & _ & Hin & _).
  unfold keys. change category with (fst (category, keywords)). now apply in_map.
Qed.

Lemma top_passion_category responses category :
  In category (top_of (analyze_passions responses)) ->
  In category (keys passion_keywords).
Proof.
  intro H. destruct (AnalyzerFacts.top_passion_occurs responses category H)
    as (keywords & _ & Hin & _).
  unfold keys. change category with (fst (category, keywords)). now apply in_map.
Qed.

Lemma no_direct_match skills_responses passion_responses :
  set_inter (top_of (analyze_skills skills_responses))
            (top_of (analyze_passions passion_responses)) = [].
Proof.
  destruct (set_inter _ _) as [|x l] eqn:E; [reflexivity|].
  assert (Hx : In x (set_inter (top_of (analyze_skills skills_responses))
                               (top_of (analyze_passions passion_responses))))
    by (rewrite E; now left).
  apply set_inter_in in Hx as [Hs Hp]. exfalso.
  eapply categories_disjoint;
    [eapply top_skill_category | eapply top_passion_category]; eassumption.
Qed.

Lemma gift_overlaps_in skills passions entry overlap :
  In overlap (gift_overlaps skills passions entry) ->
  snd overlap = fst entry
  /\ In (fst (fst overlap)) skills
  /\ In (fst (fst overlap)) (indicator_skills (snd entry))
  /\ In (snd (fst overlap)) passions
  /\ In (snd (fst overlap)) (indicator_passions (snd entry)).
Proof.
  unfold gift_overlaps.
  destruct (_ && _); [|intros []].
  intros Hin. apply in_flat_map in Hin as (skill & Hs & Hin).
  apply in_map_iff in Hin as (passion & <- & Hp). cbn [fst snd].
  apply set_inter_in in Hs as [Hs1 Hs2]. apply set_inter_in in Hp as [Hp1 Hp2].
  repeat split; assumption.
Qed.

Lemma indicator_names_listed name ind :
  In (name, ind) spiritual_gift_indicators ->
  contains_key spiritual_gift_indicators name = true /\ name <> "direct_match".
Proof.
  intro Hin.
  assert (Hall : forallb (fun entry =>
                            contains_key spiritual_gift_indicators (fst entry)
                            && negb (String.eqb (fst entry) "direct_match"))
                         spiritual_gift_indicators = true) by (vm_compute; reflexivity).
  rewrite forallb_forall in Hall. specialize (Hall _ Hin). cbn [fst] in Hall.
  apply andb_true_iff in Hall as [Hk Hne]. split; [exact Hk|].
  intros ->. discriminate.
Qed.

Lemma overlap_from_gift skills_responses passion_responses overlap :
  In overlap (find_skill_passion_overlaps (analyze_skills skills_responses)
                                          (analyze_passions passion_responses)) ->
  exists ind,
    In (snd overlap, ind) spiritual_gift_indicators
    /\ In (fst (fst overlap)) (top_of (analyze_skills skills_responses))
    /\ In (fst (fst overlap)) (indicator_skills ind)
    /\ In (snd (fst overlap)) (top_of (analyze_passions passion_responses))
    /\ In (snd (fst overlap)) (indicator_passions ind).
Proof.
  intro Hin.
  pose proof (no_direct_match skills_responses passion_responses) as Hnone.
  unfold find_skill_passion_overlaps in Hin.
  remember (analyze_skills skills_responses) as skills_analysis eqn:Es.
  remember (analyze_passions passion_responses) as passions_analysis eqn:Ep.
  destruct skills_analysis as [sa|]; [|destruct Hin].
  destruct passions_analysis as [pa|]; [|destruct Hin].
  rewrite Hnone in Hin. cbn [map app] in Hin.
  apply in_flat_map in Hin as ([name ind] & Hentry & Hin).
  apply gift_overlaps_in in Hin as (Hname & Hs1 & Hs2 & Hp1 & Hp2).
  cbn [fst snd] in *.
  exists ind. rewrite Hname. repeat split; trivial.
Qed.

(** X14: for analyses built from answers, no top skill category is also a
    top passion category (the two keyword tables share no category name),
    so [find_skill_passion_overlaps] never yields a "direct_match"; every
    overlap it returns pairs a top skill with a top passion that both
    stand among the indicators of the gift it names. *)
Theorem overlaps_come_from_gifts :
  forall skills_responses passion_responses,
    let skills := top_of (analyze_skills skills_responses) in
    let passions := top_of (analyze_passions passion_responses) in
    set_inter skills passions = []
    /\ Forall
         (fun overlap =>
            snd overlap <> "direct_match"
            /\ exists ind,
                 In (snd overlap, ind) spiritual_gift_indicators
                 /\ In (fst (fst overlap)) skills
                 /\ In (fst (fst overlap)) (indicator_skills ind)
                 /\ In (snd (fst overlap)) passions
                 /\ In (snd (fst overlap)) (indicator_passions ind))
         (find_skill_passion_overlaps (analyze_skills skills_responses)
                                      (analyze_passions passion_responses)).
Proof.
  intros skills_responses passion_responses. cbv zeta.
  split; [apply no_direct_match|].
  apply Forall_forall. intros overlap Hin.
  destruct (overlap_from_gift _ _ _ Hin) as (ind & Hentry & Hrest).
  split; [|exists ind; split; assumption].
  now destruct (indicator_names_listed _ _ Hentry).
Qed.

Lemma set_of_nonempty (l : list string) : l <> [] -> set_of l <> [].
Proof.
  destruct l as [|x l]; [now intros []|]. intros _ E.
  assert (Hx : In x (set_of (x :: l))) by (apply nodup_In; now left).
  rewrite E in Hx. destruct Hx.
Qed.

(** X15: [calculate_alignment_score] is the float 0.0 exactly when an
    analysis is missing; otherwise it is an integer multiple of 10 between
    0 and 100, and 0 exactly when there is no overlap.  For analyses built
    from answers the float case needs an empty answer list and a score is
    0 or at least 30: an overlap always brings the bonus of its gift. *)
Theorem alignment_score_range :
  (forall skills_analysis passions_analysis,
     match calculate_alignment_score skills_analysis passions_analysis with
     | Float x => x = 0%float /\ (skills_analysis = None \/ passions_analysis = None)
     | Int n =>
         skills_analysis <> None /\ passions_analysis <> None
         /\ 0 <= n <= 100
         /\ (exists k, n = 10 * k)
         /\ (n = 0 <->
             find_skill_passion_overlaps skills_analysis passions_analysis = [])
     end)
  /\ (forall skills_responses passion_responses,
        match calculate_alignment_score (analyze_skills skills_responses)
                                        (analyze_passions passion_responses) with
        | Float _ => skills_responses = [] \/ passion_responses = []
        | Int n => n = 0 \/ 30 <= n
        end).
Proof.
  split.
  - intros skills_analysis passions_analysis. unfold calculate_alignment_score.
    destruct skills_analysis as [sa|]; [|split; [reflexivity | now left]].
    destruct passions_analysis as [pa|]; [|split; [reflexivity | now right]].
    set (overlaps := find_skill_passion_overlaps (Some sa) (Some pa)).
    set (gifts := set_of (map snd (filter _ overlaps))).
    split; [discriminate|]. split; [discriminate|]. split; [lia|]. split.
    + exists (Z.min (Z.of_nat (List.length overlaps) * 2) 6
              + Z.min (Z.of_nat (List.length gifts)) 4). lia.
    + split.
      * intro H. destruct overlaps as [|o l]; [reflexivity|].
        cbn [List.length] in H. lia.
      * intro H. subst gifts. rewrite H. reflexivity.
  - intros skills_responses passion_responses. unfold calculate_alignment_score.
    pose proof (overlap_from_gift skills_responses passion_responses) as Hall.
    destruct (analyze_skills skills_responses) as [sa|] eqn:Es.
    2:{ left. unfold analyze_skills, analyze in Es.
        destruct skills_responses; [reflexivity | discriminate]. }
    destruct (analyze_passions passion_responses) as [pa|] eqn:Ep.
    2:{ right. unfold analyze_passions, analyze in Ep.
        destruct passion_responses; [reflexivity | discriminate]. }
    set (overlaps := find_skill_passion_overlaps (Some sa) (Some pa)) in *.
    destruct overlaps as [|o l] eqn:Eo; [left; reflexivity|]. right.
    assert (Hkeep : filter (fun overlap =>
                              contains_key spiritual_gift_indicators (snd overlap))
                           (o :: l) = o :: l).
    { apply forallb_filter_id. apply forallb_forall. intros overlap Hin.
      destruct (Hall overlap Hin) as (ind & Hentry & _).
      now destruct (indicator_names_listed _ _ Hentry). }
    rewrite Hkeep.
    assert (Hg : set_of (map snd (o :: l)) <> [])
      by (apply set_of_nonempty; discriminate).
    destruct (set_of (map snd (o :: l))) as [|g gs]; [now destruct Hg|].
    cbn [List.length]. lia.
Qed.


Lemma ratio_scores k1 n1 k2 n2 :
  n1 = 2 \/ n1 = 3 -> n2 = 2 \/ n2 = 3 ->
  0 <= k1 <= n1 -> 0 <= k2 <= n2 ->
  exists a b,
    truediv k1 n1 = Ok a /\ truediv k2 n2 = Ok b
    /\ (((a + b) / 2 =? (a + b) / 2) = true
        /\ ((a + b) / 2 <=? 1) = true
        /\ (0 <? (a + b) / 2) = (0 <? k1 + k2)%Z)%float.
Proof.
  intros Hn1 Hn2 Hk1 Hk2.
  assert (H1 : k1 = 0 \/ k1 = 1 \/ k1 = 2 \/ k1 = 3) by lia.
  assert (H2 : k2 = 0 \/ k2 = 1 \/ k2 = 2 \/ k2 = 3) by lia.
  destruct Hn1; destruct Hn2; subst n1 n2;
    destruct H1 as [?|[?|[?|?]]]; subst k1; try lia;
    destruct H2 as [?|[?|[?|?]]]; subst k2; try lia;
    (eexists _, _; split; [reflexivity|]; split; [reflexivity|];
     vm_compute; repeat split).
Qed.

Lemma indicator_sizes name ind :
  In (name, ind) spiritual_gift_indicators ->
  (Z.of_nat (List.length (indicator_skills ind)) = 2
   \/ Z.of_nat (List.length (indicator_skills ind)) = 3)
  /\ (Z.of_nat (List.length (indicator_passions ind)) = 2
      \/ Z.of_nat (List.length (indicator_passions ind)) = 3).
Proof.
  intro Hin.
  assert (Hall : forallb (fun entry =>
                            let s := Z.of_nat (List.length (indicator_skills (snd entry))) in
                            let p := Z.of_nat (List.length (indicator_passions (snd entry))) in
                            ((s =? 2) || (s =? 3)) && ((p =? 2) || (p =? 3)))
                         spiritual_gift_indicators = true) by (vm_compute; reflexivity).
  rewrite forallb_forall in Hall. specialize (Hall _ Hin). cbn [snd] in Hall.
  cbv zeta in Hall. apply andb_true_iff in Hall as [Hs Hp].
  apply orb_true_iff in Hs, Hp. rewrite !Z.eqb_eq in Hs, Hp. tauto.
Qed.

Lemma potential_from_spec skills passions indicators :
  (forall name ind, In (name, ind) indicators ->
                    In (name, ind) spiritual_gift_indicators) ->
  forall acc,
  exists new,
    potential_from indicators skills passions acc = Ok (acc ++ new)
    /\ Forall
         (fun g =>
            (exists ind,
               In (potential_name g, ind) indicators
               /\ potential_description g = indicator_description ind
               /\ potential_skills g = set_inter skills (indicator_skills ind)
               /\ potential_passions g = set_inter passions (indicator_passions ind))
            /\ (potential_score g =? potential_score g)%float = true
            /\ (0 <? potential_score g)%float = true
            /\ (potential_score g <=? 1)%float = true
            /\ (potential_skills g <> [] \/ potential_passions g <> [])
            /\ potential_strength g = _categorize_strength (potential_score g))
         new
    /\ (NoDup (keys indicators) -> NoDup (map potential_name new))
    /\ (forall name ind,
          In (name, ind) indicators ->
          set_inter skills (indicator_skills ind) <> []
          \/ set_inter passions (indicator_passions ind) <> [] ->
          In name (map potential_name new)).
Proof.
  induction indicators as [|[name ind] indicators IH]; intros Hsub acc.
  - exists []. cbn [potential_from]. rewrite app_nil_r.
    split; [reflexivity|]. split; [constructor|]. split; [constructor|].
    intros name ind [].
  - cbn [potential_from].
    destruct (indicator_sizes name ind (Hsub _ _ (or_introl eq_refl))) as [Hs Hp].
    pose proof (set_inter_length skills (indicator_skills ind)) as Hls.
    pose proof (set_inter_length passions (indicator_passions ind)) as Hlp.
    destruct (ratio_scores
                (Z.of_nat (List.length (set_inter skills (indicator_skills ind))))
                (Z.of_nat (List.length (indicator_skills ind)))
                (Z.of_nat (List.length (set_inter passions (indicator_passions ind))))
                (Z.of_nat (List.length (indicator_passions ind))) Hs Hp)
      as (a & b & -> & -> & Hnan & Hle & Hpos); [lia | lia |].
    cbn [bind].
    assert (Hsub' : forall name' ind', In (name', ind') indicators ->
                                       In (name', ind') spiritual_gift_indicators)
      by (intros; apply Hsub; now right).
    match goal with
    | |- context [potential_from indicators skills passions ?acc'] =>
        destruct (IH Hsub' acc') as (new & Hnew & Hall & Hnd & Hcomplete)
    end.
    assert (Hweak : Forall
         (fun g =>
            (exists ind0,
               In (potential_name g, ind0) ((name, ind) :: indicators)
               /\ potential_description g = indicator_description ind0
               /\ potential_skills g = set_inter skills (indicator_skills ind0)
               /\ potential_passions g = set_inter passions (indicator_passions ind0))
            /\ (potential_score g =? potential_score g)%float = true
            /\ (0 <? potential_score g)%float = true
            /\ (potential_score g <=? 1)%float = true
            /\ (potential_skills g <> [] \/ potential_passions g <> [])
            /\ potential_strength g = _categorize_strength (potential_score g))
         new).
    { eapply Forall_impl; [|exact Hall]. cbv beta.
      intros g ((ind0 & Hin & Hrest) & Hother).
      split; [exists ind0; split; [now right | exact Hrest] | exact Hother]. }
    assert (Hnames : forall g, In g new -> In (potential_name g) (keys indicators)).
    { intros g Hg. rewrite Forall_forall in Hall.
      destruct (Hall g Hg) as ((ind0 & Hin & _) & _).
      unfold keys. change (potential_name g) with (fst (potential_name g, ind0)).
      now apply in_map. }
    destruct (0 <? (a + b) / 2)%float eqn:Epos.
    + eexists (_ :: new). rewrite Hnew, <- app_assoc. cbn [app].
      split; [reflexivity|]. split.
      * constructor; [|exact Hweak].
        cbn [potential_name potential_score potential_description potential_skills
             potential_passions potential_strength].
        split; [exists ind; repeat split; now left|].
        repeat split; trivial.
        symmetry in Hpos. apply Z.ltb_lt in Hpos.
        destruct (set_inter skills (indicator_skills ind));
          [|left; discriminate].
        destruct (set_inter passions (indicator_passions ind));
          [cbn [List.length] in Hpos; lia | right; discriminate].
      * split.
        -- cbn [keys map fst]. intros Hkeys.
           inversion Hkeys as [|? ? Hfresh Hrest]; subst.
           cbn [map potential_name]. constructor; [|now apply Hnd].
           intro Hin. apply in_map_iff in Hin as (g & Hg & Hin).
           apply Hfresh. rewrite <- Hg. now apply Hnames.
        -- intros name' ind' [Heq|Hin] Hmatch.
           ++ injection Heq as <- <-. cbn [map potential_name]. now left.
           ++ cbn [map]. right. exact (Hcomplete _ _ Hin Hmatch).
    + exists new. split; [exact Hnew|]. split; [exact Hweak|]. split.
      * cbn [keys map fst]. intros Hkeys. inversion Hkeys; subst. now apply Hnd.
      * intros name' ind' [Heq|Hin] Hmatch; [|exact (Hcomplete _ _ Hin Hmatch)].
        injection Heq as <- <-. exfalso.
        symmetry in Hpos. apply Z.ltb_ge in Hpos.
        destruct Hmatch as [Hm|Hm]; apply Hm.
        -- destruct (set_inter skills (indicator_skills ind)); [reflexivity|].
           cbn [List.length] in Hpos. lia.
        -- destruct (set_inter passions (indicator_passions ind)); [reflexivity|].
           cbn [List.length] in Hpos. lia.
Qed.

Lemma sort_gifts_sort_desc gifts :
  sort_gifts gifts = sort_desc potential_score gifts.
Proof.
  unfold sort_gifts, sort_desc.
  assert (Hins : forall g l, insert_gift g l = insert_desc potential_score g l).
  { intros g l. induction l as [|h t IH]; [reflexivity|].
    cbn [insert_gift insert_desc]. now rewrite IH. }
  generalize (@nil PotentialGift).
  induction gifts as [|g gifts IH]; intro acc; [reflexivity|].
  cbn [fold_left]. now rewrite Hins, IH.
Qed.

Lemma indicator_names_nodup : NoDup (keys spiritual_gift_indicators).
Proof.
  assert (H : nodup string_dec (keys spiritual_gift_indicators)
              = keys spiritual_gift_indicators) by (vm_compute; reflexivity).
  rewrite <- H. apply NoDup_nodup.
Qed.

(** X16: [identify_potential_spiritual_gifts] always returns (no gift of
    the table has an empty indicator list, so no division by zero).  When
    both analyses are present the result holds exactly the gifts of the
    table that share a skill or a passion with the top categories, each
    once, sorted by score from the highest; a score lies in (0, 1], the
    matches are the common categories and the strength is the category of
    the score.  When an analysis is missing the result is empty. *)
Theorem potential_gifts_ranked :
  forall skills_analysis passions_analysis,
    exists gifts,
      identify_potential_spiritual_gifts skills_analysis passions_analysis = Ok gifts
      /\ descending (map potential_score gifts) = true
      /\ NoDup (map potential_name gifts)
      /\ (forall g, In g gifts ->
            exists ind,
              In (potential_name g, ind) spiritual_gift_indicators
              /\ potential_description g = indicator_description ind
              /\ (forall x, In x (potential_skills g)
                            <-> In x (top_of skills_analysis) /\ In x (indicator_skills ind))
              /\ (forall x, In x (potential_passions g)
                            <-> In x (top_of passions_analysis)
                                /\ In x (indicator_passions ind))
              /\ (0 <? potential_score g)%float = true
              /\ (potential_score g <=? 1)%float = true
              /\ (potential_skills g <> [] \/ potential_passions g <> [])
              /\ potential_strength g = _categorize_strength (potential_score g))
      /\ (forall name ind,
            In (name, ind) spiritual_gift_indicators ->
            In name (map potential_name gifts)
            <-> skills_analysis <> None /\ passions_analysis <> None
                /\ exists x, (In x (top_of skills_analysis) /\ In x (indicator_skills ind))
                             \/ (In x (top_of passions_analysis)
                                 /\ In x (indicator_passions ind))).
Proof.
  intros sa pa.
  assert (Hempty : (sa = None \/ pa = None) ->
                   exists gifts,
                     identify_potential_spiritual_gifts sa pa = Ok gifts /\ gifts = []).
  { intros [-> | ->]; [|destruct sa]; exists []; split; reflexivity. }
  destruct sa as [s|]; [destruct pa as [p|]|].
  2,3: (destruct Hempty as (gifts & -> & ->); [auto|]; exists [];
        split; [reflexivity|]; split; [reflexivity|]; split; [constructor|];
        split; [intros g []|]; intros name ind _; cbn [map In];
        split; [intros [] | intros (Hs & Hp & _); congruence]).
  clear Hempty. unfold identify_potential_spiritual_gifts.
  destruct (potential_from_spec (top_of (Some s)) (top_of (Some p))
              spiritual_gift_indicators (fun _ _ H => H) [])
    as (new & -> & Hall & Hnd & Hcomplete).
  cbn [app bind]. rewrite sort_gifts_sort_desc.
  destruct (SortFacts.sort_desc_spec potential_score new) as (Hin & _ & Hdesc).
  rewrite Forall_forall in Hall.
  exists (sort_desc potential_score new). split; [reflexivity|]. split.
  { apply Hdesc. apply Forall_forall. intros g Hg. now apply Hall. }
  split.
  { apply SortFacts.sort_desc_nodup, Hnd, indicator_names_nodup. }
  split.
  - intros g Hg. apply Hin in Hg.
    destruct (Hall g Hg) as ((ind & Hind & Hdescr & Hsk & Hpa) & _ & Hpos & Hle & Hne & Hst).
    exists ind. split; [exact Hind|]. split; [exact Hdescr|].
    split; [intro x; rewrite Hsk; apply set_inter_in|].
    split; [intro x; rewrite Hpa; apply set_inter_in|].
    repeat split; assumption.
  - intros name ind Hind. split.
    + intro Hname. split; [discriminate|]. split; [discriminate|].
      apply in_map_iff in Hname as (g & Hg & Hgin). apply Hin in Hgin.
      destruct (Hall g Hgin) as ((ind' & Hind' & _ & Hsk & Hpa) & _ & _ & _ & Hne & _).
      assert (ind' = ind) as ->.
      { rewrite Hg in Hind'.
        pose proof indicator_names_nodup as Hkeys.
        clear - Hind Hind' Hkeys. revert Hind Hind' Hkeys.
        generalize spiritual_gift_indicators as table.
        induction table as [|[k v] table IH]; intros H1 H2 Hk; [destruct H1|].
        cbn [keys map fst] in Hk. inversion Hk as [|? ? Hfresh Hrest]; subst.
        assert (Hkey : forall w, In (k, w) table -> In k (keys table)).
        { intros w Hw. unfold keys. change k with (fst (k, w)). now apply in_map. }
        destruct H1 as [E1|H1], H2 as [E2|H2].
        - congruence.
        - injection E1 as <- <-. exfalso. eauto.
        - injection E2 as <- <-. exfalso. eauto.
        - now apply IH. }
      destruct Hne as [Hne|Hne].
      * destruct (potential_skills g) as [|x rest] eqn:E; [congruence|].
        exists x. left. apply set_inter_in. rewrite <- Hsk. now left.
      * destruct (potential_passions g) as [|x rest] eqn:E; [congruence|].
        exists x. right. apply set_inter_in. rewrite <- Hpa. now left.
    + intros (_ & _ & x & Hx).
      assert (Hnew : In name (map potential_name new)).
      { apply (Hcomplete name ind Hind).
        destruct Hx as [Hx|Hx]; apply set_inter_in in Hx; [left|right];
          intro E; rewrite E in Hx; destruct Hx. }
      apply in_map_iff in Hnew as (g & Hg & Hgin).
      apply in_map_iff. exists g. split; [exact Hg|]. now apply Hin.
Qed.

End OverlapFacts.

(** ** The comprehensive assessment *)

Module AssessmentFacts.
Import Py Corpus SkillsPassionsAnalyzer SpiritualGiftsAssessment SortSpec
       AssessmentReport AssessmentSpec.

Lemma setitem_fresh {V : Type} (d : dict V) k v :
  ~ In k (keys d) -> setitem d k v = d ++ [(k, v)].
Proof.
  induction d as [|[k' v'] d IH]; intro Hfresh; [reflexivity|].
  cbn [setitem app]. cbn [keys map fst In] in Hfresh.
  destruct (String.eqb_spec k' k) as [E|_]; [tauto|].
  f_equal. apply IH. tauto.
Qed.

(** The loop of [calculate_gift_scores] appends one entry for each gift
    of a framework without repeated names, in the framework's order. *)
Lemma score_gifts_items sa pa user_responses framework :
  NoDup (keys framework) ->
  forall acc,
    (forall k, In k (keys framework) -> ~ In k (keys acc)) ->
    exists new,
      score_gifts framework sa pa user_responses acc = Ok (acc ++ new)
      /\ Forall2 (fun entry item =>
                    fst item = fst entry
                    /\ _calculate_individual_gift_score
                         (fst entry) (snd entry) sa pa user_responses
                       = Ok (snd item))
                 framework new.
Proof.
  induction framework as [|[name info] framework IH]; intros Hnd acc Hfresh.
  - exists []. cbn [score_gifts]. rewrite app_nil_r. split; [reflexivity|constructor].
  - cbn [score_gifts]. cbn [keys map fst] in Hnd, Hfresh.
    inversion Hnd as [|? ? Hname Hnd']; subst.
    destruct (ScoringFacts.individual_score_returns name info sa pa user_responses)
      as [data Hdata].
    rewrite Hdata. cbn [bind].
    rewrite setitem_fresh by (apply Hfresh; now left).
    destruct (IH Hnd' (acc ++ [(name, data)])) as (new & Hnew & Hall).
    { intros k Hk Hin. unfold keys in Hin. rewrite map_app in Hin.
      apply in_app_or in Hin as [Hin|Hin].
      - apply (Hfresh k); [now right | exact Hin].
      - cbn [map fst In] in Hin. destruct Hin as [<-|[]]. now apply Hname. }
    exists ((name, data) :: new). rewrite Hnew, <- app_assoc. cbn [app].
    split; [reflexivity|]. constructor; [|exact Hall].
    cbn [fst snd]. split; [reflexivity | exact Hdata].
Qed.

Lemma sub_score_values guard matches size :
  size = 2 \/ size = 3 \/ size = 4 ->
  0 <= matches <= size ->
  exists x, sub_score guard matches size = Ok x /\ In x component_values.
Proof.
  intros Hsize Hmatches.
  assert (Hm : matches = 0 \/ matches = 1 \/ matches = 2 \/ matches = 3 \/ matches = 4)
    by lia.
  destruct guard.
  - destruct Hsize as [->|[->| ->]];
      destruct Hm as [->|[->|[->|[->| ->]]]]; try lia;
      (eexists; split; [reflexivity|]; vm_compute; tauto).
  - exists 0%float. split; [reflexivity|]. vm_compute. tauto.
Qed.

Lemma total_range x1 x2 x3 x4 :
  In x1 component_values -> In x2 component_values ->
  In x3 component_values -> In x4 component_values ->
  let total := round1 (fold_left PrimFloat.add [x1; x2; x3; x4] 0%float) in
  in_range 0 total 100 = true /\ (total =? total)%float = true.
Proof.
  intros H1 H2 H3 H4.
  assert (Hall :
    forallb (fun x1 => forallb (fun x2 => forallb (fun x3 => forallb (fun x4 =>
      let total := round1 (fold_left PrimFloat.add [x1; x2; x3; x4] 0%float) in
      in_range 0 total 100 && (total =? total)%float)
      component_values) component_values) component_values) component_values
    = true) by (vm_compute; reflexivity).
  rewrite forallb_forall in Hall. specialize (Hall _ H1).
  rewrite forallb_forall in Hall. specialize (Hall _ H2).
  rewrite forallb_forall in Hall. specialize (Hall _ H3).
  rewrite forallb_forall in Hall. specialize (Hall _ H4).
  cbv zeta in *. now apply andb_true_iff in Hall.
Qed.

Lemma component_range x :
  In x component_values -> in_range 0 x 25 = true.
Proof.
  intro H.
  assert (Hall : forallb (fun x => in_range 0 x 25) component_values = true)
    by (vm_compute; reflexivity).
  rewrite forallb_forall in Hall. now apply Hall.
Qed.

Lemma inter_len_range a b : 0 <= inter_len a b <= Z.of_nat (List.length b).
Proof.
  unfold inter_len. pose proof (filter_length_le (fun x => mem x a) b). lia.
Qed.

(** The score of a gift of the framework. *)
Lemma individual_score_range gift_name gift_info sa pa user_responses data :
  In (gift_name, gift_info) gifts_framework ->
  _calculate_individual_gift_score gift_name gift_info sa pa user_responses = Ok data ->
  In (skills_alignment (score_components data)) component_values
  /\ In (passions_alignment (score_components data)) component_values
  /\ In (values_alignment (score_components data)) component_values
  /\ In (response_content (score_components data)) component_values
  /\ total_score data
     = round1 (fold_left PrimFloat.add
                 [skills_alignment (score_components data);
                  passions_alignment (score_components data);
                  values_alignment (score_components data);
                  response_content (score_components data)] 0%float)
  /\ strength data
     = _categorize_gift_strength
         (fold_left PrimFloat.add
                 [skills_alignment (score_components data);
                  passions_alignment (score_components data);
                  values_alignment (score_components data);
                  response_content (score_components data)] 0%float)
  /\ score_description data = description gift_info
  /\ score_typical_expressions data = typical_expressions gift_info.
Proof.
  intros Hin. destruct (ScoringFacts.framework_sizes _ _ Hin) as (Hs & Hp & Hv & Hm).
  cbv zeta in Hs, Hp, Hv, Hm.
  unfold _calculate_individual_gift_score.
  match goal with
  | |- context [bind (sub_score ?g ?k ?n) _] =>
      destruct (sub_score_values g k n) as (x1 & -> & Hx1);
        [lia | apply inter_len_range |]
  end.
  cbn [bind].
  match goal with
  | |- context [bind (sub_score ?g ?k ?n) _] =>
      destruct (sub_score_values g k n) as (x2 & -> & Hx2);
        [lia | apply inter_len_range |]
  end.
  cbn [bind].
  match goal with
  | |- context [bind (sub_score ?g ?k ?n) _] =>
      destruct (sub_score_values g k n) as (x3 & -> & Hx3);
        [lia | apply ScoringFacts.count_in_bounds |]
  end.
  cbn [bind].
  match goal with
  | |- context [bind (sub_score ?g ?k ?n) _] =>
      destruct (sub_score_values g k n) as (x4 & -> & Hx4);
        [lia | apply ScoringFacts.behavioral_matches_bounds |]
  end.
  cbn [bind]. intro E. injection E as <-.
  cbn [score_components skills_alignment passions_alignment values_alignment
       response_content total_score strength score_description
       score_typical_expressions].
  repeat split; assumption.
Qed.


Lemma forall2_keys {V W : Type} (R : string * V -> string * W -> Prop)
      (framework : dict V) (new : dict W) :
  Forall2 (fun entry item => fst item = fst entry /\ R entry item) framework new ->
  keys new = keys framework.
Proof.
  induction 1 as [|entry item framework new [Hfst _] _ IH]; [reflexivity|].
  cbn [keys map]. f_equal; [exact Hfst | exact IH].
Qed.

Lemma forall2_in {A B : Type} (R : A -> B -> Prop) l1 l2 y :
  Forall2 R l1 l2 -> In y l2 -> exists x, In x l1 /\ R x y.
Proof.
  induction 1 as [|x y' l1 l2 Hxy _ IH]; intros Hin; [destruct Hin|].
  destruct Hin as [<-|Hin].
  - exists x. split; [now left | exact Hxy].
  - destruct (IH Hin) as (x' & Hx' & HR). exists x'. split; [now right | exact HR].
Qed.

(** [calculate_gift_scores] holds one entry for each gift of the
    framework, in the framework's order. *)
Lemma gift_scores_items user_responses :
  exists scores,
    calculate_gift_scores user_responses = Ok scores
    /\ keys scores = keys gifts_framework
    /\ forall gift_name data,
         In (gift_name, data) scores ->
         exists gift_info,
           In (gift_name, gift_info) gifts_framework
           /\ _calculate_individual_gift_score
                gift_name gift_info
                (ScoringSpec.skills_analysis_of user_responses)
                (ScoringSpec.passions_analysis_of user_responses) user_responses
              = Ok data.
Proof.
  unfold calculate_gift_scores. cbv zeta.
  destruct (score_gifts_items
              (ScoringSpec.skills_analysis_of user_responses)
              (ScoringSpec.passions_analysis_of user_responses) user_responses
              gifts_framework ScoringFacts.gifts_framework_nodup [])
    as (new & Hnew & Hall); [intros k _ []|].
  exists new. split; [exact Hnew|]. split.
  - eapply forall2_keys. exact Hall.
  - intros gift_name data Hin.
    destruct (forall2_in _ _ _ _ Hall Hin) as ([name info] & Hentry & Hname & Hscore).
    cbn [fst snd] in Hname, Hscore. subst name.
    exists info. split; assumption.
Qed.

Lemma gift_scores_in_range_aux user_responses :
  exists scores,
    calculate_gift_scores user_responses = Ok scores
    /\ keys scores = keys gifts_framework
    /\ List.length scores = 8%nat
    /\ (forall gift_name data,
          In (gift_name, data) scores ->
          (score_of (gift_name, data) =? score_of (gift_name, data))%float = true)
    /\ (forall item, In item scores ->
          exists gift_info,
            In (fst item, gift_info) gifts_framework
            /\ score_typical_expressions (snd item) = typical_expressions gift_info).
Proof.
  destruct (gift_scores_items user_responses) as (scores & Hscores & Hkeys & Hitems).
  exists scores. split; [exact Hscores|]. split; [exact Hkeys|]. split.
  { transitivity (List.length (keys scores)); [unfold keys; now rewrite length_map|].
    rewrite Hkeys. reflexivity. }
  split.
  - intros gift_name data Hin.
    destruct (Hitems _ _ Hin) as (gift_info & Hinfo & Hdata).
    destruct (individual_score_range _ _ _ _ _ _ Hinfo Hdata)
      as (H1 & H2 & H3 & H4 & Htotal & _).
    unfold score_of. cbn [snd]. rewrite Htotal. now apply total_range.
  - intros [gift_name data] Hin. cbn [fst snd].
    destruct (Hitems _ _ Hin) as (gift_info & Hinfo & Hdata).
    destruct (individual_score_range _ _ _ _ _ _ Hinfo Hdata)
      as (_ & _ & _ & _ & _ & _ & _ & Hexpr).
    exists gift_info. split; assumption.
Qed.

(** X19: over every corpus [calculate_gift_scores] returns one entry for
    each of the eight gifts of the framework, in the framework's order.
    Each of the four components of an entry is one of seven values between
    0 and 25 (a count of matches over two, three or four indicators, times
    25), and the total score lies between 0 and 100. *)
Theorem gift_scores_in_range :
  forall user_responses,
    exists scores,
      calculate_gift_scores user_responses = Ok scores
      /\ keys scores = keys gifts_framework
      /\ List.length scores = 8%nat
      /\ forall gift_name data,
           In (gift_name, data) scores ->
           Forall (fun component =>
                     In component component_values
                     /\ in_range 0 component 25 = true)
                  [skills_alignment (score_components data);
                   passions_alignment (score_components data);
                   values_alignment (score_components data);
                   response_content (score_components data)]
           /\ in_range 0 (total_score data) 100 = true
           /\ exists gift_info,
                get gifts_framework gift_name = Some gift_info
                /\ score_description data = description gift_info
                /\ score_key_indicators data = key_indicators gift_info
                /\ score_typical_expressions data = typical_expressions gift_info.
Proof.
  intro user_responses.
  destruct (gift_scores_items user_responses) as (scores & Hscores & Hkeys & Hitems).
  exists scores. split; [exact Hscores|]. split; [exact Hkeys|]. split.
  { transitivity (List.length (keys scores)); [unfold keys; now rewrite length_map|].
    rewrite Hkeys. reflexivity. }
  intros gift_name data Hin.
  destruct (Hitems _ _ Hin) as (gift_info & Hinfo & Hdata).
  destruct (individual_score_range _ _ _ _ _ _ Hinfo Hdata)
    as (H1 & H2 & H3 & H4 & Htotal & _ & Hdescr & Hexpr).
  split; [|split].
  - repeat (constructor; [split; [assumption | now apply component_range]|]).
    constructor.
  - rewrite Htotal. now apply total_range.
  - exists gift_info. split; [|split; [exact Hdescr | split; [|exact Hexpr]]].
    + apply in_get_nodup; [apply ScoringFacts.gifts_framework_nodup | exact Hinfo].
    + revert Hdata. unfold _calculate_individual_gift_score.
      repeat match goal with
             | |- context [bind ?c _] => destruct c; cbn [bind]; [|discriminate]
             end.
      intro E. injection E as <-. reflexivity.
Qed.


Lemma descending_app l1 l2 :
  descending (l1 ++ l2) = true ->
  descending l1 = true
  /\ descending l2 = true
  /\ forall x y, In x l1 -> In y l2 -> (y <=? x)%float = true.
Proof.
  induction l1 as [|a l1 IH]; intro H.
  - split; [reflexivity|]. split; [exact H|]. intros x y [].
  - cbn [app descending] in H. apply andb_true_iff in H as [Ha Hrest].
    destruct (IH Hrest) as (H1 & H2 & Hcross).
    rewrite forallb_app in Ha. apply andb_true_iff in Ha as [Ha1 Ha2].
    split; [|split; [exact H2|]].
    + cbn [descending]. now rewrite Ha1, H1.
    + intros x y [<-|Hx] Hy; [|now apply Hcross].
      rewrite forallb_forall in Ha2. now apply Ha2.
Qed.

Lemma descending_filter {A : Type} (key : A -> float) (keep : A -> bool) l :
  descending (map key l) = true ->
  descending (map key (filter keep l)) = true.
Proof.
  induction l as [|a l IH]; intro H; [reflexivity|].
  cbn [map descending] in H. apply andb_true_iff in H as [Ha Hrest].
  cbn [filter]. destruct (keep a); [|now apply IH].
  cbn [map descending]. rewrite (IH Hrest), andb_true_r.
  rewrite forallb_forall in Ha |- *. intros y Hy. apply Ha.
  apply in_map_iff in Hy as (x & <- & Hx). apply in_map.
  now apply filter_In in Hx.
Qed.

Lemma filter_map_comm {A B : Type} (f : A -> B) (keep : B -> bool) l :
  filter keep (map f l) = map f (filter (fun x => keep (f x)) l).
Proof.
  induction l as [|a l IH]; [reflexivity|].
  cbn [map filter]. destruct (keep (f a)); cbn [map]; now rewrite IH.
Qed.

(** The sorted scores: the three top gifts and the others. *)
Lemma sorted_scores user_responses :
  exists scores top others,
    calculate_gift_scores user_responses = Ok scores
    /\ sort_desc score_of scores = top ++ others
    /\ firstn 3 (sort_desc score_of scores) = top
    /\ List.length top = 3%nat
    /\ (forall item, In item scores <-> In item top \/ In item others)
    /\ NoDup (map fst (top ++ others))
    /\ descending (map score_of (top ++ others)) = true
    /\ (forall item, In item scores ->
          exists gift_info,
            In (fst item, gift_info) gifts_framework
            /\ score_typical_expressions (snd item) = typical_expressions gift_info).
Proof.
  destruct (gift_scores_in_range_aux user_responses)
    as (scores & Hscores & Hkeys & Hlen & Hrange & Hexpr).
  destruct (SortFacts.sort_desc_spec score_of scores) as (Hin & Hsorted_len & Hdesc).
  exists scores, (firstn 3 (sort_desc score_of scores)),
    (skipn 3 (sort_desc score_of scores)).
  split; [exact Hscores|]. rewrite firstn_skipn.
  split; [reflexivity|]. split; [reflexivity|]. split.
  { rewrite length_firstn, Hsorted_len, Hlen. reflexivity. }
  split.
  { intro item. rewrite <- Hin, <- in_app_iff, firstn_skipn. tauto. }
  split.
  { apply SortFacts.sort_desc_nodup. fold (keys scores). rewrite Hkeys.
    apply ScoringFacts.gifts_framework_nodup. }
  split; [|exact Hexpr].
  apply Hdesc. apply Forall_forall. intros [name data] Hitem. now apply Hrange.
Qed.


Lemma framework_expressions gift_name gift_info :
  In (gift_name, gift_info) gifts_framework ->
  index (typical_expressions gift_info) 0 = Ok (first_expression gift_name).
Proof.
  unfold gifts_framework at 1. cbn [In].
  intros [E|[E|[E|[E|[E|[E|[E|[E|[]]]]]]]]]; inversion E; subst;
    vm_compute; reflexivity.
Qed.

Lemma gift_recommendations_spec top :
  (forall item, In item top ->
     exists gift_info,
       In (fst item, gift_info) gifts_framework
       /\ score_typical_expressions (snd item) = typical_expressions gift_info) ->
  forall acc,
    gift_recommendations top acc
    = Ok (acc ++ map (fun item => gift_recommendation (fst item))
                     (filter (fun item => is_dominant (strength (snd item))) top)).
Proof.
  induction top as [|[gift_name gift_data] top IH]; intros Hall acc.
  - cbn [gift_recommendations filter map]. now rewrite app_nil_r.
  - cbn [gift_recommendations filter fst snd].
    assert (Htop : forall item, In item top ->
              exists gift_info,
                In (fst item, gift_info) gifts_framework
                /\ score_typical_expressions (snd item) = typical_expressions gift_info)
      by (intros item Hitem; apply Hall; now right).
    destruct (is_dominant (strength gift_data)); [|now apply IH].
    destruct (Hall _ (or_introl eq_refl)) as (gift_info & Hinfo & Hexpr).
    cbn [fst snd] in Hinfo, Hexpr.
    rewrite Hexpr, (framework_expressions _ _ Hinfo). cbn [bind].
    rewrite (IH Htop). rewrite <- app_assoc. reflexivity.
Qed.

Lemma is_dominant_iff strength :
  is_dominant strength = true <-> strength = "Dominant" \/ strength = "Strong".
Proof.
  unfold is_dominant, mem. cbn [existsb]. rewrite !orb_true_iff, !String.eqb_eq.
  intuition discriminate.
Qed.

(** X17: [generate_comprehensive_assessment] returns on every corpus.  Its
    top gifts are always three gifts of the score table with different
    names, in descending order of score, each with the score, strength and
    description of its entry, and no other gift scores above one of them.
    Its dominant gifts are exactly the entries whose strength is Dominant
    or Strong, in descending order of score, and the readiness score is
    always a float: the branch for an empty list of top scores is never
    taken. *)
Theorem assessment_ranks_gifts :
  forall user_responses,
    exists assessment,
      generate_comprehensive_assessment user_responses = Ok assessment
      /\ calculate_gift_scores user_responses = Ok (gift_scores assessment)
      /\ List.length (top_gifts assessment) = 3%nat
      /\ NoDup (map top_name (top_gifts assessment))
      /\ descending (map top_score (top_gifts assessment)) = true
      /\ (forall gift, In gift (top_gifts assessment) ->
            exists data,
              In (top_name gift, data) (gift_scores assessment)
              /\ top_score gift = total_score data
              /\ top_strength gift = strength data
              /\ top_description gift = score_description data)
      /\ (forall gift_name data,
            In (gift_name, data) (gift_scores assessment) ->
            In gift_name (map top_name (top_gifts assessment))
            \/ forall gift, In gift (top_gifts assessment) ->
                            (total_score data <=? top_score gift)%float = true)
      /\ (forall gift,
            In gift (dominant_gifts assessment)
            <-> exists data,
                  In (dominant_name gift, data) (gift_scores assessment)
                  /\ dominant_score gift = total_score data
                  /\ dominant_strength gift = strength data
                  /\ (strength data = "Dominant" \/ strength data = "Strong"))
      /\ descending (map dominant_score (dominant_gifts assessment)) = true
      /\ exists readiness, readiness_score assessment = Float readiness.
Proof.
  intro user_responses.
  destruct (sorted_scores user_responses)
    as (scores & top & others & Hscores & Hsorted & Htop & Hlen & Hin & Hnd & Hdesc
        & Hexpr).
  unfold generate_comprehensive_assessment. rewrite Hscores. cbn [bind]. cbv zeta.
  rewrite Htop, Hsorted. unfold _generate_recommendations.
  rewrite gift_recommendations_spec
    by (intros item Hitem; apply Hexpr, Hin; now left).
  cbn [bind]. eexists. split; [reflexivity|].
  cbn [gift_scores top_gifts dominant_gifts readiness_score].
  rewrite map_app in Hnd, Hdesc.
  apply NoDup_app_remove_r in Hnd as Hnd_top.
  destruct (descending_app _ _ Hdesc) as (Hdesc_top & _ & Hcross).
  split; [reflexivity|]. split; [now rewrite length_map|]. split.
  { rewrite map_map. cbn [top_name]. exact Hnd_top. }
  split.
  { rewrite map_map. cbn [top_score]. exact Hdesc_top. }
  split.
  { intros gift Hgift. apply in_map_iff in Hgift as ([name data] & <- & Hitem).
    cbn [top_name top_score top_strength top_description fst snd].
    exists data. split; [apply Hin; now left|]. repeat split. }
  split.
  { intros gift_name data Hitem. apply Hin in Hitem as [Hitem|Hitem].
    - left. rewrite map_map. cbn [top_name].
      change gift_name with (fst (gift_name, data)). now apply in_map.
    - right. intros gift Hgift.
      apply in_map_iff in Hgift as ([name data'] & <- & Hitem').
      cbn [top_score snd]. apply Hcross.
      + change (total_score data') with (score_of (name, data')). now apply in_map.
      + change (total_score data) with (score_of (gift_name, data)). now apply in_map. }
  split.
  { intro gift. rewrite in_map_iff. split.
    - intros ([name data] & <- & Hitem). apply filter_In in Hitem as [Hitem Hdom].
      cbn [dominant_name dominant_score dominant_strength fst snd] in *.
      exists data. split; [apply Hin; now apply in_app_or|].
      split; [reflexivity|]. split; [reflexivity|]. now apply is_dominant_iff.
    - intros (data & Hitem & Hscore & Hstrength & Hdom).
      exists (dominant_name gift, data). split.
      + destruct gift as [name score strength]. cbn in *. now subst.
      + apply filter_In. split; [apply in_or_app; now apply Hin|].
        cbn [snd]. now apply is_dominant_iff. }
  split.
  { rewrite map_map. cbn [dominant_score].
    apply (descending_filter score_of). rewrite map_app. exact Hdesc. }
  destruct top as [|item top]; [discriminate Hlen|].
  cbn [map readiness_of round_number]. eexists. reflexivity.
Qed.

(** X18: the advice of an assessment.  The next steps are always five,
    the first two naming the first of the top gifts.  The recommendations
    open with the clarity sentence followed by the awareness sentence, or
    with the awareness sentence alone, or with the exploring sentence
    alone; then comes one sentence for each top gift whose strength is
    Dominant or Strong, in rank order, quoting the first typical
    expression of that gift in lower case.  So there are between one and
    five recommendations. *)
Theorem assessment_advice :
  forall user_responses,
    exists assessment first,
      generate_comprehensive_assessment user_responses = Ok assessment
      /\ hd_error (top_gifts assessment) = Some first
      /\ next_steps assessment
         = [("Find a mentor who demonstrates the " ++ top_name first
             ++ " gift well")%string;
            ("Look for opportunities to practice " ++ top_name first
             ++ " in low-risk environments")%string;
            "Seek feedback from trusted friends about how they see these gifts in you";
            "Keep a journal of when you feel most energized and effective";
            "Continue learning about spiritual gifts through books, assessments, or courses"]
      /\ (exists opening,
            In opening [[clarity_recommendation; awareness_recommendation];
                        [awareness_recommendation];
                        [exploring_recommendation]]
            /\ recommendations assessment
               = opening
                 ++ map (fun gift => gift_recommendation (top_name gift))
                        (filter (fun gift => is_dominant (top_strength gift))
                                (top_gifts assessment)))
      /\ (1 <= List.length (recommendations assessment) <= 5)%nat.
Proof.
  intro user_responses.
  destruct (sorted_scores user_responses)
    as (scores & top & others & Hscores & Hsorted & Htop & Hlen & Hin & _ & _ & Hexpr).
  unfold generate_comprehensive_assessment. rewrite Hscores. cbn [bind]. cbv zeta.
  rewrite Htop. unfold _generate_recommendations.
  rewrite gift_recommendations_spec
    by (intros item Hitem; apply Hexpr, Hin; now left).
  cbn [bind].
  destruct top as [|[name data] top]; [discriminate Hlen|].
  eexists. exists {| top_name := name; top_score := total_score data;
                     top_strength := strength data;
                     top_description := score_description data |}.
  split; [reflexivity|].
  cbn [top_gifts next_steps recommendations].
  split; [reflexivity|]. split; [reflexivity|].
  set (items := (name, data) :: top) in *.
  set (readiness := readiness_of (map score_of items)).
  assert (Hopening :
    exists opening,
      In opening [[clarity_recommendation; awareness_recommendation];
                  [awareness_recommendation];
                  [exploring_recommendation]]
      /\ (if at_least readiness 60 then [clarity_recommendation] else [])
         ++ [if at_least readiness 40
             then awareness_recommendation else exploring_recommendation]
         = opening
      /\ (1 <= List.length opening <= 2)%nat).
  { destruct readiness as [n|r]; cbn [at_least].
    - destruct (Z.leb_spec 60 n) as [H60|H60];
        destruct (Z.leb_spec 40 n) as [H40|H40]; try lia;
        (eexists; split; [|split; [reflexivity | cbn [List.length app]; lia]]);
        cbn [app In]; tauto.
    - destruct (int_to_float 60 <=? r)%float eqn:E60;
        destruct (int_to_float 40 <=? r)%float eqn:E40.
      2: { exfalso.
           assert (H : (int_to_float 40 <=? int_to_float 60)%float = true)
             by (vm_compute; reflexivity).
           pose proof (FloatOrderFacts.leb_trans (int_to_float 40) (int_to_float 60) r H E60).
           congruence. }
      all: (eexists; split; [|split; [reflexivity | cbn [List.length app]; lia]]);
        cbn [app In]; tauto. }
  destruct Hopening as (opening & Hopening & -> & Hopening_len).
  rewrite filter_map_comm, map_map. cbn [top_strength top_name].
  split.
  - exists opening. split; [exact Hopening | reflexivity].
  - rewrite length_app, length_map.
    pose proof (filter_length_le (fun item => is_dominant (strength (snd item))) items).
    change (List.length items) with (List.length ((name, data) :: top)) in *.
    lia.
Qed.


Lemma summarize_from user_responses :
  NoDup (keys user_responses) ->
  forall acc,
    (forall k, In k (keys user_responses) -> ~ In k (keys acc)) ->
    fold_left (fun summary item =>
                 match snd item with
                 | [] => summary
                 | first :: _ =>
                     setitem summary (fst item)
                             {| response_count := Z.of_nat (List.length (snd item));
                                sample_response := get_response first |}
                 end)
              user_responses acc
    = acc ++ flat_map (fun item =>
                         match snd item with
                         | [] => []
                         | first :: _ =>
                             [(fst item,
                               {| response_count := Z.of_nat (List.length (snd item));
                                  sample_response := get_response first |})]
                         end)
                      user_responses.
Proof.
  induction user_responses as [|[stage responses] user_responses IH];
    intros Hnd acc Hfresh.
  - cbn [fold_left flat_map]. now rewrite app_nil_r.
  - cbn [keys map fst] in Hnd, Hfresh. inversion Hnd as [|? ? Hstage Hnd']; subst.
    cbn [fold_left flat_map fst snd].
    destruct responses as [|first rest].
    + cbn [app]. apply IH; [exact Hnd'|]. intros k Hk. apply Hfresh. now right.
    + rewrite setitem_fresh by (apply Hfresh; now left).
      rewrite IH; [now rewrite <- app_assoc | exact Hnd' |].
      intros k Hk Hin. unfold keys in Hin. rewrite map_app in Hin.
      apply in_app_or in Hin as [Hin|Hin].
      * apply (Hfresh k); [now right | exact Hin].
      * cbn [map fst In] in Hin. destruct Hin as [<-|[]]. now apply Hstage.
Qed.

(** X20: [_summarize_user_responses], on a corpus whose stage names are
    all different (as the keys of a dictionary are): the summary lists the
    stages that have at least one answer, in the order of the corpus, and
    leaves the stages without an answer out; the entry of a stage holds
    the number of its answers and the text of the first one, the empty
    string when that answer has no text. *)
Theorem summary_skips_empty_stages :
  forall user_responses,
    NoDup (keys user_responses) ->
    keys (_summarize_user_responses user_responses)
    = keys (filter (fun item => nonempty (snd item)) user_responses)
    /\ forall stage,
         get (_summarize_user_responses user_responses) stage
         = match get user_responses stage with
           | Some (first :: rest) =>
               Some {| response_count := 1 + Z.of_nat (List.length rest);
                       sample_response := get_response first |}
           | _ => None
           end.
Proof.
  intros user_responses Hnd. unfold _summarize_user_responses.
  rewrite (summarize_from user_responses Hnd []) by (intros k _ []).
  cbn [app].
  set (entry := fun item : string * list ResponseObj =>
                  match snd item with
                  | [] => []
                  | first :: _ =>
                      [(fst item,
                        {| response_count := Z.of_nat (List.length (snd item));
                           sample_response := get_response first |})]
                  end).
  assert (Hkeys : forall corpus stage,
             In stage (keys (flat_map entry corpus)) -> In stage (keys corpus)).
  { induction corpus as [|[name [|first rest]] corpus IH]; intros stage Hin.
    - destruct Hin.
    - right. now apply IH.
    - cbn [flat_map entry snd fst app keys map In] in Hin |- *.
      destruct Hin as [Hin|Hin]; [now left | right; now apply IH]. }
  split.
  - clear Hnd Hkeys.
    induction user_responses as [|[stage [|first rest]] user_responses IH];
      [reflexivity | exact IH |].
    cbn [flat_map entry filter nonempty snd fst app keys map]. f_equal. exact IH.
  - intro stage.
    induction user_responses as [|[name [|first rest]] user_responses IH];
      [reflexivity | |];
      cbn [keys map fst] in Hnd; inversion Hnd as [|? ? Hname Hnd']; subst.
    + cbn [flat_map entry snd app get].
      destruct (String.eqb_spec name stage) as [->|Hne]; [|now apply IH].
      apply get_none_not_key. intro Hin. apply Hname. now apply Hkeys.
    + cbn [flat_map entry snd fst app get].
      destruct (String.eqb name stage); [|now apply IH].
      do 2 f_equal. cbn [List.length]. lia.
Qed.

Lemma summary_skips_empty_stages_witness :
  let user_responses :=
    [("introduction", answers ["I am Sarah"; "I live in Leeds"]);
     ("skills_assessment", []);
     ("passion_exploration", [{| response := None |}])] in
  NoDup (keys user_responses)
  /\ keys (_summarize_user_responses user_responses)
     = keys (filter (fun item => nonempty (snd item)) user_responses)
  /\ forall stage,
       get (_summarize_user_responses user_responses) stage
       = match get user_responses stage with
         | Some (first :: rest) =>
             Some {| response_count := 1 + Z.of_nat (List.length rest);
                     sample_response := get_response first |}
         | _ => None
         end.
Proof.
  cbv zeta.
  assert (Hnd : NoDup (keys [("introduction", answers ["I am Sarah"; "I live in Leeds"]);
                             ("skills_assessment", []);
                             ("passion_exploration", [{| response := None |}])])).
  { cbn [keys map fst].
    repeat (constructor; [cbn [In]; intuition discriminate|]). constructor. }
  split; [exact Hnd|].
  exact (summary_skips_empty_stages _ Hnd).
Defined.

End AssessmentFacts.

(** ** The contextual guidance *)

Module GuidanceFacts.
Import Py EnhancedContextManager ContextSpec.














End GuidanceFacts.

(** ** The loop of the plain discovery bot *)

Module PlainJourneyFacts.
Import Py DiscoverySession DiscoverySessionStore SessionSpec DiscoveryBot
       PlainJourneySpec.

Lemma iteration_answer self line :
  is_answer line = true ->
  iteration self line = answer self (strip (typed line)) line.
Proof.
  unfold is_answer, iteration. cbv zeta.
  set (user_input := strip (typed line)).
  unfold mem. cbn [existsb]. rewrite andb_true_iff, !negb_true_iff, !orb_false_iff.
  intros ((Hquit & Hexit & Hbye & Hsave & Hprogress & Hskip & _) & Hblank).
  now rewrite Hquit, Hexit, Hbye, Hsave, Hprogress, Hskip, Hblank.
Qed.

Lemma loop_answers lines :
  forallb is_answer lines = true ->
  forall self, loop self lines = answers_loop self (map read lines).
Proof.
  induction lines as [|line lines IH]; intros Hall self; [reflexivity|].
  cbn [forallb] in Hall. apply andb_true_iff in Hall as [Hline Hall].
  cbn [loop answers_loop map read]. rewrite (iteration_answer _ _ Hline).
  destruct (answer self (strip (typed line)) line) as [[after running]|e];
    [|reflexivity].
  cbn [bind fst snd]. destruct running; [now apply IH | reflexivity].
Qed.

Lemma journey_up_to_total now_id answers :
  (List.length answers < total_questions)%nat ->
  (first_question <- get_next_question (DiscoverySession.__init__ now_id) ;;
   answers_loop (with_session (__init__ now_id) (snd first_question)) answers)
  = Ok ({| discovery_session := session_after now_id answers;
           session_file := None |}, true).
Proof.
  intro Hlen.
  do 21 (destruct answers as [|[? ?] answers]; [vm_compute; reflexivity|]).
  exfalso. change total_questions with 21%nat in Hlen. cbn [List.length] in Hlen. lia.
Qed.


Lemma question_after now_id answers :
  (List.length answers < total_questions)%nat ->
  get_next_question (session_after now_id answers)
  = Ok (Some (nth (List.length answers) all_questions ""),
        session_after now_id answers).
Proof.
  intro Hlen.
  do 21 (destruct answers as [|[? ?] answers]; [vm_compute; reflexivity|]).
  exfalso. change total_questions with 21%nat in Hlen. cbn [List.length] in Hlen. lia.
Qed.

Lemma journey_at_total now_id answers user_input line :
  List.length (answers ++ [(user_input, line)]) = total_questions ->
  exists session_data,
    save_session (session_after now_id (answers ++ [(user_input, line)]))
                 (saved_at line)
    = Ok session_data
    /\ (first_question <- get_next_question (DiscoverySession.__init__ now_id) ;;
        answers_loop (with_session (__init__ now_id) (snd first_question))
                     (answers ++ [(user_input, line)]))
       = Ok ({| discovery_session :=
                  session_after now_id (answers ++ [(user_input, line)]);
                session_file := Some session_data |}, false).
Proof.
  intro Hlen. rewrite length_app in Hlen. cbn [List.length] in Hlen.
  change total_questions with 21%nat in Hlen.
  do 20 (destruct answers as [|[? ?] answers]; [cbn [List.length] in Hlen; lia|]).
  destruct answers as [|? answers]; [|cbn [List.length] in Hlen; lia].
  cbn [app]. eexists. split; vm_compute; reflexivity.
Qed.

Lemma answers_loop_ended self answers ended more :
  answers_loop self answers = Ok (ended, false) ->
  answers_loop self (answers ++ more) = Ok (ended, false).
Proof.
  revert self. induction answers as [|[user_input line] answers IH]; intros self H.
  - discriminate H.
  - cbn [app answers_loop] in H |- *.
    destruct (answer self user_input line) as [[after running]|e]; [|discriminate H].
    cbn [bind fst snd] in H |- *. destruct running; [now apply IH | exact H].
Qed.


Lemma firstn_snoc {A : Type} (l : list A) n x :
  nth_error l n = Some x -> firstn (S n) l = firstn n l ++ [x].
Proof.
  revert l. induction n as [|n IH]; intros [|a l] H; try discriminate H.
  - cbn in H. injection H as <-. reflexivity.
  - cbn [nth_error] in H. cbn [firstn app]. f_equal. now apply IH.
Qed.

(** X22: the plain discovery journey when every line typed is an answer
    (not blank, not a command).  It needs exactly 21 answers, one for each
    question of the six stages.  Before that the loop waits for the next
    line, nothing has been saved, every answer is filed under the stage of
    the question it answers with its number in that stage, the stages
    fully answered are marked completed, and the question to ask is the
    next one of the journey.  With the 21st answer all six stages are
    completed, the session is saved once with all the answers, and the
    loop ends: later lines are not read. *)
Theorem plain_journey_closed_form :
  forall now_id lines,
    forallb is_answer lines = true ->
    let answers := map read (firstn total_questions lines) in
    exists file,
      start_discovery_journey (__init__ now_id) lines
      = Ok ({| discovery_session := session_after now_id answers;
               session_file := file |},
            (List.length lines <? total_questions)%nat)
      /\ total_questions = 21%nat
      /\ match nth_error lines (total_questions - 1) with
         | None =>
             file = None
             /\ get_next_question (session_after now_id answers)
                = Ok (Some (nth (List.length lines) all_questions ""),
                      session_after now_id answers)
         | Some last =>
             exists session_data,
               save_session (session_after now_id answers) (saved_at last)
               = Ok session_data
               /\ file = Some session_data
               /\ terminal (session_after now_id answers)
         end.
Proof.
  intros now_id lines Hall answers. subst answers.
  unfold start_discovery_journey.
  assert (Hloop : forall self, loop self lines = answers_loop self (map read lines))
    by (now apply loop_answers).
  change (discovery_session (__init__ now_id)) with (DiscoverySession.__init__ now_id).
  destruct (get_next_question (DiscoverySession.__init__ now_id))
    as [first_question|e] eqn:Efirst; [|vm_compute in Efirst; discriminate Efirst].
  cbn [bind]. rewrite Hloop.
  change total_questions with 21%nat. change (21 - 1)%nat with 20%nat.
  destruct (nth_error lines 20) as [last|] eqn:Elast.
  - assert (Hlen : (20 < List.length lines)%nat)
      by (apply nth_error_Some; congruence).
    rewrite (firstn_snoc _ _ _ Elast), map_app. cbn [map read].
    destruct (journey_at_total now_id (map read (firstn 20 lines))
                               (strip (typed last)) last)
      as (session_data & Hsave & Hrun).
    { rewrite length_app, length_map, length_firstn. cbn [List.length].
      change total_questions with 21%nat. lia. }
    rewrite Efirst in Hrun. cbn [bind] in Hrun.
    exists (Some session_data). split; [|split; [reflexivity|]].
    + rewrite <- (firstn_skipn 21 lines) at 1.
      rewrite map_app, (firstn_snoc _ _ _ Elast), map_app. cbn [map read].
      rewrite (answers_loop_ended _ _ _ _ Hrun).
      destruct (Nat.ltb_spec (List.length lines) 21); [lia | reflexivity].
    + exists session_data. split; [exact Hsave|]. split; [reflexivity|].
      unfold terminal, session_after. cbn [current_stage].
      match goal with
      | |- context [List.length (?a ++ ?b)] =>
          replace (List.length (a ++ b)) with 21%nat
            by (rewrite length_app, length_map, length_firstn; cbn [List.length]; lia)
      end.
      vm_compute. intro H. discriminate H.
  - assert (Hlen : (List.length lines <= 20)%nat) by (now apply nth_error_None).
    rewrite firstn_all2 by lia.
    pose proof (journey_up_to_total now_id (map read lines)) as Hrun.
    rewrite Efirst in Hrun. cbn [bind] in Hrun.
    exists None. split; [|split; [reflexivity|]].
    + rewrite Hrun by (rewrite length_map; change total_questions with 21%nat; lia).
      destruct (Nat.ltb_spec (List.length lines) 21); [reflexivity | lia].
    + split; [reflexivity|].
      rewrite question_after by (rewrite length_map; change total_questions with 21%nat; lia).
      now rewrite length_map.
Qed.

Lemma plain_journey_closed_form_witness :
  let lines := [{| typed := "  I am Sarah "; answered_at := "2024-01-01T12:00:00";
                   saved_at := "2024-01-01T12:00:01" |};
                {| typed := "Quit smoking brought me joy";
                   answered_at := "2024-01-01T12:01:00";
                   saved_at := "2024-01-01T12:01:01" |}] in
  let answers := map read (firstn total_questions lines) in
  forallb is_answer lines = true
  /\ exists file,
       start_discovery_journey (__init__ "20240101_120000") lines
       = Ok ({| discovery_session := session_after "20240101_120000" answers;
                session_file := file |},
             (List.length lines <? total_questions)%nat)
       /\ total_questions = 21%nat
       /\ match nth_error lines (total_questions - 1) with
          | None =>
              file = None
              /\ get_next_question (session_after "20240101_120000" answers)
                 = Ok (Some (nth (List.length lines) all_questions ""),
                       session_after "20240101_120000" answers)
          | Some last =>
              exists session_data,
                save_session (session_after "20240101_120000" answers) (saved_at last)
                = Ok session_data
                /\ file = Some session_data
                /\ terminal (session_after "20240101_120000" answers)
          end.
Proof.
  cbv zeta. split; [vm_compute; reflexivity|].
  apply (plain_journey_closed_form "20240101_120000"). vm_compute. reflexivity.
Defined.


Lemma save_returns self created :
  consistent (discovery_session self) = true ->
  exists session_data,
    save_session (discovery_session self) created = Ok session_data
    /\ save self created
       = Ok {| discovery_session := discovery_session self;
               session_file := Some session_data |}.
Proof.
  intro Hc. apply SessionInvariantFacts.consistent_wf in Hc.
  destruct (StoreFacts.get_current_stage_wf _ Hc) as (name & Hname).
  unfold save, save_session, get_session_summary. rewrite Hname. cbn [bind].
  eexists. split; reflexivity.
Qed.

Lemma skip_returns s :
  consistent s = true ->
  exists s1 q s2,
    _advance_to_next_stage s = Ok s1
    /\ get_next_question s1 = Ok (q, s2)
    /\ consistent s2 = true
    /\ user_responses s2 = user_responses s
    /\ (terminal s -> s2 = s)
    /\ (~ terminal s -> current_stage s < current_stage s2).
Proof.
  intro Hc. pose proof (SessionInvariantFacts.consistent_wf s Hc) as Hwf.
  pose proof (DiscoverySessionFacts.wf_bounds s Hwf) as Hb.
  destruct (Z.lt_ge_cases (current_stage s) len_stages) as [Hlt|Hge].
  - destruct (SessionInvariantFacts.advance_below s Hwf Hlt)
      as (name & p & _ & _ & Hadv).
    pose proof (SessionInvariantFacts.advance_consistent _ _ Hc Hadv) as Hc1.
    match type of Hadv with _ = Ok ?s1' => set (s1 := s1') in * end.
    destruct (SessionInvariantFacts.question_depth_returns
                _ s1 recursion_limit Hc1 eq_refl)
      as (q & s2 & Hq & Hc2 & Hresp & _ & Hstage & _).
    { subst s1. cbn [current_stage]. unfold recursion_limit.
      change len_stages with 6 in *. lia. }
    exists s1, q, s2. split; [exact Hadv|]. split; [exact Hq|].
    split; [exact Hc2|]. split; [now rewrite Hresp|].
    split; [unfold terminal; lia|].
    intros _. subst s1. cbn [current_stage] in Hstage. lia.
  - destruct (JourneyFacts.session_step_terminal s "" "" Hge) as (_ & Hcur & Hadv & _).
    exists s, None, s. split; [exact Hadv|]. split.
    + unfold get_next_question, recursion_limit. cbn [get_next_question_depth].
      rewrite Hcur. reflexivity.
    + split; [exact Hc|]. split; [reflexivity|]. split; [reflexivity|].
      intro H. exfalso. apply H. exact Hge.
Qed.

(** X23: what the commands of the plain loop do, on a session whose
    counters are consistent.  [quit], [exit] and [bye] (in any case, with
    spaces around) write the session file and end the loop; [save] writes
    it and goes on; [progress] and a blank line change nothing; [skip]
    never ends the loop and never touches the answers: it moves to a later
    stage, or changes nothing once the journey is completed.  An answer
    typed after the journey is completed ends the loop without writing the
    session file. *)
Theorem commands_of_the_plain_loop :
  forall self line,
    consistent (discovery_session self) = true ->
    let user_input := strip (typed line) in
    (In (lower user_input) ["quit"; "exit"; "bye"] ->
     exists session_data,
       save_session (discovery_session self) (saved_at line) = Ok session_data
       /\ iteration self line
          = Ok ({| discovery_session := discovery_session self;
                   session_file := Some session_data |}, false))
    /\ (lower user_input = "save" ->
        exists session_data,
          save_session (discovery_session self) (saved_at line) = Ok session_data
          /\ iteration self line
             = Ok ({| discovery_session := discovery_session self;
                      session_file := Some session_data |}, true))
    /\ (lower user_input = "progress" \/ user_input = "" ->
        iteration self line = Ok (self, true))
    /\ (lower user_input = "skip" ->
        exists session,
          iteration self line = Ok (with_session self session, true)
          /\ consistent session = true
          /\ user_responses session = user_responses (discovery_session self)
          /\ (terminal (discovery_session self) -> session = discovery_session self)
          /\ (~ terminal (discovery_session self) ->
              current_stage (discovery_session self) < current_stage session))
    /\ (is_answer line = true -> terminal (discovery_session self) ->
        iteration self line = Ok (self, false)).
Proof.
  intros self line Hc user_input.
  destruct (save_returns self (saved_at line) Hc) as (session_data & Hdata & Hsave).
  assert (Hwf := SessionInvariantFacts.consistent_wf _ Hc).
  destruct (StoreFacts.get_current_stage_wf _ Hwf) as (name & Hname).
  split; [|split; [|split; [|split]]].
  - intro Hquit. exists session_data. split; [exact Hdata|].
    unfold iteration. cbv zeta. fold user_input.
    now rewrite (ScoringFacts.mem_in _ _ Hquit), Hsave.
  - intro Hcommand. exists session_data. split; [exact Hdata|].
    unfold iteration. cbv zeta. fold user_input.
    now rewrite Hcommand, Hsave.
  - intro Hcommand. unfold iteration. cbv zeta. fold user_input.
    unfold get_session_summary. rewrite Hname.
    destruct Hcommand as [-> | ->]; reflexivity.
  - intro Hcommand. unfold iteration. cbv zeta. fold user_input. rewrite Hcommand.
    destruct (skip_returns _ Hc) as (s1 & q & s2 & -> & Hq & Hrest).
    cbn [mem existsb String.eqb Ascii.eqb Bool.eqb orb bind]. rewrite Hq.
    exists s2. split; [reflexivity | exact Hrest].
  - intros Hanswer Hterminal. rewrite (iteration_answer _ _ Hanswer).
    destruct (JourneyFacts.session_step_terminal
                _ (strip (typed line)) (answered_at line) Hterminal) as (Hpr & _).
    unfold answer. rewrite Hpr. cbn [bind snd fst negb].
    destruct self. reflexivity.
Qed.

Lemma commands_of_the_plain_loop_witness :
  let self := __init__ "20240101_120000" in
  let line := {| typed := " SKIP "; answered_at := "2024-01-01T12:00:00";
                 saved_at := "2024-01-01T12:00:01" |} in
  consistent (discovery_session self) = true
  /\ exists session,
       iteration self line = Ok (with_session self session, true)
       /\ consistent session = true
       /\ user_responses session = user_responses (discovery_session self)
       /\ (terminal (discovery_session self) -> session = discovery_session self)
       /\ (~ terminal (discovery_session self) ->
           current_stage (discovery_session self) < current_stage session).
Proof.
  cbv zeta. split; [reflexivity|].
  refine (proj1 (proj2 (proj2 (proj2
            (commands_of_the_plain_loop
               (__init__ "20240101_120000")
               {| typed := " SKIP "; answered_at := "2024-01-01T12:00:00";
                  saved_at := "2024-01-01T12:00:01" |} _)))) _);
    reflexivity.
Defined.

End PlainJourneyFacts.

(** ** The pattern history and its summary *)

Module HistoryFacts.
Import Py Corpus DynamicQuestioningEngine PatternSpec SortSpec HistorySpec.

Lemma sorted_by_confidence_sort_desc patterns :
  sorted_by_confidence patterns = sort_desc confidence patterns.
Proof.
  unfold sorted_by_confidence, sort_desc.
  assert (Hins : forall p l, insert_by_confidence p l = insert_desc confidence p l).
  { intros p l. induction l as [|h t IH]; [reflexivity|].
    cbn [insert_by_confidence insert_desc]. now rewrite IH. }
  generalize (@nil ResponsePattern).
  induction patterns as [|p patterns IH]; intro acc; [reflexivity|].
  cbn [fold_left]. now rewrite Hins, IH.
Qed.

Lemma spec_score_range rule text :
  small_rule rule ->
  (spec_score rule text =? spec_score rule text)%float = true
  /\ (spec_score rule text <=? 1.0)%float = true.
Proof.
  intros [Hk Hp]. unfold spec_score.
  pose proof (ScoringFacts.count_in_bounds (keywords rule) text) as Hk'.
  pose proof (ScoringFacts.count_in_bounds (phrases rule) text) as Hp'.
  assert (Ek : 0 <= count_in (keywords rule) text <= 6) by lia.
  assert (Ep : 0 <= count_in (phrases rule) text <= 3) by lia.
  revert Ek Ep. generalize (count_in (keywords rule) text) (count_in (phrases rule) text).
  intros k p Ek Ep.
  assert (Hall :
    forallb (fun k => forallb (fun p =>
      let score := fmin (int_to_float k * 0.2 + int_to_float p * 0.3)%float 1.0 in
      (score =? score)%float && (score <=? 1.0)%float)
      [0; 1; 2; 3]) [0; 1; 2; 3; 4; 5; 6] = true) by (vm_compute; reflexivity).
  rewrite forallb_forall in Hall.
  specialize (Hall k ltac:(cbn [In]; lia)).
  rewrite forallb_forall in Hall.
  specialize (Hall p ltac:(cbn [In]; lia)). cbv zeta in Hall.
  now apply andb_true_iff in Hall.
Qed.

(** What one detection pass emits. *)
Lemma detected_pattern text stage pattern :
  In pattern (detect pattern_rules text stage) ->
  In (pattern_name pattern) (keys pattern_rules)
  /\ (confidence pattern =? confidence pattern)%float = true
  /\ (0.6 <=? confidence pattern)%float = true
  /\ (confidence pattern <=? 1.0)%float = true.
Proof.
  rewrite (PatternFacts.detect_spec _ _ _ PatternFacts.pattern_rules_small).
  intro Hin. apply in_flat_map in Hin as ([name rule] & Hrule & Hin).
  cbn [fst snd] in Hin. unfold spec_pattern in Hin.
  destruct (spec_emitted rule text) eqn:Hemit; [|destruct Hin].
  destruct Hin as [<-|[]]. cbn [pattern_name confidence].
  assert (Hsmall : small_rule rule).
  { pose proof PatternFacts.pattern_rules_small as Hall.
    rewrite Forall_forall in Hall. exact (Hall _ Hrule). }
  destruct (spec_score_range rule text Hsmall) as [Hnan Hle].
  split; [|split; [exact Hnan | split; [|exact Hle]]].
  - unfold keys. change name with (fst (name, rule)). now apply in_map.
  - unfold spec_emitted in Hemit. apply andb_true_iff in Hemit as [Hth _].
    destruct (PatternFacts.pattern_rules_thresholds _ _ Hrule) as [E|E];
      rewrite E in Hth; [exact Hth|].
    apply FloatOrderFacts.leb_trans with (b := 0.7%float); [|exact Hth].
    vm_compute. reflexivity.
Qed.

Lemma passes_history calls :
  forall self,
    exists new,
      response_patterns (passes self calls) = response_patterns self ++ new
      /\ dynamic_questions_asked (passes self calls) = dynamic_questions_asked self
      /\ coverage_status (passes self calls) = coverage_status self
      /\ Forall (fun pattern =>
                   In (pattern_name pattern) (keys pattern_rules)
                   /\ (confidence pattern =? confidence pattern)%float = true
                   /\ (0.6 <=? confidence pattern)%float = true
                   /\ (confidence pattern <=? 1.0)%float = true)
                new.
Proof.
  induction calls as [|[user_responses stage] calls IH]; intro self.
  - exists []. cbn [passes]. rewrite app_nil_r. repeat split. constructor.
  - cbn [passes].
    set (next := snd (analyze_response_patterns self user_responses stage)).
    destruct (IH next) as (new & Hnew & Hasked & Hcov & Hall).
    exists (detect pattern_rules (lower (join " " (all_responses user_responses))) stage
            ++ new).
    rewrite Hnew, Hasked, Hcov. subst next. unfold analyze_response_patterns.
    cbn [snd response_patterns dynamic_questions_asked coverage_status].
    rewrite <- app_assoc.
    split; [reflexivity|]. split; [reflexivity|]. split; [reflexivity|].
    apply Forall_app. split; [|exact Hall].
    apply Forall_forall. intros pattern Hin. now apply detected_pattern in Hin.
Qed.

(** X24: [get_questioning_summary] after any sequence of
    [analyze_response_patterns] calls on a new engine.  Its strongest
    patterns are the first three of the history in descending order of
    confidence (all of them when the history is shorter): each is a
    detection of a rule of the library with a confidence between 0.6 and
    1.0, and no pattern left out has a higher confidence than one listed.
    The number of high-confidence patterns never exceeds the number of
    patterns identified, and no call has recorded a question asked. *)
Theorem strongest_patterns_ranked :
  forall calls,
    let self := passes __init__ calls in
    let summary := get_questioning_summary self in
    patterns_identified summary = Z.of_nat (List.length (response_patterns self))
    /\ List.length (strongest_patterns summary)
       = Nat.min 3 (List.length (response_patterns self))
    /\ descending (map snd (strongest_patterns summary)) = true
    /\ (forall entry, In entry (strongest_patterns summary) ->
          exists pattern,
            In pattern (response_patterns self)
            /\ entry = (pattern_name pattern, confidence pattern)
            /\ In (pattern_name pattern) (keys pattern_rules)
            /\ (0.6 <=? confidence pattern)%float = true
            /\ (confidence pattern <=? 1.0)%float = true)
    /\ (forall pattern, In pattern (response_patterns self) ->
          In (pattern_name pattern, confidence pattern) (strongest_patterns summary)
          \/ forall entry, In entry (strongest_patterns summary) ->
                           (confidence pattern <=? snd entry)%float = true)
    /\ 0 <= high_confidence_patterns summary <= patterns_identified summary
    /\ summary_questions_asked summary = 0.
Proof.
  intros calls self summary. subst summary self.
  destruct (passes_history calls __init__) as (history & Hhistory & Hasked & _ & Hall).
  change (response_patterns __init__) with (@nil ResponsePattern) in Hhistory.
  cbn [app] in Hhistory.
  unfold get_questioning_summary.
  cbn [patterns_identified strongest_patterns high_confidence_patterns
       summary_questions_asked].
  rewrite Hasked, Hhistory, sorted_by_confidence_sort_desc.
  destruct (SortFacts.sort_desc_spec confidence history) as (Hin & Hlen & Hdesc).
  rewrite Forall_forall in Hall.
  assert (Hsorted : descending (map confidence (sort_desc confidence history)) = true).
  { apply Hdesc. apply Forall_forall. intros p Hp. now apply Hall. }
  rewrite <- (firstn_skipn 3 (sort_desc confidence history)), map_app in Hsorted.
  destruct (AssessmentFacts.descending_app _ _ Hsorted) as (Htop & _ & Hcross).
  split; [reflexivity|]. split.
  { rewrite length_map, length_firstn, Hlen. reflexivity. }
  split.
  { rewrite map_map. cbn [snd]. exact Htop. }
  split.
  { intros entry Hentry. apply in_map_iff in Hentry as (pattern & <- & Hp).
    apply AnalyzerFacts.firstn_in, Hin in Hp.
    exists pattern. split; [exact Hp|]. split; [reflexivity|].
    destruct (Hall _ Hp) as (Hname & _ & Hlow & Hhigh). repeat split; assumption. }
  split.
  { intros pattern Hp. apply Hin in Hp.
    rewrite <- (firstn_skipn 3 (sort_desc confidence history)) in Hp.
    apply in_app_or in Hp as [Hp|Hp].
    - left. apply in_map_iff. exists pattern. split; [reflexivity | exact Hp].
    - right. intros entry Hentry.
      apply in_map_iff in Hentry as (listed & <- & Hlisted). cbn [snd].
      apply Hcross; now apply in_map. }
  split; [|reflexivity].
  pose proof (filter_length_le (fun p => (0.8 <=? confidence p)%float) history).
  lia.
Qed.

End HistoryFacts.
